(** * chemprop/parsing.py: resolution and validation of training arguments

    A shallow embedding of [update_args_from_checkpoint_dir] and
    [modify_train_args].  The [Namespace] built by [add_train_args] is a
    record of typed attributes; the float lists that the learning-rate block
    mutates in place live in a store of list objects, so that two attributes
    (or two namespaces) holding the same list see each other's updates.

    Conventions.
    - Python [float] is IEEE 754 binary64, which is Rocq's primitive [float].
    - A path is a string; paths are joined as [posixpath.join] does.
    - [assert] statements are taken as executed (no [-O]).
    - [os.makedirs] and [TemporaryDirectory()] are taken not to raise; all
      filesystem queries see the tree as it is after the save directory was
      created. *)

From Stdlib Require Import ZArith Ascii String List Floats Lia Bool.
From stdpp Require Import base tactics list functions.
From coqutil Require Import Datatypes.RecordSetters.
Import ListNotations.
Import DoubleBraceUpdate.
Local Open Scope Z_scope.
Local Open Scope string_scope.

(** ** Exceptions *)

(** The exceptions the two functions can raise.  The typed kinds carry the
    values formatted into the message of the [raise] they stand for.
    - [UnsupportedKernelFunctionError]: [ValueError], line 351.
    - [IncompatibleMetricError]: [ValueError], line 359.
    - [NoCheckpointsFoundError]: [ValueError], line 314.
    - [MissingVocabularyError]: [ValueError], line 367 (no path in the
      message) and line 369 (the path in the message).
    - [IncompatibleModeError]: [assert], lines 374 and 382.
    - [MissingFeatureSourceError]: [assert], line 378.
    - [InvalidGroupCountError]: [assert], line 391.
    - [InvalidLayerCountError]: [assert], line 403.
    - [InvalidSplitConfigurationError]: [assert], lines 412 and 413.
    The remaining three are the interpreter's own. *)
Inductive error : Type :=
| UnsupportedKernelFunctionError (kernel_func : option string)
| IncompatibleMetricError (metric dataset_type : string)
| NoCheckpointsFoundError (checkpoint_dir : string)
| MissingVocabularyError (vocab_path : option string)
| IncompatibleModeError
| MissingFeatureSourceError
| InvalidGroupCountError
| InvalidLayerCountError
| InvalidSplitConfigurationError
| AttributeError (name : string)
| TypeError
| IndexError.

Inductive result (A : Type) : Type :=
| OK (x : A)
| Err (e : error).
Arguments OK {A} x.
Arguments Err {A} e.

Definition bind {A B : Type} (m : result A) (k : A -> result B) : result B :=
  match m with
  | OK x => k x
  | Err e => Err e
  end.

Notation "'do' x <- m ; k" := (bind m (fun x => k))
  (at level 10, x name, m at level 100, k at level 200).
Notation "'do' ' p <- m ; k" := (bind m (fun x => match x with p => k end))
  (at level 10, p pattern, m at level 100, k at level 200).

(** [assert c] raising [e]. *)
Definition assert (c : bool) (e : error) : result unit :=
  if c then OK tt else Err e.

(** ** Python values *)

(** An attribute of a namespace: there or not ([hasattr], [del]). *)
Inductive attr (T : Type) : Type :=
| Absent
| Present (v : T).
Arguments Absent {T}.
Arguments Present {T} v.

Definition getattr {T : Type} (name : string) (x : attr T) : result T :=
  match x with
  | Present v => OK v
  | Absent => Err (AttributeError name)
  end.

Definition hasattr {T : Type} (x : attr T) : bool :=
  match x with
  | Present _ => true
  | Absent => false
  end.

(** [x in [s1, ..., sn]] for strings. *)
Definition in_list (x : string) (l : list string) : bool :=
  existsb (String.eqb x) l.

(** The same test when [x] may be [None], which no string equals. *)
Definition opt_in_list (x : option string) (l : list string) : bool :=
  match x with
  | Some s => in_list s l
  | None => false
  end.

(** [x is not None]. *)
Definition is_not_none {T : Type} (x : option T) : bool :=
  match x with
  | Some _ => true
  | None => false
  end.

(** The values [use_input_features] can hold: [a or b] returns one of its
    operands, not a boolean. *)
Inductive pyobj : Type :=
| PyNone
| PyBool (b : bool)
| PyStr (s : string)
| PyList (l : list string).

Definition truthy (v : pyobj) : bool :=
  match v with
  | PyNone => false
  | PyBool b => b
  | PyStr s => negb (s =? "")
  | PyList l => match l with [] => false | _ :: _ => true end
  end.

Definition py_or (x y : pyobj) : pyobj :=
  if truthy x then x else y.

Definition of_opt_str (x : option string) : pyobj :=
  match x with
  | Some s => PyStr s
  | None => PyNone
  end.

Definition of_opt_list (x : option (list string)) : pyobj :=
  match x with
  | Some l => PyList l
  | None => PyNone
  end.

(** ** The store of list objects *)

(** The identity of a Python list of floats, and the contents of every such
    list.  [lr_param *= 2] and [xs[i] *= s] update the list in place. *)
Abbreviation loc := nat (only parsing).
Abbreviation store := (nat -> list float) (only parsing).

(** ** The filesystem *)

Inductive node : Type :=
| File
| Dir (entries : list (string * node)).

(** What the process sees around it: the tree a path resolves to, the name
    [TemporaryDirectory()] returns, and [torch.cuda.is_available()]. *)
Record Env : Type := mkEnv {
  resolve : string -> option node;
  mkdtemp : string;
  cuda_is_available : bool
}.

(** [os.path.exists]; [None] is not a path and [os.stat] raises. *)
Definition os_path_exists (env : Env) (p : option string) : result bool :=
  match p with
  | None => Err TypeError
  | Some s => OK (is_not_none (resolve env s))
  end.

Definition os_path_isdir (env : Env) (p : string) : bool :=
  match resolve env p with
  | Some (Dir _) => true
  | _ => false
  end.

Definition startswith_sep (s : string) : bool :=
  match s with
  | String c _ => Ascii.eqb c "/"%char
  | EmptyString => false
  end.

Fixpoint endswith_sep (s : string) : bool :=
  match s with
  | EmptyString => false
  | String c EmptyString => Ascii.eqb c "/"%char
  | String _ s' => endswith_sep s'
  end.

(** [posixpath.join] of two components. *)
Definition os_path_join (a b : string) : string :=
  if startswith_sep b then b
  else if (a =? "") || endswith_sep a then a ++ b
  else a ++ "/" ++ b.

Definition is_dir (n : node) : bool :=
  match n with
  | Dir _ => true
  | File => false
  end.

Definition dirnames (es : list (string * node)) : list string :=
  map fst (List.filter (fun e => is_dir (snd e)) es).

Definition filenames (es : list (string * node)) : list string :=
  map fst (List.filter (fun e => negb (is_dir (snd e))) es).

(** [os.walk], top down: the triple of a directory, then the walks of its
    sub-directories in listing order.  Walking something that is not a
    directory yields nothing. *)
Fixpoint walk (root : string) (n : node)
  : list (string * list string * list string) :=
  match n with
  | File => []
  | Dir es =>
      (root, dirnames es, filenames es) ::
      flat_map (fun e => walk (os_path_join root (fst e)) (snd e)) es
  end.

Definition os_walk (env : Env) (top : string)
  : list (string * list string * list string) :=
  match resolve env top with
  | Some n => walk top n
  | None => []
  end.

(** The number of files named [model.pt] in a tree, at any depth. *)
Fixpoint count_artifacts (n : node) : nat :=
  match n with
  | File => 0
  | Dir es =>
      list_sum
        (map (fun e =>
                match snd e with
                | File => if fst e =? "model.pt" then 1%nat else 0%nat
                | Dir _ => count_artifacts (snd e)
                end) es)
  end.

(** ** The namespace *)

(** The attributes [modify_train_args] reads or writes, with the types
    [add_train_args] declares ([option] where the default is [None]).  An
    attribute the code adds, deletes or tests with [hasattr] is an [attr].
    The six learning-rate attributes hold references into the store.  The
    attributes of [add_train_args] that the function never touches are left
    out; they pass through unchanged. *)
Record Namespace : Type := mkNamespace {
  data_path : string;
  prespecified_chunk_dir : attr (option string);
  test : bool;
  epochs : Z;
  vocab_path : attr (option string);
  jtnn : bool;
  features_only : bool;
  features_generator : option (list string);
  features_path : option string;
  use_input_features : attr pyobj;
  predict_features : bool;
  predict_features_and_task : bool;
  save_dir : option string;
  checkpoint_dir : option string;
  checkpoint_paths : attr (option (list string));
  ensemble_size : Z;
  dataset_type : string;
  split_type : string;
  scaffold_overlap : option float;
  folds_file : option string;
  test_fold_index : option Z;
  metric : option string;
  minimize_score : attr bool;
  no_cuda : attr bool;
  cuda : attr bool;
  no_target_scaling : attr bool;
  target_scaling : attr bool;
  no_features_scaling : attr bool;
  features_scaling : attr bool;
  bert_vocab_func : string;
  kernel_func : option string;
  separate_ffn_lr : bool;
  num_lrs : attr Z;
  init_lr : loc;
  max_lr : loc;
  final_lr : loc;
  lr_scaler : attr loc;
  warmup_epochs : loc;
  weight_decay : loc;
  hidden_size : Z;
  dropout : float;
  ffn_hidden_size : option Z;
  ffn_input_dropout : option float;
  ffn_dropout : option float;
  ffn_num_layers : Z
}.

(** One setter for each attribute, so that [a {{ f := v }}] is [a] with [f]
    replaced by [v] wherever it is written. *)
#[global] Instance setter_data_path : Setter data_path :=
  ltac:(setter Namespace string data_path).
#[global] Instance setter_prespecified_chunk_dir : Setter prespecified_chunk_dir :=
  ltac:(setter Namespace (attr (option string)) prespecified_chunk_dir).
#[global] Instance setter_test : Setter test :=
  ltac:(setter Namespace bool test).
#[global] Instance setter_epochs : Setter epochs :=
  ltac:(setter Namespace Z epochs).
#[global] Instance setter_vocab_path : Setter vocab_path :=
  ltac:(setter Namespace (attr (option string)) vocab_path).
#[global] Instance setter_jtnn : Setter jtnn :=
  ltac:(setter Namespace bool jtnn).
#[global] Instance setter_features_only : Setter features_only :=
  ltac:(setter Namespace bool features_only).
#[global] Instance setter_features_generator : Setter features_generator :=
  ltac:(setter Namespace (option (list string)) features_generator).
#[global] Instance setter_features_path : Setter features_path :=
  ltac:(setter Namespace (option string) features_path).
#[global] Instance setter_use_input_features : Setter use_input_features :=
  ltac:(setter Namespace (attr pyobj) use_input_features).
#[global] Instance setter_predict_features : Setter predict_features :=
  ltac:(setter Namespace bool predict_features).
#[global] Instance setter_predict_features_and_task : Setter predict_features_and_task :=
  ltac:(setter Namespace bool predict_features_and_task).
#[global] Instance setter_save_dir : Setter save_dir :=
  ltac:(setter Namespace (option string) save_dir).
#[global] Instance setter_checkpoint_dir : Setter checkpoint_dir :=
  ltac:(setter Namespace (option string) checkpoint_dir).
#[global] Instance setter_checkpoint_paths : Setter checkpoint_paths :=
  ltac:(setter Namespace (attr (option (list string))) checkpoint_paths).
#[global] Instance setter_ensemble_size : Setter ensemble_size :=
  ltac:(setter Namespace Z ensemble_size).
#[global] Instance setter_dataset_type : Setter dataset_type :=
  ltac:(setter Namespace string dataset_type).
#[global] Instance setter_split_type : Setter split_type :=
  ltac:(setter Namespace string split_type).
#[global] Instance setter_scaffold_overlap : Setter scaffold_overlap :=
  ltac:(setter Namespace (option float) scaffold_overlap).
#[global] Instance setter_folds_file : Setter folds_file :=
  ltac:(setter Namespace (option string) folds_file).
#[global] Instance setter_test_fold_index : Setter test_fold_index :=
  ltac:(setter Namespace (option Z) test_fold_index).
#[global] Instance setter_metric : Setter metric :=
  ltac:(setter Namespace (option string) metric).
#[global] Instance setter_minimize_score : Setter minimize_score :=
  ltac:(setter Namespace (attr bool) minimize_score).
#[global] Instance setter_no_cuda : Setter no_cuda :=
  ltac:(setter Namespace (attr bool) no_cuda).
#[global] Instance setter_cuda : Setter cuda :=
  ltac:(setter Namespace (attr bool) cuda).
#[global] Instance setter_no_target_scaling : Setter no_target_scaling :=
  ltac:(setter Namespace (attr bool) no_target_scaling).
#[global] Instance setter_target_scaling : Setter target_scaling :=
  ltac:(setter Namespace (attr bool) target_scaling).
#[global] Instance setter_no_features_scaling : Setter no_features_scaling :=
  ltac:(setter Namespace (attr bool) no_features_scaling).
#[global] Instance setter_features_scaling : Setter features_scaling :=
  ltac:(setter Namespace (attr bool) features_scaling).
#[global] Instance setter_bert_vocab_func : Setter bert_vocab_func :=
  ltac:(setter Namespace string bert_vocab_func).
#[global] Instance setter_kernel_func : Setter kernel_func :=
  ltac:(setter Namespace (option string) kernel_func).
#[global] Instance setter_separate_ffn_lr : Setter separate_ffn_lr :=
  ltac:(setter Namespace bool separate_ffn_lr).
#[global] Instance setter_num_lrs : Setter num_lrs :=
  ltac:(setter Namespace (attr Z) num_lrs).
#[global] Instance setter_init_lr : Setter init_lr :=
  ltac:(setter Namespace loc init_lr).
#[global] Instance setter_max_lr : Setter max_lr :=
  ltac:(setter Namespace loc max_lr).
#[global] Instance setter_final_lr : Setter final_lr :=
  ltac:(setter Namespace loc final_lr).
#[global] Instance setter_lr_scaler : Setter lr_scaler :=
  ltac:(setter Namespace (attr loc) lr_scaler).
#[global] Instance setter_warmup_epochs : Setter warmup_epochs :=
  ltac:(setter Namespace loc warmup_epochs).
#[global] Instance setter_weight_decay : Setter weight_decay :=
  ltac:(setter Namespace loc weight_decay).
#[global] Instance setter_hidden_size : Setter hidden_size :=
  ltac:(setter Namespace Z hidden_size).
#[global] Instance setter_dropout : Setter dropout :=
  ltac:(setter Namespace float dropout).
#[global] Instance setter_ffn_hidden_size : Setter ffn_hidden_size :=
  ltac:(setter Namespace (option Z) ffn_hidden_size).
#[global] Instance setter_ffn_input_dropout : Setter ffn_input_dropout :=
  ltac:(setter Namespace (option float) ffn_input_dropout).
#[global] Instance setter_ffn_dropout : Setter ffn_dropout :=
  ltac:(setter Namespace (option float) ffn_dropout).
#[global] Instance setter_ffn_num_layers : Setter ffn_num_layers :=
  ltac:(setter Namespace Z ffn_num_layers).

(** The attributes that are read and never written. *)
Definition read_only (a : Namespace) :=
  (test a, vocab_path a, jtnn a, features_only a, features_generator a,
   features_path a, predict_features_and_task a, checkpoint_dir a,
   dataset_type a, split_type a, scaffold_overlap a, folds_file a,
   test_fold_index a, bert_vocab_func a, kernel_func a,
   init_lr a, max_lr a, final_lr a, warmup_epochs a, weight_decay a,
   hidden_size a, dropout a, ffn_num_layers a).

(** ** update_args_from_checkpoint_dir *)

(** The paths appended while walking: one [os.path.join(root, fname)] for
    each [fname == 'model.pt'] of each triple, in walking order. *)
Definition collect_checkpoints (w : list (string * list string * list string))
  : list string :=
  flat_map (fun t =>
    map (os_path_join (fst (fst t)))
        (List.filter (fun fname => fname =? "model.pt") (snd t))) w.

Definition update_args_from_checkpoint_dir (env : Env) (args : Namespace)
  : result Namespace :=
  match checkpoint_dir args with
  | None => OK (args {{ checkpoint_paths := Present None }})
  | Some dir =>
      let paths := collect_checkpoints (os_walk env dir) in
      let args := args {{ checkpoint_paths := Present (Some paths) }} in
      let args := args {{ ensemble_size := Z.of_nat (length paths) }} in
      if (ensemble_size args =? 0)%Z then Err (NoCheckpointsFoundError dir)
      else OK args
  end.

(** ** modify_train_args, block by block *)

(** Lines 321-325. *)
Definition create_save_dir (env : Env) (args : Namespace) : Namespace :=
  match save_dir args with
  | Some _ => args
  | None => args {{ save_dir := Some (mkdtemp env) }}
  end.

(** Lines 327-334: each negative flag is read, its positive counterpart
    is set, and the negative flag is deleted. *)
Definition invert_flags (env : Env) (args : Namespace) : result Namespace :=
  do nc <- getattr "no_cuda" (no_cuda args);
  let args := args {{ cuda := Present (negb nc && cuda_is_available env) }} in
  let args := args {{ no_cuda := Absent }} in
  do nt <- getattr "no_target_scaling" (no_target_scaling args);
  let args := args {{ target_scaling := Present (negb nt) }} in
  let args := args {{ no_target_scaling := Absent }} in
  do nf <- getattr "no_features_scaling" (no_features_scaling args);
  let args := args {{ features_scaling := Present (negb nf) }} in
  let args := args {{ no_features_scaling := Absent }} in
  OK args.

(** Lines 336-353. *)
Definition default_metric (args : Namespace) : result Namespace :=
  match metric args with
  | Some _ => OK args
  | None =>
      if dataset_type args =? "classification" then
        OK (args {{ metric := Some "auc" }})
      else if dataset_type args =? "unsupervised" then
        OK (args {{ metric := Some "log_loss" }})
      else if dataset_type args =? "bert_pretraining" then
        if bert_vocab_func args =? "feature_vector" then
          OK (args {{ metric := Some "rmse" }})
        else if negb (opt_in_list (metric args)
                        ["log_loss"; "argmax_accuracy";
                         "majority_baseline_accuracy"]) then
          OK (args {{ metric := Some "log_loss" }})
        else OK args
      else if dataset_type args =? "kernel" then
        if opt_in_list (kernel_func args) ["features"; "features_dot"; "WL"]
        then OK (args {{ metric := Some "rmse" }})
        else Err (UnsupportedKernelFunctionError (kernel_func args))
      else OK (args {{ metric := Some "rmse" }})
  end.

(** The condition of lines 355-357: the metric is one the dataset type
    allows. *)
Definition metric_allowed (args : Namespace) : bool :=
  ((dataset_type args =? "classification")
     && opt_in_list (metric args) ["auc"; "prc-auc"; "accuracy"])
  || (((dataset_type args =? "regression")
         || (dataset_type args =? "regression_with_binning"))
        && opt_in_list (metric args) ["rmse"; "mae"; "r2"])
  || ((dataset_type args =? "kernel") && opt_in_list (metric args) ["rmse"]).

(** Lines 355-359. *)
Definition check_metric (args : Namespace) : result unit :=
  if negb (metric_allowed args)
     && negb (in_list (dataset_type args) ["unsupervised"; "bert_pretraining"])
  then
    match metric args with
    | Some m => Err (IncompatibleMetricError m (dataset_type args))
    | None => Err (IncompatibleMetricError "None" (dataset_type args))
    end
  else OK tt.

(** Line 361. *)
Definition set_minimize_score (args : Namespace) : Namespace :=
  args {{ minimize_score :=
            Present (opt_in_list (metric args) ["rmse"; "mae"; "log_loss"]) }}.

(** Lines 365-369. *)
Definition check_vocab (env : Env) (args : Namespace) : result unit :=
  if jtnn args then
    match vocab_path args with
    | Absent => Err (MissingVocabularyError None)
    | Present p =>
        do found <- os_path_exists env p;
        if negb found then Err (MissingVocabularyError p) else OK tt
    end
  else OK tt.

(** [args.features_generator or args.features_path]. *)
Definition feature_source (args : Namespace) : pyobj :=
  py_or (of_opt_list (features_generator args)) (of_opt_str (features_path args)).

(** Lines 371-383. *)
Definition derive_feature_usage (args : Namespace) : result Namespace :=
  let args := args {{ use_input_features := Present (feature_source args) }} in
  do args <-
    (if predict_features_and_task args then
       do _ <- assert (dataset_type args =? "regression") IncompatibleModeError;
       OK (args {{ predict_features := true }})
     else OK args);
  do args <-
    (if predict_features args
        || opt_in_list (kernel_func args) ["features"; "features_dot"] then
       do _ <- assert (truthy (feature_source args)) MissingFeatureSourceError;
       OK (args {{ use_input_features := Present (PyBool false) }})
     else OK args);
  if dataset_type args =? "bert_pretraining" then
    do _ <- assert (negb (features_only args)) IncompatibleModeError;
    OK (args {{ use_input_features := Present (PyBool false) }})
  else OK args.

(** Lines 385-386. *)
Definition force_separate_ffn_lr (args : Namespace) : Namespace :=
  if dataset_type args =? "unsupervised" then args {{ separate_ffn_lr := true }}
  else args.

(** The body of the loop of lines 390-394 for one [lr_param]. *)
Definition broadcast_param (n : Z) (separate : bool) (h : store) (lr_param : loc)
  : result store :=
  let len := Z.of_nat (length (h lr_param)) in
  do _ <- assert ((1 <=? len)%Z && (len <=? n)%Z) InvalidGroupCountError;
  if separate then
    if (len =? 1)%Z then OK (<[lr_param := (h lr_param ++ h lr_param)%list]> h)
    else OK h
  else OK h.

Fixpoint broadcast_params (n : Z) (separate : bool) (h : store)
    (lr_params : list loc) : result store :=
  match lr_params with
  | [] => OK h
  | lr_param :: rest =>
      do h <- broadcast_param n separate h lr_param;
      broadcast_params n separate h rest
  end.

(** [target[i] *= source[i]], an [IndexError] when [i] is out of range. *)
Definition imul_item (h : store) (target source : loc) (i : nat) : result store :=
  match h target !! i with
  | None => Err IndexError
  | Some x =>
      match h source !! i with
      | None => Err IndexError
      | Some s => OK (<[target := <[i := PrimFloat.mul x s]> (h target)]> h)
      end
  end.

(** The body of the loop of lines 396-399 for one [i]. *)
Definition scale_group (args : Namespace) (scaler : loc) (h : store) (i : nat)
  : result store :=
  do h <- imul_item h (init_lr args) scaler i;
  do h <- imul_item h (max_lr args) scaler i;
  imul_item h (final_lr args) scaler i.

Fixpoint scale_groups (args : Namespace) (scaler : loc) (h : store)
    (range : list nat) : result store :=
  match range with
  | [] => OK h
  | i :: rest =>
      do h <- scale_group args scaler h i;
      scale_groups args scaler h rest
  end.

(** Lines 388-401. *)
Definition scale_learning_rates (h : store) (args : Namespace)
  : result (Namespace * store) :=
  let n := 1 + Z.b2z (separate_ffn_lr args) in
  let args := args {{ num_lrs := Present n }} in
  do scaler <- getattr "lr_scaler" (lr_scaler args);
  let lr_params := [init_lr args; max_lr args; final_lr args; scaler;
                    warmup_epochs args; weight_decay args] in
  do h <- broadcast_params n (separate_ffn_lr args) h lr_params;
  do h <- scale_groups args scaler h (seq 0 (Z.to_nat n));
  OK (args {{ lr_scaler := Absent }}, h).

(** Lines 403-410. *)
Definition ffn_defaults (args : Namespace) : result Namespace :=
  do _ <- assert (1 <=? ffn_num_layers args)%Z InvalidLayerCountError;
  let args :=
    match ffn_hidden_size args with
    | None => args {{ ffn_hidden_size := Some (hidden_size args) }}
    | Some _ => args
    end in
  let args :=
    match ffn_input_dropout args with
    | None => args {{ ffn_input_dropout := Some (dropout args) }}
    | Some _ => args
    end in
  let args :=
    match ffn_dropout args with
    | None => args {{ ffn_dropout := Some (dropout args) }}
    | Some _ => args
    end in
  OK args.

(** Line 412. *)
Definition overlap_consistent (args : Namespace) : bool :=
  Bool.eqb (split_type args =? "scaffold_overlap")
           (is_not_none (scaffold_overlap args)).

(** Line 413: [a == b == c] is [a == b and b == c]. *)
Definition folds_consistent (args : Namespace) : bool :=
  Bool.eqb (split_type args =? "predetermined") (is_not_none (folds_file args))
  && Bool.eqb (is_not_none (folds_file args))
              (is_not_none (test_fold_index args)).

(** Lines 412-413. *)
Definition check_split (args : Namespace) : result unit :=
  do _ <- assert (overlap_consistent args) InvalidSplitConfigurationError;
  assert (folds_consistent args) InvalidSplitConfigurationError.

(** Lines 415-416. *)
Definition test_only (args : Namespace) : Namespace :=
  if test args then args {{ epochs := 0 }} else args.

(** Lines 418-424: the body of the [for] runs once, on the first triple of
    the walk, and takes [names[0]]. *)
Definition detect_chunks (env : Env) (args : Namespace) : result Namespace :=
  if os_path_isdir env (data_path args) then
    let args := args {{ prespecified_chunk_dir := Present (Some (data_path args)) }} in
    match os_walk env (data_path args) with
    | [] => OK args
    | (root, _, names) :: _ =>
        match names with
        | [] => Err IndexError
        | name :: _ => OK (args {{ data_path := os_path_join root name }})
        end
    end
  else OK (args {{ prespecified_chunk_dir := Present None }}).

(** ** modify_train_args

    The body is cut after each block: [through_x] is the function from its
    first line to the end of block [x], so that a statement can speak of an
    input that reaches a given line. *)

Definition through_flags (env : Env) (args : Namespace) : result Namespace :=
  invert_flags env (create_save_dir env args).

Definition through_default_metric (env : Env) (args : Namespace)
  : result Namespace :=
  do args <- through_flags env args;
  default_metric args.

Definition through_metric (env : Env) (args : Namespace) : result Namespace :=
  do args <- through_default_metric env args;
  do _ <- check_metric args;
  OK (set_minimize_score args).

Definition through_checkpoints (env : Env) (args : Namespace)
  : result Namespace :=
  do args <- through_metric env args;
  update_args_from_checkpoint_dir env args.

Definition through_vocab (env : Env) (args : Namespace) : result Namespace :=
  do args <- through_checkpoints env args;
  do _ <- check_vocab env args;
  OK args.

Definition through_features (env : Env) (args : Namespace) : result Namespace :=
  do args <- through_vocab env args;
  derive_feature_usage args.

Definition through_learning_rates (env : Env) (h : store) (args : Namespace)
  : result (Namespace * store) :=
  do args <- through_features env args;
  scale_learning_rates h (force_separate_ffn_lr args).

Definition through_ffn (env : Env) (h : store) (args : Namespace)
  : result (Namespace * store) :=
  do '(args, h) <- through_learning_rates env h args;
  do args <- ffn_defaults args;
  OK (args, h).

Definition through_split (env : Env) (h : store) (args : Namespace)
  : result (Namespace * store) :=
  do '(args, h) <- through_ffn env h args;
  do _ <- check_split args;
  OK (test_only args, h).

Definition modify_train_args (env : Env) (h : store) (args : Namespace)
  : result (Namespace * store) :=
  do '(args, h) <- through_split env h args;
  do args <- detect_chunks env args;
  OK (args, h).

(** ** Broadcasting, as the specification words it *)

(** A sequence of one entry is expanded to two equal entries when there are
    two learning-rate groups; any other sequence is left as it is. *)
Definition broadcast (separate : bool) (xs : list float) : list float :=
  match xs with
  | [x] => if separate then [x; x] else [x]
  | _ => xs
  end.

(** Entry-wise product of a rate sequence and the scale sequence. *)
Definition scaled (xs scale : list float) : list float :=
  zip_with PrimFloat.mul xs scale.

(** The lengths the assertion of line 391 accepts when there are [n]
    groups. *)
Definition in_range (n : Z) (xs : list float) : Prop :=
  1 <= Z.of_nat (length xs) <= n.

(** ** The namespace a successful resolution returns *)

(** In closed form, from the input [a], the metric [m] that was supplied or
    defaulted and the three negative flags. *)
Definition resolved (env : Env) (a : Namespace) (m : string)
    (nc nt nf : bool) : Namespace :=
  {|
    data_path :=
      if os_path_isdir env (data_path a) then
        match os_walk env (data_path a) with
        | (root, _, name :: _) :: _ => os_path_join root name
        | _ => data_path a
        end
      else data_path a;
    prespecified_chunk_dir :=
      Present (if os_path_isdir env (data_path a) then Some (data_path a)
               else None);
    test := test a;
    epochs := if test a then 0 else epochs a;
    vocab_path := vocab_path a;
    jtnn := jtnn a;
    features_only := features_only a;
    features_generator := features_generator a;
    features_path := features_path a;
    use_input_features :=
      Present (if predict_features a || predict_features_and_task a
                  || opt_in_list (kernel_func a) ["features"; "features_dot"]
                  || (dataset_type a =? "bert_pretraining")
               then PyBool false else feature_source a);
    predict_features := predict_features a || predict_features_and_task a;
    predict_features_and_task := predict_features_and_task a;
    save_dir := Some (match save_dir a with
                      | Some d => d
                      | None => mkdtemp env
                      end);
    checkpoint_dir := checkpoint_dir a;
    checkpoint_paths :=
      Present (option_map (fun d => collect_checkpoints (os_walk env d))
                          (checkpoint_dir a));
    ensemble_size :=
      match checkpoint_dir a with
      | Some d => Z.of_nat (length (collect_checkpoints (os_walk env d)))
      | None => ensemble_size a
      end;
    dataset_type := dataset_type a;
    split_type := split_type a;
    scaffold_overlap := scaffold_overlap a;
    folds_file := folds_file a;
    test_fold_index := test_fold_index a;
    metric := Some m;
    minimize_score := Present (in_list m ["rmse"; "mae"; "log_loss"]);
    no_cuda := Absent;
    cuda := Present (negb nc && cuda_is_available env);
    no_target_scaling := Absent;
    target_scaling := Present (negb nt);
    no_features_scaling := Absent;
    features_scaling := Present (negb nf);
    bert_vocab_func := bert_vocab_func a;
    kernel_func := kernel_func a;
    separate_ffn_lr := (dataset_type a =? "unsupervised") || separate_ffn_lr a;
    num_lrs :=
      Present (1 + Z.b2z ((dataset_type a =? "unsupervised")
                          || separate_ffn_lr a));
    init_lr := init_lr a;
    max_lr := max_lr a;
    final_lr := final_lr a;
    lr_scaler := Absent;
    warmup_epochs := warmup_epochs a;
    weight_decay := weight_decay a;
    hidden_size := hidden_size a;
    dropout := dropout a;
    ffn_hidden_size := Some (match ffn_hidden_size a with
                             | Some v => v
                             | None => hidden_size a
                             end);
    ffn_input_dropout := Some (match ffn_input_dropout a with
                               | Some v => v
                               | None => dropout a
                               end);
    ffn_dropout := Some (match ffn_dropout a with
                         | Some v => v
                         | None => dropout a
                         end);
    ffn_num_layers := ffn_num_layers a
  |}.

(** ** Running the resolution again *)

(** The raw bag equivalent to a resolved namespace [r]: [r] with the four
    attributes the resolution deleted put back as they were in the bag [a]
    it was resolved from (the scale attribute holding the same list). *)
Definition restore (a r : Namespace) : Namespace :=
  r {{ no_cuda := no_cuda a }}
    {{ no_target_scaling := no_target_scaling a }}
    {{ no_features_scaling := no_features_scaling a }}
    {{ lr_scaler := lr_scaler a }}.

(** ** The inputs the resolution accepts *)

(** What [modify_train_args] asks of a raw bag [a], of the lists [h] its six
    learning-rate attributes hold and of the machine, one condition for each
    place of the body that can raise, in source order:
    - lines 327-334, the three negative flags are there;
    - lines 336-359, a metric is supplied or has a default, and the dataset
      type allows it (every metric is allowed for unsupervised and
      bert_pretraining);
    - line 363, a supplied checkpoint directory holds a [model.pt];
    - lines 365-369, with [jtnn] the vocabulary path is a path that exists;
    - lines 373-383, the three assertions on the feature modes;
    - lines 388-401, the scale attribute is there and each of the six lists
      has between one entry and [num_lrs] entries;
    - line 403, there is at least one feed-forward layer;
    - lines 412-413, the split options are consistent;
    - lines 418-421, a data directory lists at least one file. *)
Record Valid (env : Env) (h : store) (a : Namespace) : Prop := mkValid {
  valid_flags :
    exists nc nt nf,
      no_cuda a = Present nc /\ no_target_scaling a = Present nt
      /\ no_features_scaling a = Present nf;
  valid_metric :
    exists m,
      default_metric a = OK (a {{ metric := Some m }})
      /\ (metric_allowed (a {{ metric := Some m }}) = true
          \/ in_list (dataset_type a) ["unsupervised"; "bert_pretraining"]
             = true);
  valid_checkpoints :
    forall d, checkpoint_dir a = Some d ->
              collect_checkpoints (os_walk env d) <> [];
  valid_vocab :
    jtnn a = true ->
    exists p, vocab_path a = Present (Some p)
              /\ is_not_none (resolve env p) = true;
  valid_task :
    predict_features_and_task a = true -> dataset_type a = "regression";
  valid_features :
    predict_features a || predict_features_and_task a
    || opt_in_list (kernel_func a) ["features"; "features_dot"] = true ->
    truthy (feature_source a) = true;
  valid_bert :
    dataset_type a = "bert_pretraining" -> features_only a = false;
  valid_rates :
    exists scaler,
      lr_scaler a = Present scaler
      /\ forall l,
           In l [init_lr a; max_lr a; final_lr a; scaler;
                 warmup_epochs a; weight_decay a] ->
           in_range (1 + Z.b2z ((dataset_type a =? "unsupervised")
                                || separate_ffn_lr a)) (h l);
  valid_layers : 1 <= ffn_num_layers a;
  valid_split : overlap_consistent a = true /\ folds_consistent a = true;
  valid_chunks :
    forall es, resolve env (data_path a) = Some (Dir es) -> filenames es <> []
}.

(** ** What an exception says about the input *)


(** ** Example inputs *)

(** The namespace [add_train_args] builds from
    [--data_path data.csv --dataset_type dt]: every other attribute at its
    declared default, the derived attributes not yet there, and the six
    learning-rate lists at locations 0 to 5. *)
Definition parsed (dt : string) : Namespace := {|
  data_path := "data.csv";
  prespecified_chunk_dir := Absent;
  test := false;
  epochs := 30;
  vocab_path := Present None;
  jtnn := false;
  features_only := false;
  features_generator := None;
  features_path := None;
  use_input_features := Absent;
  predict_features := false;
  predict_features_and_task := false;
  save_dir := None;
  checkpoint_dir := None;
  checkpoint_paths := Absent;
  ensemble_size := 1;
  dataset_type := dt;
  split_type := "random";
  scaffold_overlap := None;
  folds_file := None;
  test_fold_index := None;
  metric := None;
  minimize_score := Absent;
  no_cuda := Present false;
  cuda := Absent;
  no_target_scaling := Present false;
  target_scaling := Absent;
  no_features_scaling := Present false;
  features_scaling := Absent;
  bert_vocab_func := "feature_vector";
  kernel_func := None;
  separate_ffn_lr := false;
  num_lrs := Absent;
  init_lr := 0%nat;
  max_lr := 1%nat;
  final_lr := 2%nat;
  lr_scaler := Present 3%nat;
  warmup_epochs := 4%nat;
  weight_decay := 5%nat;
  hidden_size := 300;
  dropout := 0%float;
  ffn_hidden_size := None;
  ffn_input_dropout := None;
  ffn_dropout := None;
  ffn_num_layers := 2
|}.

(** Six one-element lists, the scale factor being 2. *)
Definition six_lists : store := fun l =>
  match l with
  | 0%nat => [0.25%float]
  | 1%nat => [0.5%float]
  | 2%nat => [0.125%float]
  | 3%nat => [2%float]
  | 4%nat => [2%float]
  | 5%nat => [0%float]
  | _ => []
  end.

(** A machine without GPU on which [data.csv] and [vocab.txt] are files,
    [ckpts] holds two checkpoints, one of them nested, [empty] is an empty
    directory and [chunks] a directory of two files. *)
Definition machine : Env := {|
  resolve := fun p =>
    if p =? "data.csv" then Some File
    else if p =? "vocab.txt" then Some File
    else if p =? "ckpts" then
      Some (Dir [("fold_0", Dir [("model.pt", File); ("log.txt", File)]);
                 ("model.pt", File)])
    else if p =? "empty" then Some (Dir [])
    else if p =? "chunks" then Some (Dir [("a.csv", File); ("b.csv", File)])
    else None;
  mkdtemp := "/tmp/tmpdir";
  cuda_is_available := false
|}.

(** * Proofs *)

(** ** The result monad *)

Lemma bind_OK {A B : Type} (m : result A) (k : A -> result B) (y : B) :
  bind m k = OK y -> exists x, m = OK x /\ k x = OK y.
Proof. destruct m; simpl; [eauto | discriminate]. Qed.

Lemma assert_OK (c : bool) (e : error) (u : unit) :
  assert c e = OK u -> c = true.
Proof. destruct c; [reflexivity | discriminate]. Qed.

Lemma assert_true (e : error) : assert true e = OK tt.
Proof. reflexivity. Qed.

(** Splits a successful sequence into its successful steps. *)
Ltac inv_bind H :=
  repeat match type of H with
  | bind _ _ = OK _ =>
      let x := fresh "x" in
      let Hx := fresh "Hx" in
      apply bind_OK in H; destruct H as (x & Hx & H)
  | (let '(_, _) := ?p in _) = OK _ => destruct p
  end.

(** The same on every hypothesis. *)
Ltac inv_binds :=
  repeat match goal with
  | H : bind _ _ = OK _ |- _ =>
      let x := fresh "x" in
      let Hx := fresh "Hx" in
      apply bind_OK in H; destruct H as (x & Hx & H)
  | H : (let '(_, _) := ?p in _) = OK _ |- _ => destruct p
  | H : OK _ = OK _ |- _ => injection H as H; subst
  | u : unit |- _ => destruct u
  end.

(** ** What each block does to the namespace when it succeeds *)

Lemma create_save_dir_shape (env : Env) (a : Namespace) :
  create_save_dir env a
  = a {{ save_dir := Some (match save_dir a with
                           | Some d => d
                           | None => mkdtemp env
                           end) }}.
Proof.
  unfold create_save_dir.
  destruct (save_dir a) eqn:E; destruct a; cbn in *; subst; reflexivity.
Qed.

Lemma through_flags_OK (env : Env) (a a1 : Namespace) :
  through_flags env a = OK a1 ->
  exists nc nt nf,
    no_cuda a = Present nc /\ no_target_scaling a = Present nt
    /\ no_features_scaling a = Present nf
    /\ a1 = a {{ save_dir := Some (match save_dir a with
                                   | Some d => d
                                   | None => mkdtemp env
                                   end) }}
              {{ cuda := Present (negb nc && cuda_is_available env) }}
              {{ no_cuda := Absent }}
              {{ target_scaling := Present (negb nt) }}
              {{ no_target_scaling := Absent }}
              {{ features_scaling := Present (negb nf) }}
              {{ no_features_scaling := Absent }}.
Proof.
  unfold through_flags, invert_flags. rewrite create_save_dir_shape.
  destruct (no_cuda a) as [|nc] eqn:E1, (no_target_scaling a) as [|nt] eqn:E2,
    (no_features_scaling a) as [|nf] eqn:E3;
    destruct a; cbn in *; subst; cbn; try discriminate.
  intros [= <-]. eauto 10.
Qed.

Lemma through_flags_present (env : Env) (a : Namespace) (nc nt nf : bool) :
  no_cuda a = Present nc -> no_target_scaling a = Present nt ->
  no_features_scaling a = Present nf ->
  exists a1, through_flags env a = OK a1.
Proof.
  unfold through_flags, invert_flags. rewrite create_save_dir_shape.
  destruct a; cbn. intros -> -> ->. cbn. eauto.
Qed.

Lemma default_metric_OK (a a2 : Namespace) :
  default_metric a = OK a2 -> exists m, a2 = a {{ metric := Some m }}.
Proof.
  unfold default_metric.
  destruct (metric a) eqn:E; destruct a; cbn in *; subst;
    [intros [= <-]; eauto|].
  repeat case_match; intros [= <-]; eauto.
Qed.

(** The choice of the default reads four attributes only. *)
Lemma default_metric_reads (a b a2 : Namespace) :
  metric b = metric a -> dataset_type b = dataset_type a ->
  bert_vocab_func b = bert_vocab_func a -> kernel_func b = kernel_func a ->
  default_metric a = OK a2 ->
  default_metric b = OK (b {{ metric := metric a2 }}).
Proof.
  unfold default_metric. intros Hm -> -> ->. rewrite Hm.
  destruct (metric a) eqn:E.
  - intros [= <-]. rewrite E, <- Hm. destruct b; reflexivity.
  - cbn. repeat case_match; intros [= <-]; reflexivity.
Qed.

Lemma default_metric_Err_reads (a b : Namespace) (e : error) :
  metric b = metric a -> dataset_type b = dataset_type a ->
  bert_vocab_func b = bert_vocab_func a -> kernel_func b = kernel_func a ->
  default_metric a = Err e -> default_metric b = Err e.
Proof.
  unfold default_metric. intros -> -> -> ->.
  destruct (metric a); [discriminate|].
  repeat case_match; congruence.
Qed.

Lemma check_metric_OK (a : Namespace) (u : unit) :
  check_metric a = OK u ->
  metric_allowed a = true
  \/ in_list (dataset_type a) ["unsupervised"; "bert_pretraining"] = true.
Proof.
  unfold check_metric.
  destruct (metric_allowed a); [auto|].
  destruct (in_list _ _); [auto|]. cbn. destruct (metric a); discriminate.
Qed.

Lemma update_args_from_checkpoint_dir_OK (env : Env) (a a' : Namespace) :
  update_args_from_checkpoint_dir env a = OK a' ->
  a' = a {{ checkpoint_paths :=
              Present (option_map (fun d => collect_checkpoints (os_walk env d))
                                  (checkpoint_dir a)) }}
         {{ ensemble_size :=
              match checkpoint_dir a with
              | Some d => Z.of_nat (length (collect_checkpoints (os_walk env d)))
              | None => ensemble_size a
              end }}.
Proof.
  unfold update_args_from_checkpoint_dir.
  destruct (checkpoint_dir a) eqn:E; destruct a; cbn in *; subst.
  - case_match; [discriminate|]. intros [= <-]. reflexivity.
  - intros [= <-]. reflexivity.
Qed.

Lemma derive_feature_usage_OK (a a' : Namespace) :
  derive_feature_usage a = OK a' ->
  let forced :=
    predict_features a || predict_features_and_task a
    || opt_in_list (kernel_func a) ["features"; "features_dot"]
    || (dataset_type a =? "bert_pretraining") in
  a' = a {{ use_input_features :=
              Present (if forced then PyBool false else feature_source a) }}
         {{ predict_features :=
              predict_features a || predict_features_and_task a }}.
Proof.
  unfold derive_feature_usage, feature_source, assert.
  destruct (predict_features_and_task a) eqn:E1, (predict_features a) eqn:E2;
    destruct a; cbn in *; subst; cbn;
    repeat (case_match; cbn); try discriminate; intros [= <-]; reflexivity.
Qed.

Lemma force_separate_ffn_lr_shape (a : Namespace) :
  force_separate_ffn_lr a
  = a {{ separate_ffn_lr :=
           (dataset_type a =? "unsupervised") || separate_ffn_lr a }}.
Proof.
  unfold force_separate_ffn_lr.
  destruct (dataset_type a =? "unsupervised"); destruct a; reflexivity.
Qed.

Lemma scale_learning_rates_OK (h h' : store) (a a' : Namespace) :
  scale_learning_rates h a = OK (a', h') ->
  let n := 1 + Z.b2z (separate_ffn_lr a) in
  a' = a {{ num_lrs := Present n }} {{ lr_scaler := Absent }}
  /\ exists scaler h1,
       lr_scaler a = Present scaler
       /\ broadcast_params n (separate_ffn_lr a) h
            [init_lr a; max_lr a; final_lr a; scaler;
             warmup_epochs a; weight_decay a] = OK h1
       /\ scale_groups (a {{ num_lrs := Present n }}) scaler h1
            (seq 0 (Z.to_nat n)) = OK h'.
Proof.
  unfold scale_learning_rates. intros H. cbn zeta in H.
  inv_bind H. injection H as <- <-.
  change (lr_scaler (a {{ num_lrs := _ }})) with (lr_scaler a) in Hx.
  destruct (lr_scaler a) as [|scaler] eqn:Hs; [discriminate|].
  injection Hx as <-. split; [reflexivity|].
  exists scaler, x0. split; [reflexivity|]. split; [exact Hx0|exact Hx1].
Qed.

Lemma ffn_defaults_OK (a a' : Namespace) :
  ffn_defaults a = OK a' ->
  (1 <= ffn_num_layers a)%Z
  /\ a' = a {{ ffn_hidden_size :=
                 Some (match ffn_hidden_size a with
                       | Some v => v
                       | None => hidden_size a
                       end) }}
            {{ ffn_input_dropout :=
                 Some (match ffn_input_dropout a with
                       | Some v => v
                       | None => dropout a
                       end) }}
            {{ ffn_dropout :=
                 Some (match ffn_dropout a with
                       | Some v => v
                       | None => dropout a
                       end) }}.
Proof.
  unfold ffn_defaults, assert.
  destruct (1 <=? ffn_num_layers a)%Z eqn:E; [|discriminate].
  apply Z.leb_le in E. cbn [bind].
  destruct (ffn_hidden_size a) eqn:E1, (ffn_input_dropout a) eqn:E2,
    (ffn_dropout a) eqn:E3;
    destruct a; cbn in *; subst; cbn;
    intros [= <-]; (split; [exact E | reflexivity]).
Qed.

Lemma check_split_OK (a : Namespace) (u : unit) :
  check_split a = OK u ->
  overlap_consistent a = true /\ folds_consistent a = true.
Proof.
  unfold check_split. intros H. inv_bind H.
  apply assert_OK in Hx, H. auto.
Qed.

Lemma test_only_shape (a : Namespace) :
  test_only a = a {{ epochs := if test a then 0 else epochs a }}.
Proof. unfold test_only. destruct (test a); destruct a; reflexivity. Qed.

Lemma detect_chunks_OK (env : Env) (a a' : Namespace) :
  detect_chunks env a = OK a' ->
  exists d p,
    a' = a {{ prespecified_chunk_dir := Present d }} {{ data_path := p }}.
Proof.
  unfold detect_chunks. destruct a; cbn.
  repeat case_match; try discriminate; intros [= <-]; eauto.
Qed.

(** ** The successful run, block by block *)

Lemma modify_train_args_OK (env : Env) (h h' : store) (a r : Namespace) :
  modify_train_args env h a = OK (r, h') ->
  exists a1 a2 a4 a5 a6 a7,
    through_flags env a = OK a1
    /\ default_metric a1 = OK a2
    /\ check_metric a2 = OK tt
    /\ update_args_from_checkpoint_dir env (set_minimize_score a2) = OK a4
    /\ check_vocab env a4 = OK tt
    /\ derive_feature_usage a4 = OK a5
    /\ scale_learning_rates h (force_separate_ffn_lr a5) = OK (a6, h')
    /\ ffn_defaults a6 = OK a7
    /\ check_split a7 = OK tt
    /\ detect_chunks env (test_only a7) = OK r.
Proof.
  unfold modify_train_args, through_split, through_ffn, through_learning_rates,
    through_features, through_vocab, through_checkpoints, through_metric,
    through_default_metric.
  intros H. inv_binds. eauto 20.
Qed.

(** ** The attributes no block writes *)

Lemma through_flags_read_only (env : Env) (a a1 : Namespace) :
  through_flags env a = OK a1 -> read_only a1 = read_only a.
Proof.
  intros H. apply through_flags_OK in H.
  destruct H as (nc & nt & nf & _ & _ & _ & ->). reflexivity.
Qed.

Lemma default_metric_read_only (a a2 : Namespace) :
  default_metric a = OK a2 -> read_only a2 = read_only a.
Proof. intros H. apply default_metric_OK in H. destruct H as (m & ->). reflexivity. Qed.

Lemma update_args_from_checkpoint_dir_read_only (env : Env) (a a' : Namespace) :
  update_args_from_checkpoint_dir env a = OK a' -> read_only a' = read_only a.
Proof. intros H. apply update_args_from_checkpoint_dir_OK in H. subst. reflexivity. Qed.

Lemma derive_feature_usage_read_only (a a' : Namespace) :
  derive_feature_usage a = OK a' -> read_only a' = read_only a.
Proof. intros H. apply derive_feature_usage_OK in H. cbn zeta in H. subst. reflexivity. Qed.

Lemma scale_learning_rates_read_only (h h' : store) (a a' : Namespace) :
  scale_learning_rates h a = OK (a', h') -> read_only a' = read_only a.
Proof.
  intros H. apply scale_learning_rates_OK in H. destruct H as (-> & _). reflexivity.
Qed.

Lemma ffn_defaults_read_only (a a' : Namespace) :
  ffn_defaults a = OK a' -> read_only a' = read_only a.
Proof. intros H. apply ffn_defaults_OK in H. destruct H as (_ & ->). reflexivity. Qed.

Lemma through_default_metric_read_only (env : Env) (a a2 : Namespace) :
  through_default_metric env a = OK a2 -> read_only a2 = read_only a.
Proof.
  unfold through_default_metric. intros H. inv_binds.
  apply through_flags_read_only in Hx. apply default_metric_read_only in H.
  congruence.
Qed.

Lemma through_metric_read_only (env : Env) (a a3 : Namespace) :
  through_metric env a = OK a3 -> read_only a3 = read_only a.
Proof.
  unfold through_metric. intros H. inv_binds.
  apply through_default_metric_read_only in Hx. rewrite <- Hx. reflexivity.
Qed.

Lemma through_checkpoints_read_only (env : Env) (a a4 : Namespace) :
  through_checkpoints env a = OK a4 -> read_only a4 = read_only a.
Proof.
  unfold through_checkpoints. intros H. inv_binds.
  apply through_metric_read_only in Hx.
  apply update_args_from_checkpoint_dir_read_only in H. congruence.
Qed.

Lemma through_vocab_read_only (env : Env) (a a4 : Namespace) :
  through_vocab env a = OK a4 -> read_only a4 = read_only a.
Proof.
  unfold through_vocab. intros H. inv_binds.
  apply through_checkpoints_read_only in Hx. exact Hx.
Qed.

Lemma through_features_read_only (env : Env) (a a5 : Namespace) :
  through_features env a = OK a5 -> read_only a5 = read_only a.
Proof.
  unfold through_features. intros H. inv_binds.
  apply through_vocab_read_only in Hx. apply derive_feature_usage_read_only in H.
  congruence.
Qed.

Lemma through_learning_rates_read_only (env : Env) (h h' : store)
    (a a6 : Namespace) :
  through_learning_rates env h a = OK (a6, h') -> read_only a6 = read_only a.
Proof.
  unfold through_learning_rates. intros H. inv_binds.
  apply through_features_read_only in Hx.
  apply scale_learning_rates_read_only in H.
  rewrite force_separate_ffn_lr_shape in H. rewrite <- Hx, H. reflexivity.
Qed.

Lemma through_ffn_read_only (env : Env) (h h' : store) (a a7 : Namespace) :
  through_ffn env h a = OK (a7, h') -> read_only a7 = read_only a.
Proof.
  unfold through_ffn. intros H. inv_binds.
  apply through_learning_rates_read_only in Hx. apply ffn_defaults_read_only in Hx0.
  congruence.
Qed.

Lemma through_split_read_only (env : Env) (h h' : store) (a a8 : Namespace) :
  through_split env h a = OK (a8, h') -> read_only a8 = read_only a.
Proof.
  unfold through_split. intros H. inv_binds.
  apply through_ffn_read_only in Hx. rewrite test_only_shape. rewrite <- Hx.
  reflexivity.
Qed.

(** Turns an equation between [read_only] tuples into one equation for each
    attribute. *)
Ltac read_only_eqs H :=
  unfold read_only in H; simplify_eq H; intros.

(** ** The namespace a successful run returns *)

Lemma modify_train_args_resolved (env : Env) (h h' : store) (a r : Namespace) :
  modify_train_args env h a = OK (r, h') ->
  exists m nc nt nf,
    default_metric a = OK (a {{ metric := Some m }})
    /\ no_cuda a = Present nc
    /\ no_target_scaling a = Present nt
    /\ no_features_scaling a = Present nf
    /\ r = resolved env a m nc nt nf.
Proof.
  intros H. unfold resolved. apply modify_train_args_OK in H.
  destruct H as (a1 & a2 & a4 & a5 & a6 & a7 & H1 & H2 & H3 & H4 & H5 & H6
                 & H7 & H8 & H9 & H10).
  pose proof (through_flags_read_only _ _ _ H1) as R1.
  apply through_flags_OK in H1. destruct H1 as (nc & nt & nf & Hnc & Hnt & Hnf & H1).
  assert (Hm1 : metric a1 = metric a) by (rewrite H1; reflexivity).
  destruct (default_metric_OK _ _ H2) as (m & E2).
  exists m, nc, nt, nf.
  split.
  { read_only_eqs R1.
    rewrite E2 in H2.
    apply (default_metric_reads a1 a) in H2; try congruence. exact H2. }
  do 3 (split; [assumption|]).
  clear H2 H3 H5 H9 R1 Hm1.
  apply update_args_from_checkpoint_dir_OK in H4.
  apply derive_feature_usage_OK in H6. cbn zeta in H6.
  apply scale_learning_rates_OK in H7. destruct H7 as (H7 & _).
  rewrite force_separate_ffn_lr_shape in H7.
  apply ffn_defaults_OK in H8. destruct H8 as (_ & H8).
  rewrite test_only_shape in H10.
  unfold detect_chunks in H10.
  destruct (os_path_isdir env (data_path a)) eqn:Hdir;
    [destruct (os_walk env (data_path a)) as [|[[root ds] [|name names]] w] eqn:Hw|];
    destruct a; cbn in *;
    subst a1; cbn in *; subst a2; unfold set_minimize_score in H4; cbn in *;
    subst a4; unfold feature_source in *; cbn in *; subst a5; cbn in *;
    subst a6; cbn in *; subst a7; cbn in *;
    rewrite ?Hdir, ?Hw in H10; try discriminate; injection H10 as <-;
    reflexivity.
Qed.

(** ** An error of a prefix is the error of the run *)

Lemma bind_Err {A B : Type} (m : result A) (k : A -> result B) (e : error) :
  m = Err e -> bind m k = Err e.
Proof. intros ->. reflexivity. Qed.

Lemma through_split_Err (env : Env) (h : store) (a : Namespace) (e : error) :
  through_split env h a = Err e -> modify_train_args env h a = Err e.
Proof. unfold modify_train_args. apply bind_Err. Qed.

Lemma through_ffn_Err (env : Env) (h : store) (a : Namespace) (e : error) :
  through_ffn env h a = Err e -> modify_train_args env h a = Err e.
Proof. intros H. apply through_split_Err. unfold through_split. by apply bind_Err. Qed.

Lemma through_learning_rates_Err (env : Env) (h : store) (a : Namespace)
    (e : error) :
  through_learning_rates env h a = Err e -> modify_train_args env h a = Err e.
Proof. intros H. apply through_ffn_Err. unfold through_ffn. by apply bind_Err. Qed.

Lemma through_features_Err (env : Env) (h : store) (a : Namespace) (e : error) :
  through_features env a = Err e -> modify_train_args env h a = Err e.
Proof.
  intros H. apply through_learning_rates_Err. unfold through_learning_rates.
  by apply bind_Err.
Qed.

Lemma through_vocab_Err (env : Env) (h : store) (a : Namespace) (e : error) :
  through_vocab env a = Err e -> modify_train_args env h a = Err e.
Proof. intros H. apply through_features_Err. unfold through_features. by apply bind_Err. Qed.

Lemma through_checkpoints_Err (env : Env) (h : store) (a : Namespace) (e : error) :
  through_checkpoints env a = Err e -> modify_train_args env h a = Err e.
Proof. intros H. apply through_vocab_Err. unfold through_vocab. by apply bind_Err. Qed.

Lemma through_metric_Err (env : Env) (h : store) (a : Namespace) (e : error) :
  through_metric env a = Err e -> modify_train_args env h a = Err e.
Proof.
  intros H. apply through_checkpoints_Err. unfold through_checkpoints.
  by apply bind_Err.
Qed.

Lemma through_default_metric_Err (env : Env) (h : store) (a : Namespace)
    (e : error) :
  through_default_metric env a = Err e -> modify_train_args env h a = Err e.
Proof. intros H. apply through_metric_Err. unfold through_metric. by apply bind_Err. Qed.

(** ** Metric defaulting *)

Lemma in_list_In (x : string) (l : list string) :
  in_list x l = true <-> In x l.
Proof.
  unfold in_list. rewrite existsb_exists. split.
  - intros (y & Hy & E). apply String.eqb_eq in E. by subst.
  - intros H. exists x. split; [done|]. apply String.eqb_refl.
Qed.

(** C1. With no metric supplied, the default follows [dataset_type]:
    classification gives auc, unsupervised log_loss, bert_pretraining rmse
    for the vocabulary function feature_vector and log_loss otherwise,
    kernel rmse for a recognized kernel function and
    UnsupportedKernelFunctionError otherwise, any other type rmse.  A
    successful resolution returns the metric the defaulting block chose, and
    a [minimize_score] that is true exactly when that metric is rmse, mae or
    log_loss.  An error of the defaulting block is the error of the
    resolution. *)
Theorem metric_defaulting :
  (forall a : Namespace,
     metric a = None ->
     (dataset_type a = "classification" ->
      default_metric a = OK (a {{ metric := Some "auc" }}))
     /\ (dataset_type a = "unsupervised" ->
         default_metric a = OK (a {{ metric := Some "log_loss" }}))
     /\ (dataset_type a = "bert_pretraining" ->
         bert_vocab_func a = "feature_vector" ->
         default_metric a = OK (a {{ metric := Some "rmse" }}))
     /\ (dataset_type a = "bert_pretraining" ->
         bert_vocab_func a <> "feature_vector" ->
         default_metric a = OK (a {{ metric := Some "log_loss" }}))
     /\ (dataset_type a = "kernel" ->
         (exists k, kernel_func a = Some k
                    /\ In k ["features"; "features_dot"; "WL"]) ->
         default_metric a = OK (a {{ metric := Some "rmse" }}))
     /\ (dataset_type a = "kernel" ->
         ~ (exists k, kernel_func a = Some k
                      /\ In k ["features"; "features_dot"; "WL"]) ->
         default_metric a = Err (UnsupportedKernelFunctionError (kernel_func a)))
     /\ (~ In (dataset_type a)
             ["classification"; "unsupervised"; "bert_pretraining"; "kernel"] ->
         default_metric a = OK (a {{ metric := Some "rmse" }})))
  /\ (forall (env : Env) (h h' : store) (a r : Namespace),
        modify_train_args env h a = OK (r, h') ->
        exists m b,
          default_metric a = OK (a {{ metric := Some m }})
          /\ metric r = Some m
          /\ minimize_score r = Present b
          /\ (b = true <-> In m ["rmse"; "mae"; "log_loss"]))
  /\ (forall (env : Env) (h : store) (a a1 : Namespace) (e : error),
        through_flags env a = OK a1 ->
        default_metric a = Err e ->
        modify_train_args env h a = Err e).
Proof.
  split; [|split].
  - intros a Hnone. unfold default_metric. rewrite Hnone.
    repeat split.
    + intros ->. reflexivity.
    + intros ->. reflexivity.
    + intros -> ->. reflexivity.
    + intros -> Hne. cbn. apply String.eqb_neq in Hne. rewrite Hne. reflexivity.
    + intros -> (k & Hk & Hin). cbn -[in_list]. rewrite Hk. cbn -[in_list].
      apply in_list_In in Hin. rewrite Hin. reflexivity.
    + intros -> Hno. cbn -[in_list].
      destruct (opt_in_list _ _) eqn:E; [|reflexivity].
      exfalso. apply Hno. destruct (kernel_func a) as [k|]; [|discriminate].
      exists k. split; [reflexivity|]. by apply in_list_In.
    + intros Hno.
      destruct (dataset_type a =? "classification") eqn:E1;
        [apply String.eqb_eq in E1; exfalso; apply Hno; rewrite E1; cbn; tauto|].
      destruct (dataset_type a =? "unsupervised") eqn:E2;
        [apply String.eqb_eq in E2; exfalso; apply Hno; rewrite E2; cbn; tauto|].
      destruct (dataset_type a =? "bert_pretraining") eqn:E3;
        [apply String.eqb_eq in E3; exfalso; apply Hno; rewrite E3; cbn; tauto|].
      destruct (dataset_type a =? "kernel") eqn:E4;
        [apply String.eqb_eq in E4; exfalso; apply Hno; rewrite E4; cbn; tauto|].
      reflexivity.
  - intros env h h' a r H.
    apply modify_train_args_resolved in H.
    destruct H as (m & nc & nt & nf & Hm & _ & _ & _ & ->).
    exists m, (in_list m ["rmse"; "mae"; "log_loss"]).
    split; [exact Hm|]. split; [reflexivity|]. split; [reflexivity|].
    apply in_list_In.
  - intros env h a a1 e H1 He.
    apply through_default_metric_Err. unfold through_default_metric.
    rewrite H1. cbn [bind].
    pose proof (through_flags_read_only _ _ _ H1) as R. read_only_eqs R.
    apply through_flags_OK in H1.
    destruct H1 as (nc & nt & nf & _ & _ & _ & E1).
    apply (default_metric_Err_reads a a1); try congruence.
    rewrite E1. reflexivity.
Qed.

Lemma metric_defaulting_witness :
  default_metric (parsed "classification")
  = OK ((parsed "classification") {{ metric := Some "auc" }})
  /\ (exists r h',
        modify_train_args machine six_lists (parsed "classification") = OK (r, h')
        /\ metric r = Some "auc" /\ minimize_score r = Present false)
  /\ modify_train_args machine six_lists (parsed "kernel")
     = Err (UnsupportedKernelFunctionError None).
Proof.
  destruct metric_defaulting as (Htable & Hrun & Hfail).
  split; [|split].
  - apply (Htable (parsed "classification")); reflexivity.
  - destruct (modify_train_args machine six_lists (parsed "classification"))
      as [[r h']|e] eqn:E; [|vm_compute in E; discriminate].
    exists r, h'. split; [reflexivity|].
    destruct (Hrun _ _ _ _ _ E) as (m & b & Hm & Hr & Hb & Hiff).
    vm_compute in Hm. injection Hm as <-.
    split; [exact Hr|]. rewrite Hb. f_equal.
    destruct b; [|reflexivity].
    destruct Hiff as (Hiff & _). specialize (Hiff eq_refl).
    cbn in Hiff. intuition discriminate.
  - eapply Hfail; [reflexivity|].
    destruct (Htable (parsed "kernel") eq_refl) as (_ & _ & _ & _ & _ & Hk & _).
    apply Hk; [reflexivity|]. intros (k & Hk' & _). discriminate.
Defined.

(** ** The metric check comes before checkpoint discovery *)

(** C4, as claimed, fails: with [--metric rmse] on a classification dataset
    and a checkpoint directory without any [model.pt], the run stops at the
    metric check of line 359, before the directory is walked. *)
Lemma metric_check_precedes_checkpoints_counterexample :
  let a := (parsed "classification") {{ metric := Some "rmse" }}
                                     {{ checkpoint_dir := Some "empty" }} in
  metric_allowed a = false
  /\ collect_checkpoints (os_walk machine "empty") = []
  /\ update_args_from_checkpoint_dir machine a
     = Err (NoCheckpointsFoundError "empty")
  /\ modify_train_args machine six_lists a
     = Err (IncompatibleMetricError "rmse" "classification")
  /\ modify_train_args machine six_lists a
     <> Err (NoCheckpointsFoundError "empty").
Proof.
  cbv zeta. repeat split; try reflexivity.
  vm_compute. discriminate.
Qed.

(** C4, amended.  The checks are interleaved with the derivations, in source
    order: once the negative flags are read and the metric is supplied or
    defaulted, a metric the dataset type does not allow stops the run with
    IncompatibleMetricError, whatever the checkpoint directory holds; and a
    run that stops with NoCheckpointsFoundError has passed the metric
    check. *)
Theorem metric_check_precedes_checkpoints (env : Env) (h : store)
    (a a1 : Namespace) (m : string) :
  through_flags env a = OK a1 ->
  default_metric a = OK (a {{ metric := Some m }}) ->
  (metric_allowed (a {{ metric := Some m }}) = false ->
   in_list (dataset_type a) ["unsupervised"; "bert_pretraining"] = false ->
   modify_train_args env h a = Err (IncompatibleMetricError m (dataset_type a)))
  /\ (forall d, modify_train_args env h a = Err (NoCheckpointsFoundError d) ->
      metric_allowed (a {{ metric := Some m }}) = true
      \/ in_list (dataset_type a) ["unsupervised"; "bert_pretraining"] = true).
Proof.
  intros H1 Hm.
  pose proof (through_flags_read_only _ _ _ H1) as R. read_only_eqs R.
  assert (E1 : metric a1 = metric a).
  { apply through_flags_OK in H1.
    destruct H1 as (nc & nt & nf & _ & _ & _ & ->). reflexivity. }
  assert (Hthrough : through_default_metric env a = OK (a1 {{ metric := Some m }})).
  { unfold through_default_metric. rewrite H1. cbn [bind].
    apply (default_metric_reads a a1) in Hm; try congruence. exact Hm. }
  assert (Hcheck : check_metric (a1 {{ metric := Some m }})
                   = check_metric (a {{ metric := Some m }})).
  { unfold check_metric, metric_allowed.
    change (dataset_type (a1 {{ metric := Some m }})) with (dataset_type a1).
    change (dataset_type (a {{ metric := Some m }})) with (dataset_type a).
    change (metric (a1 {{ metric := Some m }})) with (Some m).
    change (metric (a {{ metric := Some m }})) with (Some m).
    replace (dataset_type a1) with (dataset_type a) by congruence.
    reflexivity. }
  split.
  - intros Hbad Hnobypass.
    apply through_metric_Err. unfold through_metric. rewrite Hthrough. cbn [bind].
    rewrite Hcheck. unfold check_metric. rewrite Hbad.
    change (dataset_type (a {{ metric := Some m }})) with (dataset_type a).
    rewrite Hnobypass. reflexivity.
  - intros d Hd.
    destruct (metric_allowed (a {{ metric := Some m }})) eqn:Hbad; [by left|].
    destruct (in_list (dataset_type a) ["unsupervised"; "bert_pretraining"])
      eqn:Hby; [by right|].
    exfalso.
    assert (He : modify_train_args env h a
                 = Err (IncompatibleMetricError m (dataset_type a))).
    { apply through_metric_Err. unfold through_metric. rewrite Hthrough. cbn [bind].
      rewrite Hcheck. unfold check_metric. rewrite Hbad.
      change (dataset_type (a {{ metric := Some m }})) with (dataset_type a).
      rewrite Hby. reflexivity. }
    congruence.
Qed.

Lemma metric_check_precedes_checkpoints_witness :
  modify_train_args machine six_lists
    ((parsed "classification") {{ metric := Some "rmse" }}
                               {{ checkpoint_dir := Some "empty" }})
  = Err (IncompatibleMetricError "rmse" "classification").
Proof.
  pose (a := (parsed "classification") {{ metric := Some "rmse" }}
                                       {{ checkpoint_dir := Some "empty" }}).
  destruct (through_flags machine a) as [a1|e] eqn:E1;
    [|vm_compute in E1; discriminate].
  apply (metric_check_precedes_checkpoints machine six_lists a a1 "rmse" E1);
    reflexivity.
Defined.

(** ** Checkpoint discovery *)

(** Induction on a tree, with the property known of every entry of a
    directory. *)
Lemma node_nested_ind (P : node -> Prop) :
  P File ->
  (forall es, Forall (fun e => P (snd e)) es -> P (Dir es)) ->
  forall n, P n.
Proof.
  intros HF HD. fix IH 1. intros [|es].
  - exact HF.
  - apply HD. induction es as [|e es IHes]; constructor.
    + apply IH.
    + exact IHes.
Qed.

Lemma collect_checkpoints_cons (root : string) (ds fs : list string)
    (w : list (string * list string * list string)) :
  collect_checkpoints ((root, ds, fs) :: w)
  = (map (os_path_join root) (List.filter (fun f => f =? "model.pt") fs)
     ++ collect_checkpoints w)%list.
Proof. reflexivity. Qed.

Lemma collect_checkpoints_app (w1 w2 : list (string * list string * list string)) :
  collect_checkpoints (w1 ++ w2)%list
  = (collect_checkpoints w1 ++ collect_checkpoints w2)%list.
Proof. unfold collect_checkpoints. apply flat_map_app. Qed.

(** The walk finds every [model.pt] of the tree once. *)
Lemma collect_checkpoints_walk_length (n : node) :
  forall root, length (collect_checkpoints (walk root n)) = count_artifacts n.
Proof.
  induction n as [|es IH] using node_nested_ind; intros root; [reflexivity|].
  cbn [walk count_artifacts]. rewrite collect_checkpoints_cons.
  rewrite length_app, length_map.
  induction IH as [|[name child] es Hchild _ IHes]; [reflexivity|].
  cbn [flat_map map list_sum fold_right fst snd].
  rewrite collect_checkpoints_app, length_app.
  change (fold_right Init.Nat.add 0%nat ?l) with (list_sum l).
  unfold filenames in *. cbn [List.filter snd fst].
  destruct child as [|sub]; cbn [is_dir negb map List.filter fst snd] in *.
  - destruct (name =? "model.pt"); cbn [length walk collect_checkpoints flat_map];
      lia.
  - rewrite (Hchild (os_path_join root name)). lia.
Qed.

(** Every path found is [model.pt] joined to a walked directory. *)
Lemma collect_checkpoints_paths (w : list (string * list string * list string)) :
  Forall (fun p => exists root,
                     In root (map (fun t => fst (fst t)) w)
                     /\ p = os_path_join root "model.pt")
         (collect_checkpoints w).
Proof.
  apply List.Forall_forall. intros p Hp.
  unfold collect_checkpoints in Hp. apply in_flat_map in Hp.
  destruct Hp as ([[root ds] fs] & Hin & Hp). cbn [fst snd] in Hp.
  apply in_map_iff in Hp. destruct Hp as (f & <- & Hf).
  apply filter_In in Hf. destruct Hf as (_ & Hf). apply String.eqb_eq in Hf.
  subst f. exists root. split; [|reflexivity].
  apply in_map_iff. exists (root, ds, fs). split; [reflexivity|assumption].
Qed.

(** C2. When the checkpoint directory holds [k >= 1] files named [model.pt],
    at any depth, [update_args_from_checkpoint_dir] sets [checkpoint_paths]
    to the [k] paths found, in walking order, and [ensemble_size] to [k],
    whatever size was supplied; with none it raises
    NoCheckpointsFoundError.  A successful resolution returns these two
    values, and a resolution that reaches the discovery with an empty
    directory fails with that error. *)
Theorem checkpoint_discovery (env : Env) (a : Namespace) (d : string)
    (tree : node) :
  checkpoint_dir a = Some d ->
  resolve env d = Some tree ->
  let k := count_artifacts tree in
  let paths := collect_checkpoints (os_walk env d) in
  length paths = k
  /\ Forall (fun p => exists root,
                        In root (map (fun t => fst (fst t)) (os_walk env d))
                        /\ p = os_path_join root "model.pt") paths
  /\ ((1 <= k)%nat ->
      update_args_from_checkpoint_dir env a
      = OK (a {{ checkpoint_paths := Present (Some paths) }}
              {{ ensemble_size := Z.of_nat k }}))
  /\ (k = 0%nat ->
      update_args_from_checkpoint_dir env a = Err (NoCheckpointsFoundError d))
  /\ (forall (h h' : store) (r : Namespace),
        modify_train_args env h a = OK (r, h') ->
        checkpoint_paths r = Present (Some paths)
        /\ ensemble_size r = Z.of_nat k /\ (1 <= k)%nat)
  /\ (forall (h : store) (a3 : Namespace),
        through_metric env a = OK a3 -> k = 0%nat ->
        modify_train_args env h a = Err (NoCheckpointsFoundError d)).
Proof.
  intros Hdir Htree k paths.
  assert (Hlen : length paths = k).
  { unfold paths, os_walk. rewrite Htree. apply collect_checkpoints_walk_length. }
  assert (Hupd : forall b : Namespace,
             checkpoint_dir b = Some d ->
             update_args_from_checkpoint_dir env b
             = if (Z.of_nat k =? 0)%Z then Err (NoCheckpointsFoundError d)
               else OK (b {{ checkpoint_paths := Present (Some paths) }}
                          {{ ensemble_size := Z.of_nat k }})).
  { intros b Hb. unfold update_args_from_checkpoint_dir. rewrite Hb.
    cbv zeta. fold paths.
    change (ensemble_size (_ {{ ensemble_size := ?v }})) with v.
    rewrite Hlen. reflexivity. }
  split; [exact Hlen|]. split; [apply collect_checkpoints_paths|].
  split; [|split; [|split]].
  - intros Hk. rewrite (Hupd a Hdir).
    destruct (Z.eqb_spec (Z.of_nat k) 0); [lia|reflexivity].
  - intros Hk. rewrite (Hupd a Hdir). rewrite Hk. reflexivity.
  - intros h h' r H.
    pose proof H as H'. apply modify_train_args_OK in H'.
    destruct H' as (a1 & a2 & a4 & a5 & a6 & a7 & H1 & H2 & H3 & H4 & _).
    assert (Hd3 : checkpoint_dir (set_minimize_score a2) = Some d).
    { apply through_flags_read_only in H1. apply default_metric_read_only in H2.
      read_only_eqs H1. read_only_eqs H2. unfold set_minimize_score.
      change (checkpoint_dir (a2 {{ minimize_score := _ }}))
        with (checkpoint_dir a2).
      congruence. }
    rewrite (Hupd _ Hd3) in H4.
    destruct (Z.eqb_spec (Z.of_nat k) 0) as [|Hk]; [discriminate|].
    apply modify_train_args_resolved in H.
    destruct H as (m & nc & nt & nf & _ & _ & _ & _ & ->).
    unfold resolved. cbn [checkpoint_paths ensemble_size]. rewrite Hdir.
    cbn [option_map].
    fold paths. rewrite Hlen. split; [reflexivity|]. split; [reflexivity|lia].
  - intros h a3 H3 Hk.
    apply through_checkpoints_Err. unfold through_checkpoints. rewrite H3.
    cbn [bind].
    assert (Hd3 : checkpoint_dir a3 = Some d).
    { apply through_metric_read_only in H3. read_only_eqs H3. congruence. }
    rewrite (Hupd _ Hd3), Hk. reflexivity.
Qed.

Lemma checkpoint_discovery_witness :
  update_args_from_checkpoint_dir machine
    ((parsed "regression") {{ checkpoint_dir := Some "ckpts" }}
                           {{ ensemble_size := 5 }})
  = OK ((parsed "regression")
          {{ checkpoint_dir := Some "ckpts" }}
          {{ checkpoint_paths := Present (Some ["ckpts/model.pt";
                                                "ckpts/fold_0/model.pt"]) }}
          {{ ensemble_size := 2 }})
  /\ modify_train_args machine six_lists
       ((parsed "regression") {{ checkpoint_dir := Some "empty" }})
     = Err (NoCheckpointsFoundError "empty").
Proof.
  split.
  - pose (a := (parsed "regression") {{ checkpoint_dir := Some "ckpts" }}
                                     {{ ensemble_size := 5 }}).
    destruct (checkpoint_discovery machine a "ckpts"
                (Dir [("fold_0", Dir [("model.pt", File); ("log.txt", File)]);
                      ("model.pt", File)]) eq_refl eq_refl)
      as (_ & _ & Hfound & _).
    specialize (Hfound ltac:(vm_compute; lia)). exact Hfound.
  - pose (a := (parsed "regression") {{ checkpoint_dir := Some "empty" }}).
    destruct (checkpoint_discovery machine a "empty" (Dir []) eq_refl eq_refl)
      as (_ & _ & _ & _ & _ & Hnone).
    destruct (through_metric machine a) as [a3|e] eqn:E3;
      [|vm_compute in E3; discriminate].
    exact (Hnone six_lists a3 eq_refl eq_refl).
Defined.

(** ** The vocabulary check *)

(** C6.  A junction-tree run that reaches the vocabulary check passes it when
    the path is there and exists, and fails with MissingVocabularyError
    naming the path when the path does not exist, or naming none when the
    namespace has no [vocab_path] attribute at all.  But the namespace of
    [add_train_args] always has the attribute, [None] when [--vocab_path]
    was not given: [hasattr] is then true, [os.path.exists(None)] is
    evaluated, and the run fails with a TypeError. *)
Theorem vocab_check (env : Env) (h : store) (a a4 : Namespace) :
  through_checkpoints env a = OK a4 ->
  jtnn a = true ->
  (vocab_path a = Present None ->
   modify_train_args env h a = Err TypeError)
  /\ (vocab_path a = Absent ->
      modify_train_args env h a = Err (MissingVocabularyError None))
  /\ (forall p, vocab_path a = Present (Some p) -> resolve env p = None ->
      modify_train_args env h a = Err (MissingVocabularyError (Some p)))
  /\ (forall p, vocab_path a = Present (Some p) -> resolve env p <> None ->
      through_vocab env a = OK a4).
Proof.
  intros H4 Hj.
  pose proof (through_checkpoints_read_only _ _ _ H4) as R. read_only_eqs R.
  assert (Hj4 : jtnn a4 = true) by congruence.
  assert (Hv4 : vocab_path a4 = vocab_path a) by congruence.
  assert (Hv : through_vocab env a
               = do _ <- check_vocab env a4; OK a4).
  { unfold through_vocab. rewrite H4. reflexivity. }
  unfold check_vocab in Hv. rewrite Hj4, Hv4 in Hv.
  repeat split.
  - intros Hp. apply through_vocab_Err. rewrite Hv, Hp. reflexivity.
  - intros Hp. apply through_vocab_Err. rewrite Hv, Hp. reflexivity.
  - intros p Hp Hno. apply through_vocab_Err. rewrite Hv, Hp. cbn.
    rewrite Hno. reflexivity.
  - intros p Hp Hyes. rewrite Hv, Hp. cbn.
    destruct (resolve env p); [reflexivity|congruence].
Qed.

Lemma vocab_check_witness :
  modify_train_args machine six_lists ((parsed "regression") {{ jtnn := true }})
  = Err TypeError.
Proof.
  pose (a := (parsed "regression") {{ jtnn := true }}).
  destruct (through_checkpoints machine a) as [a4|e] eqn:E4;
    [|vm_compute in E4; discriminate].
  destruct (vocab_check machine six_lists a a4 E4 eq_refl) as (Hnone & _).
  exact (Hnone eq_refl).
Defined.

(** ** Attributes a later block writes are untouched before it *)

(** Turns the successes of the blocks into equations on the namespaces. *)
Ltac shapes :=
  repeat match goal with
  | H : through_flags _ _ = OK _ |- _ =>
      apply through_flags_OK in H; destruct H as (? & ? & ? & _ & _ & _ & H)
  | H : default_metric _ = OK _ |- _ =>
      apply default_metric_OK in H; destruct H as (? & H)
  | H : update_args_from_checkpoint_dir _ _ = OK _ |- _ =>
      apply update_args_from_checkpoint_dir_OK in H
  | H : derive_feature_usage _ = OK _ |- _ =>
      apply derive_feature_usage_OK in H; cbn zeta in H
  | H : scale_learning_rates _ _ = OK _ |- _ =>
      apply scale_learning_rates_OK in H; destruct H as (H & _)
  | H : ffn_defaults _ = OK _ |- _ =>
      apply ffn_defaults_OK in H; destruct H as (_ & H)
  end.

(** The namespace under a chain of updates. *)
Ltac updated t :=
  lazymatch t with
  | apply_update _ ?t' => updated t'
  | _ => t
  end.

(** Proves [f x = f y] when [x] is [y] under updates of other attributes,
    one equation at a time. *)
Ltac frame :=
  repeat match goal with
  | |- ?f (apply_update ?u ?t) = _ =>
      change (f (apply_update u t)) with (f t)
  | H : ?x = ?rhs |- ?f ?x = _ =>
      is_var x;
      let y := updated rhs in
      transitivity (f y); [rewrite H at 1; reflexivity|]
  end;
  reflexivity.

Lemma through_vocab_unwritten (env : Env) (a a4 : Namespace) :
  through_vocab env a = OK a4 ->
  predict_features a4 = predict_features a
  /\ separate_ffn_lr a4 = separate_ffn_lr a
  /\ lr_scaler a4 = lr_scaler a
  /\ data_path a4 = data_path a.
Proof.
  unfold through_vocab, through_checkpoints, through_metric,
    through_default_metric.
  intros H. inv_binds. unfold set_minimize_score in *. shapes.
  repeat split; frame.
Qed.

Lemma through_features_unwritten (env : Env) (a a5 : Namespace) :
  through_features env a = OK a5 ->
  separate_ffn_lr a5 = separate_ffn_lr a
  /\ lr_scaler a5 = lr_scaler a
  /\ data_path a5 = data_path a.
Proof.
  unfold through_features. intros H. inv_binds.
  match goal with
  | H : through_vocab _ _ = OK _ |- _ =>
      apply through_vocab_unwritten in H; destruct H as (_ & Hs & Hl & Hd)
  end.
  shapes. rewrite <- Hs, <- Hl, <- Hd. repeat split; frame.
Qed.

Lemma through_split_unwritten (env : Env) (h h' : store) (a a8 : Namespace) :
  through_split env h a = OK (a8, h') -> data_path a8 = data_path a.
Proof.
  unfold through_split, through_ffn, through_learning_rates.
  intros H. inv_binds.
  match goal with
  | H : through_features _ _ = OK _ |- _ =>
      apply through_features_unwritten in H; destruct H as (_ & _ & Hd)
  end.
  rewrite force_separate_ffn_lr_shape in *. shapes.
  rewrite test_only_shape, <- Hd. frame.
Qed.

(** ** Feature usage *)

Lemma derive_feature_usage_valid (a a' : Namespace) :
  derive_feature_usage a = OK a' ->
  (predict_features_and_task a = true -> dataset_type a = "regression")
  /\ (predict_features a || predict_features_and_task a
      || opt_in_list (kernel_func a) ["features"; "features_dot"] = true ->
      truthy (feature_source a) = true)
  /\ (dataset_type a = "bert_pretraining" -> features_only a = false).
Proof.
  unfold derive_feature_usage, feature_source, assert.
  destruct a; cbn -[opt_in_list truthy String.eqb py_or].
  repeat (case_match; cbn -[opt_in_list truthy String.eqb py_or]);
    intros Hrun; try discriminate Hrun;
    repeat split; intros; try reflexivity; try discriminate; try assumption;
    try (apply negb_true_iff; assumption);
    try (rewrite ?orb_false_r, ?orb_true_r in *; congruence);
    try match goal with
        | E : (?d =? ?s) = true |- ?d = ?s => apply String.eqb_eq; exact E
        end;
    try match goal with
        | E : (?d =? ?s) = false, E' : ?d = ?s |- _ =>
            apply String.eqb_neq in E; contradiction
        end.
Qed.

Lemma feature_source_truthy (a : Namespace) :
  truthy (feature_source a) = true
  <-> (exists g, features_generator a = Some g /\ g <> [])
      \/ (exists p, features_path a = Some p /\ p <> "").
Proof.
  unfold feature_source, py_or.
  destruct (features_generator a) as [[|x g]|]; cbn;
    destruct (features_path a) as [p|]; cbn;
    try destruct (String.eqb_spec p ""); cbn; split;
    try discriminate; try (intros [(? & ? & ?)|(? & ? & ?)]; congruence);
    intros _; eauto.
  all: try (right; eexists; split; [reflexivity|assumption]).
  all: left; eexists; split; [reflexivity|discriminate].
Qed.

Lemma derive_feature_usage_missing (a : Namespace) :
  (predict_features_and_task a = true -> dataset_type a = "regression") ->
  predict_features a || predict_features_and_task a
  || opt_in_list (kernel_func a) ["features"; "features_dot"] = true ->
  truthy (feature_source a) = false ->
  derive_feature_usage a = Err MissingFeatureSourceError.
Proof.
  unfold derive_feature_usage, feature_source, assert.
  destruct (predict_features_and_task a) eqn:E1, (predict_features a) eqn:E2;
    destruct a; cbn -[opt_in_list truthy String.eqb py_or] in *; subst;
    intros Hreg Hreq Hsrc;
    try rewrite (Hreg eq_refl); cbn -[opt_in_list truthy py_or];
    rewrite ?Hreq; cbn -[opt_in_list truthy py_or];
    rewrite Hsrc; reflexivity.
Qed.

(** C5, as claimed, fails: with the feature-based kernel [features] and a
    features path, and no feature-prediction mode, the run succeeds and
    [use_input_features] is False. *)
Lemma feature_usage_counterexample :
  let a := (parsed "kernel") {{ kernel_func := Some "features" }}
                             {{ features_path := Some "features.npy" }} in
  predict_features a = false
  /\ predict_features_and_task a = false
  /\ truthy (feature_source a) = true
  /\ exists r h',
       modify_train_args machine six_lists a = OK (r, h')
       /\ use_input_features r = Present (PyBool false).
Proof.
  cbv zeta. repeat split.
  eexists _, _. split; [vm_compute; reflexivity|]. reflexivity.
Qed.

(** C5, amended.  [use_input_features] is first the value of
    [features_generator or features_path], which is truthy exactly when a
    non-empty generator list or a non-empty path was given.  It is then
    forced to False when feature prediction is requested (directly or by
    [predict_features_and_task]), when the kernel function is [features] or
    [features_dot], or when the dataset type is [bert_pretraining], and is
    left as it is otherwise.  A run that reaches the block with feature
    prediction or a feature-based kernel and no feature source fails with
    MissingFeatureSourceError. *)
Theorem feature_usage (env : Env) (h : store) (a : Namespace) :
  let requested := predict_features a || predict_features_and_task a in
  let feature_kernel :=
    opt_in_list (kernel_func a) ["features"; "features_dot"] in
  let bert := dataset_type a =? "bert_pretraining" in
  (truthy (feature_source a) = true
   <-> (exists g, features_generator a = Some g /\ g <> [])
       \/ (exists p, features_path a = Some p /\ p <> ""))
  /\ (forall (r : Namespace) (h' : store),
        modify_train_args env h a = OK (r, h') ->
        use_input_features r
        = Present (if requested || feature_kernel || bert then PyBool false
                   else feature_source a)
        /\ (requested || feature_kernel = true ->
            truthy (feature_source a) = true))
  /\ (forall a4 : Namespace,
        through_vocab env a = OK a4 ->
        (predict_features_and_task a = true -> dataset_type a = "regression") ->
        requested || feature_kernel = true ->
        truthy (feature_source a) = false ->
        modify_train_args env h a = Err MissingFeatureSourceError).
Proof.
  cbv zeta. split; [apply feature_source_truthy|]. split.
  - intros r h' H. pose proof H as H'.
    apply modify_train_args_resolved in H.
    destruct H as (m & nc & nt & nf & _ & _ & _ & _ & ->).
    split; [reflexivity|].
    apply modify_train_args_OK in H'.
    destruct H' as (a1 & a2 & a4 & a5 & a6 & a7 & H1 & H2 & H3 & H4 & H5 & H6 & _).
    assert (Hv : through_vocab env a = OK a4).
    { unfold through_vocab, through_checkpoints, through_metric,
        through_default_metric.
      rewrite H1. cbn [bind]. rewrite H2. cbn [bind]. rewrite H3. cbn [bind].
      rewrite H4. cbn [bind]. rewrite H5. reflexivity. }
    pose proof (through_vocab_read_only _ _ _ Hv) as R. read_only_eqs R.
    apply through_vocab_unwritten in Hv. destruct Hv as (Hpf & _).
    apply derive_feature_usage_valid in H6. destruct H6 as (_ & Hsrc & _).
    unfold feature_source in *. clear R.
    repeat match goal with
           | E : ?f a4 = ?f a |- _ => rewrite ?E in Hsrc; clear E
           end.
    auto.
  - intros a4 Hv Hreg Hreq Hsrc.
    apply through_features_Err. unfold through_features. rewrite Hv. cbn [bind].
    pose proof (through_vocab_read_only _ _ _ Hv) as R. read_only_eqs R.
    apply through_vocab_unwritten in Hv. destruct Hv as (Hpf & _).
    apply derive_feature_usage_missing.
    + intros Hp. transitivity (dataset_type a); [congruence|].
      apply Hreg. congruence.
    + rewrite <- Hreq. congruence.
    + rewrite <- Hsrc. unfold feature_source. congruence.
Qed.

Lemma feature_usage_witness :
  (exists r h',
     modify_train_args machine six_lists
       ((parsed "kernel") {{ kernel_func := Some "features" }}
                          {{ features_path := Some "features.npy" }})
     = OK (r, h')
     /\ use_input_features r = Present (PyBool false))
  /\ modify_train_args machine six_lists
       ((parsed "kernel") {{ kernel_func := Some "features" }})
     = Err MissingFeatureSourceError.
Proof.
  split.
  - pose (a := (parsed "kernel") {{ kernel_func := Some "features" }}
                                 {{ features_path := Some "features.npy" }}).
    destruct (modify_train_args machine six_lists a) as [[r h']|e] eqn:E;
      [|vm_compute in E; discriminate].
    exists r, h'. split; [exact E|].
    destruct (feature_usage machine six_lists a) as (_ & Hrun & _).
    destruct (Hrun r h' E) as (Hr & _). exact Hr.
  - pose (a := (parsed "kernel") {{ kernel_func := Some "features" }}).
    destruct (through_vocab machine a) as [a4|e] eqn:E4;
      [|vm_compute in E4; discriminate].
    destruct (feature_usage machine six_lists a) as (_ & _ & Hfail).
    apply (Hfail a4 E4); [discriminate|reflexivity|reflexivity].
Defined.

(** ** The split configuration *)

Lemma is_not_none_true {T : Type} (x : option T) :
  is_not_none x = true <-> x <> None.
Proof. destruct x; cbn; split; congruence. Qed.

Lemma overlap_consistent_iff (a : Namespace) :
  overlap_consistent a = true
  <-> (split_type a = "scaffold_overlap" <-> scaffold_overlap a <> None).
Proof.
  unfold overlap_consistent. rewrite <- is_not_none_true, <- String.eqb_eq.
  destruct (split_type a =? "scaffold_overlap"),
    (is_not_none (scaffold_overlap a)); cbn; intuition congruence.
Qed.

Lemma folds_consistent_iff (a : Namespace) :
  folds_consistent a = true
  <-> (split_type a = "predetermined" <-> folds_file a <> None)
      /\ (folds_file a <> None <-> test_fold_index a <> None).
Proof.
  unfold folds_consistent.
  rewrite <- !is_not_none_true, <- String.eqb_eq.
  destruct (split_type a =? "predetermined"), (is_not_none (folds_file a)),
    (is_not_none (test_fold_index a)); cbn; intuition congruence.
Qed.

Lemma check_split_reads (a b : Namespace) :
  read_only b = read_only a -> check_split b = check_split a.
Proof.
  intros R. read_only_eqs R.
  unfold check_split, overlap_consistent, folds_consistent.
  repeat match goal with
         | E : ?f b = ?f a |- _ => rewrite ?E; clear E
         end.
  reflexivity.
Qed.

Lemma check_split_Err (a : Namespace) :
  overlap_consistent a && folds_consistent a = false ->
  check_split a = Err InvalidSplitConfigurationError.
Proof.
  unfold check_split, assert.
  destruct (overlap_consistent a), (folds_consistent a); cbn; congruence.
Qed.

(** C7.  A successful resolution has [split_type] equal to
    [scaffold_overlap] exactly when an overlap proportion was supplied, and
    equal to [predetermined] exactly when a folds file was supplied, exactly
    when a test-fold index was supplied.  A resolution that reaches the split
    check (line 412) with one of the equivalences broken fails with
    InvalidSplitConfigurationError; so does [predetermined] with a folds
    file and no test-fold index. *)
Theorem split_configuration (env : Env) (h : store) (a : Namespace) :
  let overlap_ok :=
    split_type a = "scaffold_overlap" <-> scaffold_overlap a <> None in
  let folds_ok :=
    (split_type a = "predetermined" <-> folds_file a <> None)
    /\ (folds_file a <> None <-> test_fold_index a <> None) in
  (forall (r : Namespace) (h' : store),
     modify_train_args env h a = OK (r, h') -> overlap_ok /\ folds_ok)
  /\ (forall (a7 : Namespace) (h7 : store),
        through_ffn env h a = OK (a7, h7) ->
        ~ (overlap_ok /\ folds_ok) ->
        modify_train_args env h a = Err InvalidSplitConfigurationError)
  /\ (forall (a7 : Namespace) (h7 : store) (f : string),
        through_ffn env h a = OK (a7, h7) ->
        split_type a = "predetermined" ->
        folds_file a = Some f ->
        test_fold_index a = None ->
        modify_train_args env h a = Err InvalidSplitConfigurationError).
Proof.
  cbv zeta.
  assert (Hfail : forall a7 h7,
             through_ffn env h a = OK (a7, h7) ->
             overlap_consistent a && folds_consistent a = false ->
             modify_train_args env h a = Err InvalidSplitConfigurationError).
  { intros a7 h7 H7 Hbad. apply through_split_Err. unfold through_split.
    rewrite H7. cbn [bind].
    rewrite (check_split_reads a a7) by (eapply through_ffn_read_only; eassumption).
    rewrite (check_split_Err a Hbad). reflexivity. }
  split; [|split].
  - intros r h' H. apply modify_train_args_OK in H.
    destruct H as (a1 & a2 & a4 & a5 & a6 & a7 & H1 & H2 & H3 & H4 & H5 & H6
                   & H7 & H8 & H9 & _).
    assert (R : read_only a7 = read_only a).
    { apply through_flags_read_only in H1.
      apply default_metric_read_only in H2.
      apply update_args_from_checkpoint_dir_read_only in H4.
      apply derive_feature_usage_read_only in H6.
      apply scale_learning_rates_read_only in H7.
      rewrite force_separate_ffn_lr_shape in H7.
      apply ffn_defaults_read_only in H8.
      unfold set_minimize_score in H4.
      rewrite H8, H7.
      change (read_only (a5 {{ separate_ffn_lr := _ }})) with (read_only a5).
      rewrite H6, H4.
      change (read_only (a2 {{ minimize_score := _ }})) with (read_only a2).
      congruence. }
    rewrite (check_split_reads a a7 R) in H9.
    apply check_split_OK in H9. destruct H9 as (Ho & Hf).
    split; [by apply overlap_consistent_iff | by apply folds_consistent_iff].
  - intros a7 h7 H7 Hbad. apply (Hfail a7 h7 H7).
    destruct (overlap_consistent a) eqn:Ho, (folds_consistent a) eqn:Hf;
      try reflexivity.
    exfalso. apply Hbad.
    split; [by apply overlap_consistent_iff | by apply folds_consistent_iff].
  - intros a7 h7 f H7 Hs Hf Ht. apply (Hfail a7 h7 H7).
    unfold folds_consistent. rewrite Hf, Ht. cbn [is_not_none Bool.eqb].
    rewrite !andb_false_r. reflexivity.
Qed.

Lemma split_configuration_witness :
  modify_train_args machine six_lists
    ((parsed "regression") {{ split_type := "predetermined" }}
                           {{ folds_file := Some "folds.pkl" }})
  = Err InvalidSplitConfigurationError.
Proof.
  pose (a := (parsed "regression") {{ split_type := "predetermined" }}
                                   {{ folds_file := Some "folds.pkl" }}).
  destruct (through_ffn machine six_lists a) as [[a7 h7]|e] eqn:E7;
    [|vm_compute in E7; discriminate].
  destruct (split_configuration machine six_lists a) as (_ & _ & Hscenario).
  exact (Hscenario a7 h7 "folds.pkl" E7 eq_refl eq_refl eq_refl).
Defined.

(** ** Chunked data *)

Lemma filenames_cons (es : list (string * node)) (f : string) (fs : list string) :
  filenames es = f :: fs -> In (f, File) es.
Proof.
  intros H.
  assert (Hin : In f (filenames es)) by (rewrite H; left; reflexivity).
  unfold filenames in Hin. apply in_map_iff in Hin.
  destruct Hin as ([name child] & Hname & Hin). cbn in Hname. subst name.
  apply filter_In in Hin. destruct Hin as (Hin & Hfile).
  destruct child; [exact Hin|discriminate].
Qed.

(** C10.  When [data_path] is a directory and the resolution reaches line
    418, the new [data_path] is the directory joined with the first of the
    non-directory entries listed directly in it, and the directory itself
    becomes [prespecified_chunk_dir]; when the directory lists no such entry
    (it is empty, or holds sub-directories only) the resolution fails with
    an IndexError, none of the typed configuration errors. *)
Theorem chunk_detection (env : Env) (h h8 : store) (a a8 : Namespace)
    (es : list (string * node)) :
  resolve env (data_path a) = Some (Dir es) ->
  through_split env h a = OK (a8, h8) ->
  (filenames es = [] -> modify_train_args env h a = Err IndexError)
  /\ (forall f fs,
        filenames es = f :: fs ->
        In (f, File) es
        /\ exists r,
             modify_train_args env h a = OK (r, h8)
             /\ data_path r = os_path_join (data_path a) f
             /\ prespecified_chunk_dir r = Present (Some (data_path a))).
Proof.
  intros Hdir H8.
  pose proof (through_split_unwritten _ _ _ _ _ H8) as Hd.
  assert (Hrun : modify_train_args env h a
                 = do args <- detect_chunks env a8; OK (args, h8)).
  { unfold modify_train_args. rewrite H8. reflexivity. }
  unfold detect_chunks, os_path_isdir, os_walk in Hrun.
  change (data_path (a8 {{ prespecified_chunk_dir := _ }}))
    with (data_path a8) in Hrun.
  rewrite Hd, Hdir in Hrun. cbn [walk] in Hrun.
  split.
  - intros Hnone. rewrite Hrun, Hnone. reflexivity.
  - intros f fs Hfs. split; [by eapply filenames_cons|].
    rewrite Hfs in Hrun. cbn [bind] in Hrun.
    eexists. split; [exact Hrun|]. split; reflexivity.
Qed.

Lemma chunk_detection_witness :
  modify_train_args machine six_lists
    ((parsed "regression") {{ data_path := "empty" }})
  = Err IndexError
  /\ exists r h',
       modify_train_args machine six_lists
         ((parsed "regression") {{ data_path := "chunks" }}) = OK (r, h')
       /\ data_path r = "chunks/a.csv"
       /\ prespecified_chunk_dir r = Present (Some "chunks").
Proof.
  split.
  - pose (a := (parsed "regression") {{ data_path := "empty" }}).
    destruct (through_split machine six_lists a) as [[a8 h8]|e] eqn:E8;
      [|vm_compute in E8; discriminate].
    destruct (chunk_detection machine six_lists h8 a a8 [] eq_refl E8)
      as (Hempty & _).
    exact (Hempty eq_refl).
  - pose (a := (parsed "regression") {{ data_path := "chunks" }}).
    destruct (through_split machine six_lists a) as [[a8 h8]|e] eqn:E8;
      [|vm_compute in E8; discriminate].
    destruct (chunk_detection machine six_lists h8 a a8
                [("a.csv", File); ("b.csv", File)] eq_refl E8)
      as (_ & Hfirst).
    destruct (Hfirst "a.csv" ["b.csv"] eq_refl) as (_ & r & Hr & Hp & Hc).
    exists r, h8. split; [exact Hr|]. split; [exact Hp|exact Hc].
Defined.

(** ** The learning-rate lists: broadcasting *)

Lemma in_range_dec (n : Z) (xs : list float) :
  in_range n xs
  <-> (1 <=? Z.of_nat (length xs))%Z && (Z.of_nat (length xs) <=? n)%Z = true.
Proof. unfold in_range. rewrite andb_true_iff, !Z.leb_le. tauto. Qed.

Lemma broadcast_length (separate : bool) (xs : list float) :
  in_range (1 + Z.b2z separate) xs ->
  Z.of_nat (length (broadcast separate xs)) = 1 + Z.b2z separate.
Proof.
  unfold in_range.
  destruct xs as [|x [|y xs]]; destruct separate; cbn [length broadcast Z.b2z];
    lia.
Qed.

Lemma broadcast_full (separate : bool) (xs : list float) :
  Z.of_nat (length xs) = 1 + Z.b2z separate -> broadcast separate xs = xs.
Proof.
  destruct xs as [|x [|y xs]]; destruct separate; cbn [length broadcast Z.b2z];
    intros; try reflexivity; lia.
Qed.

Lemma broadcast_param_OK (n : Z) (separate : bool) (h h1 : store) (l : loc) :
  broadcast_param n separate h l = OK h1 ->
  in_range n (h l)
  /\ h1 l = broadcast separate (h l)
  /\ (forall l', l' <> l -> h1 l' = h l').
Proof.
  unfold broadcast_param, assert.
  destruct ((1 <=? Z.of_nat (length (h l)))%Z
            && (Z.of_nat (length (h l)) <=? n)%Z) eqn:E; [|discriminate].
  apply in_range_dec in E. cbn [bind]. intros H. split; [exact E|].
  destruct separate.
  - destruct (Z.eqb_spec (Z.of_nat (length (h l))) 1) as [H1|H1];
      injection H as <-.
    + split; [|intros l' Hl'; by apply fn_lookup_insert_ne].
      rewrite fn_lookup_insert.
      destruct (h l) as [|x [|y xs]]; cbn [length] in H1; try lia. reflexivity.
    + split; [|reflexivity].
      destruct (h l) as [|x [|y xs]]; cbn [length] in H1; try lia; reflexivity.
  - injection H as <-. split; [|reflexivity].
    destruct (h l) as [|x [|y xs]]; reflexivity.
Qed.


Lemma broadcast_param_total (n : Z) (separate : bool) (h : store) (l : loc) :
  in_range n (h l) -> exists h1, broadcast_param n separate h l = OK h1.
Proof.
  unfold broadcast_param, assert. intros Hin. apply in_range_dec in Hin.
  rewrite Hin. cbn [bind]. repeat case_match; eauto.
Qed.

(** With no list shared between two parameters, each list is broadcast
    once and every other list is left alone. *)
Lemma broadcast_params_OK (n : Z) (separate : bool) (ls : list loc) :
  forall h h1 : store,
    List.NoDup ls ->
    broadcast_params n separate h ls = OK h1 ->
    (forall l, In l ls ->
               in_range n (h l) /\ h1 l = broadcast separate (h l))
    /\ (forall l, ~ In l ls -> h1 l = h l).
Proof.
  induction ls as [|l0 ls IH]; intros h h1 Hnd H.
  - injection H as <-. split; [intros l []|reflexivity].
  - cbn [broadcast_params] in H. apply bind_OK in H.
    destruct H as (h0 & H0 & H).
    apply broadcast_param_OK in H0. destruct H0 as (Hr & Hl0 & Hother).
    inversion Hnd as [|? ? Hnotin Hnd']; subst.
    destruct (IH h0 h1 Hnd' H) as (IHin & IHout).
    split.
    + intros l [<-|Hin].
      * split; [exact Hr|]. rewrite IHout by exact Hnotin. exact Hl0.
      * assert (l <> l0) by (intros ->; contradiction).
        destruct (IHin l Hin) as (Hr' & Hl). rewrite Hother in Hr', Hl by done.
        split; assumption.
    + intros l Hout.
      rewrite IHout by (intros Hin; apply Hout; by right).
      apply Hother. intros ->. apply Hout. by left.
Qed.

(** A list out of range stops the loop, shared lists or not. *)
Lemma broadcast_params_Err (n : Z) (separate : bool) (ls : list loc) :
  forall h : store,
    (exists l, In l ls /\ ~ in_range n (h l)) ->
    broadcast_params n separate h ls = Err InvalidGroupCountError.
Proof.
  induction ls as [|l0 ls IH]; intros h (l & Hin & Hbad); [destruct Hin|].
  cbn [broadcast_params].
  destruct (broadcast_param n separate h l0) as [h0|e] eqn:E0.
  - cbn [bind]. apply broadcast_param_OK in E0.
    destruct E0 as (Hr & _ & Hother).
    apply IH. exists l. destruct Hin as [<-|Hin]; [contradiction|].
    split; [exact Hin|].
    destruct (Nat.eq_dec l l0) as [->|Hne]; [contradiction|].
    rewrite Hother by done. exact Hbad.
  - cbn [bind]. unfold broadcast_param, assert in E0.
    destruct ((1 <=? Z.of_nat (length (h l0)))%Z
              && (Z.of_nat (length (h l0)) <=? n)%Z); cbn [bind] in E0;
      [repeat case_match; discriminate|congruence].
Qed.

Lemma broadcast_params_in_range (n : Z) (separate : bool) (ls : list loc)
    (h h1 : store) :
  broadcast_params n separate h ls = OK h1 ->
  forall l, In l ls -> in_range n (h l).
Proof.
  intros H l Hin.
  destruct (in_range_dec n (h l)) as (_ & Hdec).
  destruct ((1 <=? Z.of_nat (length (h l)))%Z
            && (Z.of_nat (length (h l)) <=? n)%Z) eqn:E; [by apply Hdec|].
  assert (Hbad : ~ in_range n (h l)).
  { intros Hr. apply in_range_dec in Hr. congruence. }
  rewrite (broadcast_params_Err n separate ls h) in H; [discriminate|eauto].
Qed.

(** After the loop every list it visited has as many entries as there are
    groups, shared lists or not. *)
Lemma broadcast_params_lengths (separate : bool) (ls : list loc) :
  forall h h1 : store,
    broadcast_params (1 + Z.b2z separate) separate h ls = OK h1 ->
    (forall l, In l ls -> Z.of_nat (length (h1 l)) = 1 + Z.b2z separate)
    /\ (forall l, Z.of_nat (length (h l)) = 1 + Z.b2z separate ->
                  h1 l = h l).
Proof.
  induction ls as [|l0 ls IH]; intros h h1 H.
  - injection H as <-. split; [intros l []|reflexivity].
  - cbn [broadcast_params] in H. apply bind_OK in H.
    destruct H as (h0 & H0 & H).
    apply broadcast_param_OK in H0. destruct H0 as (Hr & Hl0 & Hother).
    destruct (IH h0 h1 H) as (IHin & IHfull).
    assert (Hfull0 : forall l, Z.of_nat (length (h l)) = 1 + Z.b2z separate ->
                               h0 l = h l).
    { intros l Hl. destruct (Nat.eq_dec l l0) as [->|Hne].
      - rewrite Hl0. by apply broadcast_full.
      - by apply Hother. }
    split.
    + intros l [<-|Hin]; [|by apply IHin].
      rewrite IHfull; rewrite Hl0; by apply broadcast_length.
    + intros l Hl. rewrite IHfull; rewrite Hfull0; done.
Qed.

(** A loop over lists that are full already changes nothing and succeeds. *)
Lemma broadcast_params_full (separate : bool) (ls : list loc) (h : store) :
  (forall l, In l ls -> Z.of_nat (length (h l)) = 1 + Z.b2z separate) ->
  exists h1, broadcast_params (1 + Z.b2z separate) separate h ls = OK h1
             /\ forall l, h1 l = h l.
Proof.
  revert h. induction ls as [|l0 ls IH]; intros h Hfull.
  - exists h. split; reflexivity.
  - cbn [broadcast_params].
    assert (Hr : in_range (1 + Z.b2z separate) (h l0)).
    { unfold in_range. rewrite (Hfull l0) by (by left).
      destruct separate; cbn; lia. }
    destruct (broadcast_param_total _ separate h l0 Hr) as (h0 & E0).
    rewrite E0. cbn [bind].
    apply broadcast_param_OK in E0. destruct E0 as (_ & Hl0 & Hother).
    assert (Hsame : forall l, h0 l = h l).
    { intros l. destruct (Nat.eq_dec l l0) as [->|Hne].
      - rewrite Hl0. apply broadcast_full. apply Hfull. by left.
      - by apply Hother. }
    destruct (IH h0) as (h1 & E1 & H1).
    { intros l Hin. rewrite Hsame. apply Hfull. by right. }
    exists h1. split; [exact E1|]. intros l. rewrite H1. apply Hsame.
Qed.

(** ** The learning-rate lists: scaling *)

Lemma imul_item_OK (h h' : store) (t s : loc) (i : nat) :
  imul_item h t s i = OK h' ->
  exists x y,
    h t !! i = Some x /\ h s !! i = Some y
    /\ h' t = <[i := PrimFloat.mul x y]> (h t)
    /\ (forall l, l <> t -> h' l = h l).
Proof.
  unfold imul_item.
  destruct (h t !! i) as [x|] eqn:Ex; [|discriminate].
  destruct (h s !! i) as [y|] eqn:Ey; [|discriminate].
  intros [= <-]. exists x, y. repeat split.
  - apply fn_lookup_insert.
  - intros l Hl. by apply fn_lookup_insert_ne.
Qed.

Lemma imul_item_length (h h' : store) (t s : loc) (i : nat) :
  imul_item h t s i = OK h' -> forall l, length (h' l) = length (h l).
Proof.
  intros H l. apply imul_item_OK in H.
  destruct H as (x & y & _ & _ & Ht & Hother).
  destruct (Nat.eq_dec l t) as [->|Hne].
  - rewrite Ht. apply length_insert.
  - by rewrite Hother.
Qed.

Lemma scale_group_length (a : Namespace) (s : loc) (h h' : store) (i : nat) :
  scale_group a s h i = OK h' -> forall l, length (h' l) = length (h l).
Proof.
  unfold scale_group. intros H l.
  apply bind_OK in H. destruct H as (h1 & H1 & H).
  apply bind_OK in H. destruct H as (h2 & H2 & H3).
  rewrite (imul_item_length _ _ _ _ _ H3), (imul_item_length _ _ _ _ _ H2).
  apply (imul_item_length _ _ _ _ _ H1).
Qed.

(** Scaling keeps the length of every list. *)
Lemma scale_groups_length (a : Namespace) (s : loc) (range : list nat) :
  forall h h' : store,
    scale_groups a s h range = OK h' ->
    forall l, length (h' l) = length (h l).
Proof.
  induction range as [|i range IH]; intros h h' H l.
  - by injection H as <-.
  - cbn [scale_groups] in H. apply bind_OK in H. destruct H as (h1 & H1 & H).
    rewrite (IH _ _ H). apply (scale_group_length _ _ _ _ _ H1).
Qed.

(** One in-place product, at the position where the prefixes end. *)
Lemma imul_item_middle (h : store) (t s : loc) (k : nat)
    (P R Ps Rs : list float) (x y : float) :
  h t = (P ++ x :: R)%list -> h s = (Ps ++ y :: Rs)%list ->
  length P = k -> length Ps = k ->
  imul_item h t s k = OK (<[t := (P ++ [PrimFloat.mul x y] ++ R)%list]> h).
Proof.
  intros Ht Hs HP HPs. unfold imul_item.
  rewrite Ht, Hs. subst k.
  rewrite list_lookup_middle by done.
  rewrite list_lookup_middle by done.
  f_equal. f_equal.
  rewrite insert_app_r_alt by lia.
  rewrite Nat.sub_diag. reflexivity.
Qed.

Section Scaling.
Variable a : Namespace.
Variable s : loc.
Hypothesis init_max : init_lr a <> max_lr a.
Hypothesis init_final : init_lr a <> final_lr a.
Hypothesis max_final : max_lr a <> final_lr a.
Hypothesis init_s : init_lr a <> s.
Hypothesis max_s : max_lr a <> s.
Hypothesis final_s : final_lr a <> s.

(** With the three rate lists and the scale list all distinct, the loop
    over [range(k, k + m)] multiplies the entries from [k] on by the scale
    entries at the same positions, and touches nothing else. *)
Lemma scale_groups_from (m : nat) :
  forall (k : nat) (h : store) (P1 R1 P2 R2 P3 R3 Ps Rs : list float),
    h (init_lr a) = (P1 ++ R1)%list -> h (max_lr a) = (P2 ++ R2)%list ->
    h (final_lr a) = (P3 ++ R3)%list -> h s = (Ps ++ Rs)%list ->
    length P1 = k -> length P2 = k -> length P3 = k -> length Ps = k ->
    length R1 = m -> length R2 = m -> length R3 = m -> length Rs = m ->
    exists h',
      scale_groups a s h (seq k m) = OK h'
      /\ h' (init_lr a) = (P1 ++ scaled R1 Rs)%list
      /\ h' (max_lr a) = (P2 ++ scaled R2 Rs)%list
      /\ h' (final_lr a) = (P3 ++ scaled R3 Rs)%list
      /\ (forall l, l <> init_lr a -> l <> max_lr a -> l <> final_lr a ->
                    h' l = h l).
Proof.
  induction m as [|m IH];
    intros k h P1 R1 P2 R2 P3 R3 Ps Rs H1 H2 H3 Hs L1 L2 L3 Ls M1 M2 M3 Ms.
  - destruct R1, R2, R3, Rs; try discriminate.
    exists h. rewrite !app_nil_r in *. cbn. auto.
  - destruct R1 as [|x1 R1], R2 as [|x2 R2], R3 as [|x3 R3], Rs as [|y Rs];
      try discriminate.
    cbn [length] in M1, M2, M3, Ms.
    cbn [seq scale_groups]. unfold scale_group.
    rewrite (imul_item_middle h _ s k P1 R1 Ps Rs x1 y H1 Hs L1 Ls).
    cbn [bind].
    set (h1 := <[init_lr a := _]> h).
    assert (H2' : h1 (max_lr a) = (P2 ++ x2 :: R2)%list)
      by (unfold h1; rewrite fn_lookup_insert_ne by done; exact H2).
    assert (Hs' : h1 s = (Ps ++ y :: Rs)%list)
      by (unfold h1; rewrite fn_lookup_insert_ne by done; exact Hs).
    rewrite (imul_item_middle h1 _ s k P2 R2 Ps Rs x2 y H2' Hs' L2 Ls).
    cbn [bind].
    set (h2 := <[max_lr a := _]> h1).
    assert (H3' : h2 (final_lr a) = (P3 ++ x3 :: R3)%list).
    { unfold h2, h1. rewrite !fn_lookup_insert_ne by done. exact H3. }
    assert (Hs'' : h2 s = (Ps ++ y :: Rs)%list)
      by (unfold h2; rewrite fn_lookup_insert_ne by done; exact Hs').
    rewrite (imul_item_middle h2 _ s k P3 R3 Ps Rs x3 y H3' Hs'' L3 Ls).
    cbn [bind].
    set (h3 := <[final_lr a := _]> h2).
    destruct (IH (S k) h3
                (P1 ++ [PrimFloat.mul x1 y])%list R1
                (P2 ++ [PrimFloat.mul x2 y])%list R2
                (P3 ++ [PrimFloat.mul x3 y])%list R3
                (Ps ++ [y])%list Rs)
      as (h' & Hrun & E1 & E2 & E3 & Eother);
      rewrite ?length_app; cbn [length]; try lia.
    + unfold h3, h2, h1. rewrite !fn_lookup_insert_ne by done.
      rewrite fn_lookup_insert. by rewrite <- app_assoc.
    + unfold h3, h2. rewrite fn_lookup_insert_ne by done.
      rewrite fn_lookup_insert. by rewrite <- app_assoc.
    + unfold h3. rewrite fn_lookup_insert. by rewrite <- app_assoc.
    + unfold h3, h2, h1. rewrite !fn_lookup_insert_ne by done.
      rewrite Hs. by rewrite <- app_assoc.
    + exists h'. split; [exact Hrun|].
      rewrite E1, E2, E3, <- !app_assoc. repeat split; try reflexivity.
      intros l N1 N2 N3. rewrite Eother by done.
      unfold h3, h2, h1. by rewrite !fn_lookup_insert_ne.
Qed.

(** The loop of lines 396-399 over lists of [n] entries. *)
Lemma scale_groups_all (n : nat) (h : store) :
  length (h (init_lr a)) = n -> length (h (max_lr a)) = n ->
  length (h (final_lr a)) = n -> length (h s) = n ->
  exists h',
    scale_groups a s h (seq 0 n) = OK h'
    /\ h' (init_lr a) = scaled (h (init_lr a)) (h s)
    /\ h' (max_lr a) = scaled (h (max_lr a)) (h s)
    /\ h' (final_lr a) = scaled (h (final_lr a)) (h s)
    /\ (forall l, l <> init_lr a -> l <> max_lr a -> l <> final_lr a ->
                  h' l = h l).
Proof.
  intros L1 L2 L3 Ls.
  apply (scale_groups_from n 0 h [] (h (init_lr a)) [] (h (max_lr a))
           [] (h (final_lr a)) [] (h s)); done.
Qed.
End Scaling.

(** ** The learning-rate block *)

(** A successful run has passed every prefix. *)
Lemma modify_train_args_through (env : Env) (h h' : store) (a r : Namespace) :
  modify_train_args env h a = OK (r, h') ->
  exists a4 a5 a6 a7 a8,
    through_vocab env a = OK a4
    /\ through_features env a = OK a5
    /\ scale_learning_rates h (force_separate_ffn_lr a5) = OK (a6, h')
    /\ through_ffn env h a = OK (a7, h')
    /\ through_split env h a = OK (a8, h')
    /\ detect_chunks env a8 = OK r.
Proof.
  unfold modify_train_args. intros H.
  apply bind_OK in H. destruct H as ([a8 h8] & H8 & H).
  apply bind_OK in H. destruct H as (r' & Hr & H). injection H as -> ->.
  pose proof H8 as H8'. unfold through_split in H8'.
  apply bind_OK in H8'. destruct H8' as ([a7 h7] & H7 & H8').
  apply bind_OK in H8'. destruct H8' as (u & _ & H8'). injection H8' as _ ->.
  pose proof H7 as H7'. unfold through_ffn in H7'.
  apply bind_OK in H7'. destruct H7' as ([a6 h6] & H6 & H7').
  apply bind_OK in H7'. destruct H7' as (a7' & _ & H7'). injection H7' as _ ->.
  pose proof H6 as H6'. unfold through_learning_rates in H6'.
  apply bind_OK in H6'. destruct H6' as (a5 & H5 & H6').
  pose proof H5 as H5'. unfold through_features in H5'.
  apply bind_OK in H5'. destruct H5' as (a4 & H4 & _).
  exists a4, a5, a6, a7, a8. auto 10.
Qed.

Lemma scale_learning_rates_lengths (h h' : store) (a a' : Namespace)
    (scaler : loc) :
  scale_learning_rates h a = OK (a', h') ->
  lr_scaler a = Present scaler ->
  forall l,
    In l [init_lr a; max_lr a; final_lr a; scaler;
          warmup_epochs a; weight_decay a] ->
    Z.of_nat (length (h' l)) = 1 + Z.b2z (separate_ffn_lr a).
Proof.
  intros H Hs l Hin. apply scale_learning_rates_OK in H. cbv zeta in H.
  destruct H as (_ & scaler' & h1 & Hs' & Hb & Hsc).
  assert (scaler' = scaler) by congruence. subst scaler'.
  rewrite (scale_groups_length _ _ _ _ _ Hsc).
  by apply (broadcast_params_lengths _ _ _ _ Hb).
Qed.

Lemma scale_learning_rates_values (h h' : store) (a a' : Namespace)
    (scaler : loc) :
  scale_learning_rates h a = OK (a', h') ->
  lr_scaler a = Present scaler ->
  let separate := separate_ffn_lr a in
  let params := [init_lr a; max_lr a; final_lr a; scaler;
                 warmup_epochs a; weight_decay a] in
  (forall l, In l params -> in_range (1 + Z.b2z separate) (h l))
  /\ (List.NoDup params ->
      h' (init_lr a) = scaled (broadcast separate (h (init_lr a)))
                              (broadcast separate (h scaler))
      /\ h' (max_lr a) = scaled (broadcast separate (h (max_lr a)))
                                (broadcast separate (h scaler))
      /\ h' (final_lr a) = scaled (broadcast separate (h (final_lr a)))
                                  (broadcast separate (h scaler))
      /\ h' scaler = broadcast separate (h scaler)
      /\ h' (warmup_epochs a) = broadcast separate (h (warmup_epochs a))
      /\ h' (weight_decay a) = broadcast separate (h (weight_decay a))
      /\ (forall l, ~ In l params -> h' l = h l)).
Proof.
  intros H Hs. cbv zeta. apply scale_learning_rates_OK in H. cbv zeta in H.
  destruct H as (_ & scaler' & h1 & Hs' & Hb & Hsc).
  assert (scaler' = scaler) by congruence. subst scaler'.
  split; [exact (broadcast_params_in_range _ _ _ _ _ Hb)|].
  intros Hnd.
  destruct (broadcast_params_OK _ _ _ _ _ Hnd Hb) as (Hin & Hout).
  assert (Hlen : forall l,
             In l [init_lr a; max_lr a; final_lr a; scaler;
                   warmup_epochs a; weight_decay a] ->
             length (h1 l) = Z.to_nat (1 + Z.b2z (separate_ffn_lr a))).
  { intros l Hl. destruct (Hin l Hl) as (Hr & ->).
    apply broadcast_length in Hr. lia. }
  assert (Hne : init_lr a <> max_lr a /\ init_lr a <> final_lr a
                /\ max_lr a <> final_lr a /\ init_lr a <> scaler
                /\ max_lr a <> scaler /\ final_lr a <> scaler
                /\ scaler <> warmup_epochs a /\ scaler <> weight_decay a
                /\ init_lr a <> warmup_epochs a /\ init_lr a <> weight_decay a
                /\ max_lr a <> warmup_epochs a /\ max_lr a <> weight_decay a
                /\ final_lr a <> warmup_epochs a
                /\ final_lr a <> weight_decay a).
  { repeat match goal with
           | H : List.NoDup (_ :: _) |- _ =>
               let N := fresh "N" in
               inversion H as [|? ? N ?]; subst; clear H; cbn [In] in N
           end.
    repeat split; intros E; rewrite ?E in *; tauto. }
  destruct Hne as (N1 & N2 & N3 & N4 & N5 & N6 & N7 & N8 & N9 & N10 & N11
                   & N12 & N13 & N14).
  pose (b := a {{ num_lrs := Present (1 + Z.b2z (separate_ffn_lr a)) }}).
  destruct (scale_groups_all b scaler N1 N2 N3 N4 N5 N6
              (Z.to_nat (1 + Z.b2z (separate_ffn_lr a))) h1)
    as (h'' & Hrun & E1 & E2 & E3 & Eother);
    try (apply Hlen; cbn [In]; tauto).
  pose proof (eq_trans (eq_sym Hrun) Hsc) as Hsame. injection Hsame as ->.
  change (init_lr b) with (init_lr a) in *.
  change (max_lr b) with (max_lr a) in *.
  change (final_lr b) with (final_lr a) in *.
  assert (B : forall l,
             In l [init_lr a; max_lr a; final_lr a; scaler;
                   warmup_epochs a; weight_decay a] ->
             h1 l = broadcast (separate_ffn_lr a) (h l))
    by (intros l Hl; by destruct (Hin l Hl)).
  rewrite E1, E2, E3.
  rewrite !Eother by (intros E; rewrite ?E in *; congruence).
  rewrite !B by (cbn [In]; tauto).
  repeat split; try reflexivity.
  intros l Hl. rewrite Eother by (intros ->; apply Hl; cbn [In]; tauto).
  by apply Hout.
Qed.

(** What the learning-rate block reads, in terms of the input. *)
Lemma through_features_lr (env : Env) (a a5 : Namespace) :
  through_features env a = OK a5 ->
  let b := force_separate_ffn_lr a5 in
  separate_ffn_lr b = (dataset_type a =? "unsupervised") || separate_ffn_lr a
  /\ lr_scaler b = lr_scaler a
  /\ init_lr b = init_lr a /\ max_lr b = max_lr a /\ final_lr b = final_lr a
  /\ warmup_epochs b = warmup_epochs a /\ weight_decay b = weight_decay a.
Proof.
  intros H5. cbv zeta. rewrite force_separate_ffn_lr_shape.
  pose proof (through_features_read_only _ _ _ H5) as R.
  apply through_features_unwritten in H5. destruct H5 as (Hsep & Hsc & _).
  unfold read_only in R. simplify_eq R. intros.
  split.
  { change (separate_ffn_lr (a5 {{ separate_ffn_lr := ?v }})) with v.
    congruence. }
  repeat split;
    match goal with
    | |- ?f (apply_update ?u ?t) = _ =>
        change (f (apply_update u t)) with (f t)
    end; congruence.
Qed.

(** C3.  [num_lrs] is 1, plus 1 when a separate FFN optimizer is used
    (requested, or forced by an unsupervised dataset).  A resolution that
    reaches the block with one of the six lists shorter than 1 or longer
    than [num_lrs] fails with InvalidGroupCountError.  In a successful
    resolution every list was in that range and [lr_scaler] is no longer an
    attribute; when the six attributes hold six different lists, each list
    of one entry has been duplicated if there are two groups, and the
    initial, maximal and final rates have then been multiplied entry by
    entry by the scale list. *)
Theorem learning_rate_groups (env : Env) (h : store) (a a5 : Namespace)
    (scaler : loc) :
  through_features env a = OK a5 ->
  lr_scaler a = Present scaler ->
  let separate := (dataset_type a =? "unsupervised") || separate_ffn_lr a in
  let n := 1 + Z.b2z separate in
  let params := [init_lr a; max_lr a; final_lr a; scaler;
                 warmup_epochs a; weight_decay a] in
  ((exists l, In l params /\ ~ in_range n (h l)) ->
   modify_train_args env h a = Err InvalidGroupCountError)
  /\ (forall (r : Namespace) (h' : store),
        modify_train_args env h a = OK (r, h') ->
        num_lrs r = Present n
        /\ separate_ffn_lr r = separate
        /\ lr_scaler r = Absent
        /\ (forall l, In l params -> in_range n (h l))
        /\ (List.NoDup params ->
            h' (init_lr a) = scaled (broadcast separate (h (init_lr a)))
                                    (broadcast separate (h scaler))
            /\ h' (max_lr a) = scaled (broadcast separate (h (max_lr a)))
                                      (broadcast separate (h scaler))
            /\ h' (final_lr a) = scaled (broadcast separate (h (final_lr a)))
                                        (broadcast separate (h scaler))
            /\ h' scaler = broadcast separate (h scaler)
            /\ h' (warmup_epochs a) = broadcast separate (h (warmup_epochs a))
            /\ h' (weight_decay a) = broadcast separate (h (weight_decay a))
            /\ (forall l, ~ In l params -> h' l = h l))).
Proof.
  intros H5 Hs. cbv zeta.
  destruct (through_features_lr env a a5 H5)
    as (Esep & Esc & Ei & Em & Ef & Ew & Ed).
  split.
  - intros Hbad. apply through_learning_rates_Err.
    unfold through_learning_rates. rewrite H5. cbn [bind].
    unfold scale_learning_rates. cbv zeta.
    set (b := force_separate_ffn_lr a5) in *.
    change (lr_scaler (b {{ num_lrs := _ }})) with (lr_scaler b).
    change (init_lr (b {{ num_lrs := _ }})) with (init_lr b).
    change (max_lr (b {{ num_lrs := _ }})) with (max_lr b).
    change (final_lr (b {{ num_lrs := _ }})) with (final_lr b).
    change (warmup_epochs (b {{ num_lrs := _ }})) with (warmup_epochs b).
    change (weight_decay (b {{ num_lrs := _ }})) with (weight_decay b).
    change (separate_ffn_lr (b {{ num_lrs := _ }})) with (separate_ffn_lr b).
    rewrite Esc, Hs, Esep, Ei, Em, Ef, Ew, Ed. cbn [getattr bind].
    rewrite (broadcast_params_Err _ _ _ _ Hbad). reflexivity.
  - intros r h' H. pose proof H as H'.
    apply modify_train_args_resolved in H.
    destruct H as (m & nc & nt & nf & _ & _ & _ & _ & ->).
    do 3 (split; [reflexivity|]).
    apply modify_train_args_through in H'.
    destruct H' as (a4 & a5' & a6 & a7 & a8 & _ & H5' & H6 & _).
    assert (a5' = a5) by congruence. subst a5'.
    pose proof (scale_learning_rates_values _ _ _ _ scaler H6) as Hv.
    cbv zeta in Hv. rewrite Esc, Esep, Ei, Em, Ef, Ew, Ed in Hv.
    exact (Hv Hs).
Qed.

Lemma learning_rate_groups_witness :
  (exists r h',
     modify_train_args machine six_lists
       ((parsed "regression") {{ separate_ffn_lr := true }}) = OK (r, h')
     /\ num_lrs r = Present 2
     /\ lr_scaler r = Absent
     /\ h' 0%nat = [0.5%float; 0.5%float]
     /\ h' 1%nat = [1%float; 1%float]
     /\ h' 2%nat = [0.25%float; 0.25%float]
     /\ h' 4%nat = [2%float; 2%float])
  /\ modify_train_args machine (<[4%nat := [2%float; 2%float]]> six_lists)
       (parsed "regression")
     = Err InvalidGroupCountError.
Proof.
  split.
  - pose (a := (parsed "regression") {{ separate_ffn_lr := true }}).
    destruct (through_features machine a) as [a5|e] eqn:E5;
      [|vm_compute in E5; discriminate].
    destruct (modify_train_args machine six_lists a) as [[r h']|e] eqn:E;
      [|vm_compute in E; discriminate].
    exists r, h'. split; [exact E|].
    destruct (learning_rate_groups machine six_lists a a5 3%nat E5 eq_refl)
      as (_ & Hrun).
    destruct (Hrun r h' E) as (Hn & _ & Hl & _ & Hvalues).
    split; [exact Hn|]. split; [exact Hl|].
    destruct Hvalues as (V0 & V1 & V2 & _ & V4 & _).
    { repeat constructor; cbn; intuition discriminate. }
    vm_compute in V0, V1, V2, V4. auto.
  - pose (a := parsed "regression").
    destruct (through_features machine a) as [a5|e] eqn:E5;
      [|vm_compute in E5; discriminate].
    destruct (learning_rate_groups machine
                (<[4%nat := [2%float; 2%float]]> six_lists) a a5 3%nat E5 eq_refl)
      as (Hfail & _).
    apply Hfail. exists 4%nat. split; [cbn; tauto|].
    unfold in_range. vm_compute. intros (_ & Hle). apply Hle. reflexivity.
Defined.

(** C9.  On an unsupervised dataset a successful resolution has
    [separate_ffn_lr] true whatever was supplied, two learning-rate groups,
    and two entries in each of the six lists (the scale list being the one
    the deleted attribute [lr_scaler] held). *)
Theorem unsupervised_two_groups (env : Env) (h h' : store) (a r : Namespace) :
  dataset_type a = "unsupervised" ->
  modify_train_args env h a = OK (r, h') ->
  separate_ffn_lr r = true
  /\ num_lrs r = Present 2
  /\ exists scaler,
       lr_scaler a = Present scaler
       /\ forall l,
            In l [init_lr r; max_lr r; final_lr r; scaler;
                  warmup_epochs r; weight_decay r] ->
            length (h' l) = 2%nat.
Proof.
  intros Hdt H. pose proof H as H'.
  apply modify_train_args_resolved in H.
  destruct H as (m & nc & nt & nf & _ & _ & _ & _ & ->).
  unfold resolved.
  cbn [separate_ffn_lr num_lrs init_lr max_lr final_lr warmup_epochs
       weight_decay].
  rewrite Hdt. cbn [String.eqb Ascii.eqb Bool.eqb orb Z.b2z Z.add Pos.add].
  do 2 (split; [reflexivity|]).
  apply modify_train_args_through in H'.
  destruct H' as (a4 & a5 & a6 & a7 & a8 & _ & H5 & H6 & _).
  destruct (through_features_lr env a a5 H5)
    as (Esep & Esc & Ei & Em & Ef & Ew & Ed).
  pose proof (scale_learning_rates_OK _ _ _ _ H6) as Hshape.
  cbv zeta in Hshape. destruct Hshape as (_ & scaler & _ & Hsc & _).
  exists scaler. split; [congruence|].
  intros l Hin.
  pose proof (scale_learning_rates_lengths _ _ _ _ scaler H6 Hsc l) as Hlen.
  rewrite Ei, Em, Ef, Ew, Ed, Esep, Hdt in Hlen. specialize (Hlen Hin).
  cbn in Hlen. lia.
Qed.

Lemma unsupervised_two_groups_witness :
  exists r h',
    modify_train_args machine six_lists (parsed "unsupervised") = OK (r, h')
    /\ separate_ffn_lr r = true
    /\ map (fun l => length (h' l)) [0; 1; 2; 3; 4; 5]%nat
       = [2; 2; 2; 2; 2; 2]%nat.
Proof.
  destruct (modify_train_args machine six_lists (parsed "unsupervised"))
    as [[r h']|e] eqn:E; [|vm_compute in E; discriminate].
  exists r, h'. split; [reflexivity|].
  destruct (unsupervised_two_groups machine six_lists h'
              (parsed "unsupervised") r eq_refl E)
    as (Hsep & _ & scaler & Hsc & Hlen).
  split; [exact Hsep|].
  injection Hsc as <-.
  assert (Hr : init_lr r = 0%nat /\ max_lr r = 1%nat /\ final_lr r = 2%nat
               /\ warmup_epochs r = 4%nat /\ weight_decay r = 5%nat).
  { apply modify_train_args_resolved in E.
    destruct E as (m & nc & nt & nf & _ & _ & _ & _ & ->). repeat split. }
  destruct Hr as (R0 & R1 & R2 & R4 & R5). rewrite R0, R1, R2, R4, R5 in Hlen.
  cbn [map]. rewrite !Hlen by (cbn [In]; tauto). reflexivity.
Defined.

(** ** When the feature, learning-rate and layer blocks succeed *)

Lemma derive_feature_usage_total (a : Namespace) :
  (predict_features_and_task a = true -> dataset_type a = "regression") ->
  (predict_features a || predict_features_and_task a
   || opt_in_list (kernel_func a) ["features"; "features_dot"] = true ->
   truthy (feature_source a) = true) ->
  (dataset_type a = "bert_pretraining" -> features_only a = false) ->
  exists a', derive_feature_usage a = OK a'.
Proof.
  unfold derive_feature_usage, feature_source, assert.
  destruct (predict_features_and_task a) eqn:E1, (predict_features a) eqn:E2;
    destruct a; cbn -[opt_in_list truthy String.eqb py_or] in *; subst;
    intros Hreg Hsrc Hbert;
    try rewrite (Hreg eq_refl); cbn -[opt_in_list truthy py_or];
    try rewrite (Hsrc eq_refl); cbn -[opt_in_list truthy String.eqb py_or];
    repeat match goal with
           | |- context [if ?c then _ else _] =>
               let E := fresh "E" in
               destruct c eqn:E; cbn -[opt_in_list truthy String.eqb py_or]
           end;
    eauto;
    try (rewrite (Hsrc eq_refl) in *; discriminate);
    try match goal with
        | E : (_ =? _) = true |- _ => vm_compute in E; discriminate E
        end;
    try match goal with
        | E : ?c = true, E' : truthy _ = false |- _ =>
            rewrite (Hsrc E) in E'; discriminate E'
        end;
    try match goal with
        | H : true = true -> false = true |- _ => discriminate (H eq_refl)
        end;
    try match goal with
        | E : (?d =? "bert_pretraining") = true, E' : negb _ = false |- _ =>
            apply String.eqb_eq in E; rewrite (Hbert E) in E';
            discriminate E'
        end.
Qed.

Lemma ffn_defaults_total (a : Namespace) :
  (1 <= ffn_num_layers a)%Z -> exists a', ffn_defaults a = OK a'.
Proof.
  intros H. unfold ffn_defaults, assert.
  destruct (Z.leb_spec 1 (ffn_num_layers a)); [|lia]. cbn [bind]. eauto.
Qed.

Lemma through_flags_unwritten (env : Env) (a a1 : Namespace) :
  through_flags env a = OK a1 ->
  metric a1 = metric a
  /\ predict_features a1 = predict_features a
  /\ separate_ffn_lr a1 = separate_ffn_lr a
  /\ lr_scaler a1 = lr_scaler a
  /\ data_path a1 = data_path a.
Proof.
  intros H. apply through_flags_OK in H.
  destruct H as (nc & nt & nf & _ & _ & _ & ->). repeat split.
Qed.

(** A learning-rate block entered with six distinct lists that are full
    already succeeds, leaves their lengths alone and scales the three rate
    lists. *)
Lemma scale_learning_rates_full (h : store) (a : Namespace) (scaler : loc) :
  lr_scaler a = Present scaler ->
  let params := [init_lr a; max_lr a; final_lr a; scaler;
                 warmup_epochs a; weight_decay a] in
  List.NoDup params ->
  (forall l, In l params ->
             Z.of_nat (length (h l)) = 1 + Z.b2z (separate_ffn_lr a)) ->
  exists a' h',
    scale_learning_rates h a = OK (a', h')
    /\ (forall l, length (h' l) = length (h l))
    /\ h' (init_lr a) = scaled (h (init_lr a)) (h scaler)
    /\ h' (max_lr a) = scaled (h (max_lr a)) (h scaler)
    /\ h' (final_lr a) = scaled (h (final_lr a)) (h scaler)
    /\ (forall l, l <> init_lr a -> l <> max_lr a -> l <> final_lr a ->
                  h' l = h l).
Proof.
  intros Hs params Hnd Hfull.
  destruct (broadcast_params_full (separate_ffn_lr a) params h Hfull)
    as (h1 & Hb & Hsame).
  assert (Hne : init_lr a <> max_lr a /\ init_lr a <> final_lr a
                /\ max_lr a <> final_lr a /\ init_lr a <> scaler
                /\ max_lr a <> scaler /\ final_lr a <> scaler).
  { unfold params in Hnd.
    repeat match goal with
           | H : List.NoDup (_ :: _) |- _ =>
               let N := fresh "N" in
               inversion H as [|? ? N ?]; subst; clear H; cbn [In] in N
           end.
    repeat split; intros E; rewrite ?E in *; tauto. }
  destruct Hne as (N1 & N2 & N3 & N4 & N5 & N6).
  pose (b := a {{ num_lrs := Present (1 + Z.b2z (separate_ffn_lr a)) }}).
  destruct (scale_groups_all b scaler N1 N2 N3 N4 N5 N6
              (Z.to_nat (1 + Z.b2z (separate_ffn_lr a))) h1)
    as (h' & Hrun & E1 & E2 & E3 & Eother).
  1-4: change (init_lr b) with (init_lr a);
       change (max_lr b) with (max_lr a);
       change (final_lr b) with (final_lr a);
       rewrite Hsame;
       match goal with
       | |- length (?f ?x) = _ =>
           assert (Z.of_nat (length (f x)) = 1 + Z.b2z (separate_ffn_lr a))
             by (apply Hfull; unfold params; cbn [In]; tauto);
           lia
       end.
  change (init_lr b) with (init_lr a) in *.
  change (max_lr b) with (max_lr a) in *.
  change (final_lr b) with (final_lr a) in *.
  pose (r := b {{ lr_scaler := Absent }}).
  exists r, h'. split.
  - unfold scale_learning_rates. cbv zeta. fold b.
    change (lr_scaler b) with (lr_scaler a). rewrite Hs. cbn [getattr bind].
    change (init_lr b) with (init_lr a).
    change (max_lr b) with (max_lr a).
    change (final_lr b) with (final_lr a).
    change (warmup_epochs b) with (warmup_epochs a).
    change (weight_decay b) with (weight_decay a).
    change (separate_ffn_lr b) with (separate_ffn_lr a).
    fold params. rewrite Hb. cbn [bind]. rewrite Hrun. reflexivity.
  - split.
    { intros l. rewrite (scale_groups_length _ _ _ _ _ Hrun). by rewrite Hsame. }
    rewrite E1, E2, E3, !Hsame. repeat split; try reflexivity.
    intros l M1 M2 M3. rewrite Eother by done. apply Hsame.
Qed.

(** ** Running the resolution again *)

(** Resolving the restored bag gives the same namespace, when the data path
    is not a directory. *)
Lemma resolved_restore (env : Env) (a : Namespace) (m : string)
    (nc nt nf : bool) :
  os_path_isdir env (data_path a) = false ->
  resolved env (restore a (resolved env a m nc nt nf)) m nc nt nf
  = resolved env a m nc nt nf.
Proof.
  intros Hd. unfold resolved, restore, feature_source.
  cbn -[os_path_isdir os_walk String.eqb opt_in_list py_or
        collect_checkpoints orb Z.b2z Z.add].
  rewrite !Hd.
  f_equal;
    repeat match goal with
           | |- context [predict_features a || predict_features_and_task a
                         || predict_features_and_task a] =>
               replace (predict_features a || predict_features_and_task a
                        || predict_features_and_task a)
                 with (predict_features a || predict_features_and_task a)
                 by (destruct (predict_features a),
                       (predict_features_and_task a); reflexivity)
           | |- context [?u || (?u || ?s)] =>
               replace (u || (u || s)) with (u || s)
                 by (destruct u; reflexivity)
           end;
    try reflexivity.
  all: try (destruct (test a); reflexivity).
  all: try (destruct (checkpoint_dir a); reflexivity).
Qed.

(** ** When each block succeeds *)

Lemma metric_allowed_reads (x y : Namespace) :
  dataset_type x = dataset_type y -> metric x = metric y ->
  metric_allowed x = metric_allowed y.
Proof. unfold metric_allowed. intros -> ->. reflexivity. Qed.

Lemma check_metric_total (a : Namespace) :
  metric_allowed a = true
  \/ in_list (dataset_type a) ["unsupervised"; "bert_pretraining"] = true ->
  check_metric a = OK tt.
Proof.
  unfold check_metric. intros [-> | ->]; [reflexivity|].
  by rewrite andb_false_r.
Qed.

Lemma update_args_from_checkpoint_dir_total (env : Env) (a : Namespace) :
  (forall d, checkpoint_dir a = Some d ->
             collect_checkpoints (os_walk env d) <> []) ->
  exists a', update_args_from_checkpoint_dir env a = OK a'.
Proof.
  unfold update_args_from_checkpoint_dir. intros H.
  destruct (checkpoint_dir a) as [d|]; [|eauto]. cbv zeta.
  change (ensemble_size (_ {{ ensemble_size := ?v }})) with v.
  specialize (H d eq_refl).
  destruct (collect_checkpoints (os_walk env d)); [done|].
  cbn [length]. rewrite Nat2Z.inj_succ.
  destruct (Z.eqb_spec (Z.succ (Z.of_nat (length l))) 0); [lia|eauto].
Qed.

Lemma update_args_from_checkpoint_dir_found (env : Env) (a a' : Namespace) :
  update_args_from_checkpoint_dir env a = OK a' ->
  forall d, checkpoint_dir a = Some d ->
            collect_checkpoints (os_walk env d) <> [].
Proof.
  unfold update_args_from_checkpoint_dir. intros H d Hd. rewrite Hd in H.
  cbv zeta in H.
  change (ensemble_size (_ {{ ensemble_size := ?v }})) with v in H.
  intros E. rewrite E in H. discriminate H.
Qed.

Lemma check_vocab_OK (env : Env) (a : Namespace) (u : unit) :
  check_vocab env a = OK u ->
  jtnn a = true ->
  exists p, vocab_path a = Present (Some p)
            /\ is_not_none (resolve env p) = true.
Proof.
  unfold check_vocab. intros H Hj. rewrite Hj in H.
  destruct (vocab_path a) as [|[p|]]; try discriminate.
  exists p. split; [reflexivity|]. cbn in H.
  by destruct (is_not_none (resolve env p)).
Qed.

Lemma check_vocab_total (env : Env) (a : Namespace) :
  (jtnn a = true ->
   exists p, vocab_path a = Present (Some p)
             /\ is_not_none (resolve env p) = true) ->
  check_vocab env a = OK tt.
Proof.
  unfold check_vocab. intros H. destruct (jtnn a); [|reflexivity].
  destruct (H eq_refl) as (p & -> & Hp). cbn. by rewrite Hp.
Qed.

Lemma check_split_total (a : Namespace) :
  overlap_consistent a = true -> folds_consistent a = true ->
  check_split a = OK tt.
Proof. unfold check_split. intros -> ->. reflexivity. Qed.

Lemma os_walk_dir (env : Env) (p : string) (es : list (string * node)) :
  resolve env p = Some (Dir es) ->
  os_path_isdir env p = true
  /\ exists rest, os_walk env p = (p, dirnames es, filenames es) :: rest.
Proof.
  unfold os_path_isdir, os_walk. intros ->. split; [reflexivity|].
  cbn [walk]. eauto.
Qed.

Lemma os_path_isdir_true (env : Env) (p : string) :
  os_path_isdir env p = true -> exists es, resolve env p = Some (Dir es).
Proof.
  unfold os_path_isdir. destruct (resolve env p) as [[|es]|]; try discriminate.
  eauto.
Qed.

Lemma detect_chunks_total (env : Env) (a : Namespace) :
  (forall es, resolve env (data_path a) = Some (Dir es) -> filenames es <> []) ->
  exists a', detect_chunks env a = OK a'.
Proof.
  unfold detect_chunks. intros H.
  destruct (os_path_isdir env (data_path a)) eqn:E; [|eauto].
  apply os_path_isdir_true in E. destruct E as (es & Hes).
  destruct (os_walk_dir _ _ _ Hes) as (_ & rest & Hw).
  change (data_path (a {{ prespecified_chunk_dir := _ }})) with (data_path a).
  rewrite Hw. specialize (H es Hes).
  destruct (filenames es); [done|eauto].
Qed.

Lemma detect_chunks_listed (env : Env) (a a' : Namespace) :
  detect_chunks env a = OK a' ->
  forall es, resolve env (data_path a) = Some (Dir es) -> filenames es <> [].
Proof.
  unfold detect_chunks. intros H es Hes.
  destruct (os_walk_dir _ _ _ Hes) as (Hd & rest & Hw).
  rewrite Hd in H.
  change (data_path (a {{ prespecified_chunk_dir := _ }})) with (data_path a)
    in H.
  rewrite Hw in H. intros E. rewrite E in H. discriminate H.
Qed.

(** ** When the learning-rate block succeeds, lists shared or not *)

Lemma broadcast_params_total (separate : bool) (ls : list loc) :
  forall h : store,
    (forall l, In l ls -> in_range (1 + Z.b2z separate) (h l)) ->
    exists h1, broadcast_params (1 + Z.b2z separate) separate h ls = OK h1.
Proof.
  induction ls as [|l0 ls IH]; intros h Hr; [cbn; eauto|].
  cbn [broadcast_params].
  destruct (broadcast_param_total (1 + Z.b2z separate) separate h l0)
    as (h0 & H0); [apply Hr; by left|].
  rewrite H0. cbn [bind]. apply IH. intros l Hl.
  apply broadcast_param_OK in H0. destruct H0 as (Hr0 & Hl0 & Hother).
  destruct (Nat.eq_dec l l0) as [->|Hne].
  - rewrite Hl0. unfold in_range. rewrite broadcast_length by done.
    destruct separate; cbn; lia.
  - rewrite Hother by done. apply Hr. by right.
Qed.

Lemma imul_item_total (h : store) (t s : loc) (i : nat) :
  (i < length (h t))%nat -> (i < length (h s))%nat ->
  exists h', imul_item h t s i = OK h'.
Proof.
  unfold imul_item. intros Ht Hs.
  destruct (lookup_lt_is_Some_2 _ _ Ht) as (x & ->).
  destruct (lookup_lt_is_Some_2 _ _ Hs) as (y & ->). eauto.
Qed.

Lemma scale_group_total (a : Namespace) (s : loc) (h : store) (i : nat) :
  (i < length (h (init_lr a)))%nat -> (i < length (h (max_lr a)))%nat ->
  (i < length (h (final_lr a)))%nat -> (i < length (h s))%nat ->
  exists h', scale_group a s h i = OK h'.
Proof.
  intros H1 H2 H3 Hs. unfold scale_group.
  destruct (imul_item_total h (init_lr a) s i H1 Hs) as (h1 & E1).
  rewrite E1. cbn [bind].
  pose proof (imul_item_length _ _ _ _ _ E1) as L1.
  destruct (imul_item_total h1 (max_lr a) s i) as (h2 & E2);
    [by rewrite L1|by rewrite L1|].
  rewrite E2. cbn [bind].
  pose proof (imul_item_length _ _ _ _ _ E2) as L2.
  apply imul_item_total; by rewrite L2, L1.
Qed.

Lemma scale_groups_total (a : Namespace) (s : loc) (range : list nat) :
  forall h : store,
    (forall i, In i range ->
               (i < length (h (init_lr a)))%nat
               /\ (i < length (h (max_lr a)))%nat
               /\ (i < length (h (final_lr a)))%nat
               /\ (i < length (h s))%nat) ->
    exists h', scale_groups a s h range = OK h'.
Proof.
  induction range as [|i range IH]; intros h Hr; [cbn; eauto|].
  cbn [scale_groups].
  destruct (Hr i) as (H1 & H2 & H3 & Hs); [by left|].
  destruct (scale_group_total a s h i H1 H2 H3 Hs) as (h1 & E1).
  rewrite E1. cbn [bind]. apply IH. intros j Hj.
  rewrite !(scale_group_length _ _ _ _ _ E1). apply Hr. by right.
Qed.

Lemma scale_learning_rates_total (h : store) (a : Namespace) (scaler : loc) :
  lr_scaler a = Present scaler ->
  (forall l, In l [init_lr a; max_lr a; final_lr a; scaler;
                   warmup_epochs a; weight_decay a] ->
             in_range (1 + Z.b2z (separate_ffn_lr a)) (h l)) ->
  exists a' h', scale_learning_rates h a = OK (a', h').
Proof.
  intros Hs Hr.
  destruct (broadcast_params_total (separate_ffn_lr a) _ h Hr) as (h1 & Hb).
  pose proof (broadcast_params_lengths _ _ _ _ Hb) as (Hlen & _).
  pose (b := a {{ num_lrs := Present (1 + Z.b2z (separate_ffn_lr a)) }}).
  destruct (scale_groups_total b scaler
              (seq 0 (Z.to_nat (1 + Z.b2z (separate_ffn_lr a)))) h1)
    as (h' & Hrun).
  { intros i Hi. apply in_seq in Hi.
    change (init_lr b) with (init_lr a).
    change (max_lr b) with (max_lr a).
    change (final_lr b) with (final_lr a).
    assert (L1 := Hlen (init_lr a)). assert (L2 := Hlen (max_lr a)).
    assert (L3 := Hlen (final_lr a)). assert (L4 := Hlen scaler).
    cbn [In] in L1, L2, L3, L4.
    specialize (L1 ltac:(tauto)). specialize (L2 ltac:(tauto)).
    specialize (L3 ltac:(tauto)). specialize (L4 ltac:(tauto)). lia. }
  pose (r := b {{ lr_scaler := Absent }}).
  exists r, h'.
  unfold scale_learning_rates. cbv zeta. fold b.
  change (lr_scaler b) with (lr_scaler a). rewrite Hs. cbn [getattr bind].
  change (init_lr b) with (init_lr a).
  change (max_lr b) with (max_lr a).
  change (final_lr b) with (final_lr a).
  change (warmup_epochs b) with (warmup_epochs a).
  change (weight_decay b) with (weight_decay a).
  change (separate_ffn_lr b) with (separate_ffn_lr a).
  rewrite Hb. cbn [bind]. rewrite Hrun. reflexivity.
Qed.

(** ** The inputs the resolution accepts *)

(** The states a successful run goes through. *)
Lemma modify_train_args_trace (env : Env) (h h' : store) (a r : Namespace) :
  modify_train_args env h a = OK (r, h') ->
  exists a1 a2 a4 a5 a6 a7,
    through_flags env a = OK a1
    /\ default_metric a1 = OK a2
    /\ check_metric a2 = OK tt
    /\ through_metric env a = OK (set_minimize_score a2)
    /\ update_args_from_checkpoint_dir env (set_minimize_score a2) = OK a4
    /\ check_vocab env a4 = OK tt
    /\ through_vocab env a = OK a4
    /\ derive_feature_usage a4 = OK a5
    /\ through_features env a = OK a5
    /\ scale_learning_rates h (force_separate_ffn_lr a5) = OK (a6, h')
    /\ ffn_defaults a6 = OK a7
    /\ through_ffn env h a = OK (a7, h')
    /\ check_split a7 = OK tt
    /\ through_split env h a = OK (test_only a7, h')
    /\ detect_chunks env (test_only a7) = OK r.
Proof.
  intros H. apply modify_train_args_OK in H.
  destruct H as (a1 & a2 & a4 & a5 & a6 & a7 & H1 & H2 & H3 & H4 & H5 & H6
                 & H7 & H8 & H9 & H10).
  assert (T3 : through_metric env a = OK (set_minimize_score a2)).
  { unfold through_metric, through_default_metric.
    rewrite H1. cbn [bind]. rewrite H2. cbn [bind]. rewrite H3. reflexivity. }
  assert (T4 : through_vocab env a = OK a4).
  { unfold through_vocab, through_checkpoints.
    rewrite T3. cbn [bind]. rewrite H4. cbn [bind]. rewrite H5. reflexivity. }
  assert (T5 : through_features env a = OK a5).
  { unfold through_features. rewrite T4. cbn [bind]. exact H6. }
  assert (T7 : through_ffn env h a = OK (a7, h')).
  { unfold through_ffn, through_learning_rates.
    rewrite T5. cbn [bind]. rewrite H7. cbn [bind]. rewrite H8. reflexivity. }
  assert (T9 : through_split env h a = OK (test_only a7, h')).
  { unfold through_split. rewrite T7. cbn [bind]. rewrite H9. reflexivity. }
  exists a1, a2, a4, a5, a6, a7. auto 20.
Qed.

(** The attributes the checks read, at the place where they are read, are
    those of the input. *)
Lemma read_only_fields (x y : Namespace) :
  read_only x = read_only y ->
  (test x = test y /\ vocab_path x = vocab_path y /\ jtnn x = jtnn y
   /\ features_only x = features_only y
   /\ features_generator x = features_generator y
   /\ features_path x = features_path y)
  /\ (predict_features_and_task x = predict_features_and_task y
      /\ checkpoint_dir x = checkpoint_dir y
      /\ dataset_type x = dataset_type y /\ split_type x = split_type y
      /\ scaffold_overlap x = scaffold_overlap y
      /\ folds_file x = folds_file y)
  /\ (test_fold_index x = test_fold_index y
      /\ bert_vocab_func x = bert_vocab_func y
      /\ kernel_func x = kernel_func y
      /\ init_lr x = init_lr y /\ max_lr x = max_lr y
      /\ final_lr x = final_lr y)
  /\ (warmup_epochs x = warmup_epochs y /\ weight_decay x = weight_decay y
      /\ hidden_size x = hidden_size y /\ dropout x = dropout y
      /\ ffn_num_layers x = ffn_num_layers y).
Proof.
  unfold read_only. intros H. simplify_eq H. intros. repeat split; assumption.
Qed.

Lemma feature_source_reads (x y : Namespace) :
  features_generator x = features_generator y ->
  features_path x = features_path y ->
  feature_source x = feature_source y.
Proof. unfold feature_source. intros -> ->. reflexivity. Qed.

(** A run that succeeds was given a valid input. *)
Lemma modify_train_args_Valid (env : Env) (h h' : store) (a r : Namespace) :
  modify_train_args env h a = OK (r, h') -> Valid env h a.
Proof.
  intros Hrun.
  destruct (modify_train_args_resolved _ _ _ _ _ Hrun)
    as (m & nc & nt & nf & Hm & Hnc & Hnt & Hnf & _).
  destruct (modify_train_args_trace _ _ _ _ _ Hrun)
    as (a1 & a2 & a4 & a5 & a6 & a7 & T1 & D2 & C2 & T3 & U4 & V4 & T4 & F5
        & T5 & S6 & N7 & T7 & P7 & T9 & K9).
  pose proof (through_flags_read_only _ _ _ T1) as R1.
  pose proof (through_flags_unwritten _ _ _ T1) as (M1 & _).
  pose proof (through_vocab_read_only _ _ _ T4) as R4.
  pose proof (through_vocab_unwritten _ _ _ T4) as (W4 & _).
  pose proof (through_features_lr _ _ _ T5) as L5. cbv zeta in L5.
  destruct L5 as (L5s & L5c & L5i & L5m & L5f & L5w & L5d).
  pose proof (through_features_read_only _ _ _ T5) as R5.
  pose proof (scale_learning_rates_read_only _ _ _ _ S6) as R6.
  pose proof (through_ffn_read_only _ _ _ _ _ T7) as R7.
  pose proof (through_split_unwritten _ _ _ _ _ T9) as W9.
  destruct (read_only_fields _ _ R1)
    as ((_ & _ & _ & _ & _ & _) & (_ & _ & E1dt & _ & _ & _)
        & (_ & E1bv & E1kf & _ & _ & _) & _).
  destruct (read_only_fields _ _ R4)
    as ((_ & E4vp & E4j & E4fo & E4fg & E4fp) & (E4pt & E4cd & E4dt & _ & _ & _)
        & (_ & _ & E4kf & _ & _ & _) & _).
  split.
  - eauto 10.
  - exists m. split; [exact Hm|].
    pose proof (default_metric_reads a a1 _ M1 E1dt E1bv E1kf Hm) as D2'.
    pose (b1 := a1 {{ metric := Some m }}).
    assert (Ea2 : a2 = b1).
    { rewrite D2 in D2'. injection D2' as ->. reflexivity. }
    rewrite Ea2 in C2.
    apply check_metric_OK in C2. destruct C2 as [C|C]; [left|right].
    + etransitivity; [|exact C]. apply metric_allowed_reads; [|reflexivity].
      change (dataset_type a = dataset_type a1). by rewrite E1dt.
    + change (dataset_type b1) with (dataset_type a1) in C.
      by rewrite E1dt in C.
  - pose proof (update_args_from_checkpoint_dir_found _ _ _ U4) as Hfound.
    intros d Hd. apply Hfound.
    pose proof (through_metric_read_only _ _ _ T3) as R3.
    destruct (read_only_fields _ _ R3) as (_ & (_ & E3 & _) & _).
    by rewrite E3.
  - intros Hj. rewrite <- E4j in Hj.
    destruct (check_vocab_OK _ _ _ V4 Hj) as (p & Hp & Hx).
    exists p. by rewrite <- E4vp.
  - apply derive_feature_usage_valid in F5. destruct F5 as (F & _ & _).
    rewrite <- E4pt, <- E4dt. exact F.
  - apply derive_feature_usage_valid in F5. destruct F5 as (_ & F & _).
    rewrite <- W4, <- E4pt, <- E4kf.
    rewrite <- (feature_source_reads a4 a) by assumption. exact F.
  - apply derive_feature_usage_valid in F5. destruct F5 as (_ & _ & F).
    rewrite <- E4dt, <- E4fo. exact F.
  - destruct (scale_learning_rates_OK _ _ _ _ S6) as (_ & s & h1 & Hs & Hb & _).
    exists s. split; [by rewrite <- L5c|].
    intros l Hl. rewrite <- L5s.
    apply (broadcast_params_in_range _ _ _ _ _ Hb).
    by rewrite L5i, L5m, L5f, L5w, L5d.
  - apply ffn_defaults_OK in N7. destruct N7 as (N & _).
    destruct (read_only_fields _ _ R6) as (_ & _ & _ & (_ & _ & _ & _ & E6)).
    pose proof (through_features_read_only _ _ _ T5) as R5'.
    destruct (read_only_fields _ _ R5') as (_ & _ & _ & (_ & _ & _ & _ & E5)).
    rewrite E6 in N. rewrite force_separate_ffn_lr_shape in N.
    change (ffn_num_layers (a5 {{ separate_ffn_lr := _ }}))
      with (ffn_num_layers a5) in N.
    by rewrite E5 in N.
  - apply (check_split_OK a tt). rewrite <- (check_split_reads a a7 R7). exact P7.
  - intros es Hes. apply (detect_chunks_listed _ _ _ K9). by rewrite W9.
Qed.

(** A valid input is resolved: no line raises. *)
Lemma Valid_modify_train_args (env : Env) (h : store) (a : Namespace) :
  Valid env h a -> exists r h', modify_train_args env h a = OK (r, h').
Proof.
  intros [Vf Vm Vc Vv Vt Vfe Vb Vr Vl Vs Vk].
  destruct Vf as (nc & nt & nf & Hnc & Hnt & Hnf).
  destruct (through_flags_present env a nc nt nf Hnc Hnt Hnf) as (a1 & T1).
  pose proof (through_flags_read_only _ _ _ T1) as R1.
  pose proof (through_flags_unwritten _ _ _ T1) as (M1 & _).
  destruct (read_only_fields _ _ R1)
    as (_ & (_ & _ & E1dt & _ & _ & _) & (_ & E1bv & E1kf & _ & _ & _) & _).
  destruct Vm as (m & Hm & Hok).
  pose proof (default_metric_reads a a1 _ M1 E1dt E1bv E1kf Hm) as D2.
  pose (a2 := a1 {{ metric := Some m }}).
  change (default_metric a1 = OK a2) in D2.
  assert (C2 : check_metric a2 = OK tt).
  { apply check_metric_total. destruct Hok as [Hok|Hok]; [left|right].
    - etransitivity; [|exact Hok]. apply metric_allowed_reads; [|reflexivity].
      change (dataset_type a1 = dataset_type a). exact E1dt.
    - change (dataset_type a2) with (dataset_type a1). by rewrite E1dt. }
  assert (T3 : through_metric env a = OK (set_minimize_score a2)).
  { unfold through_metric, through_default_metric.
    rewrite T1. cbn [bind]. rewrite D2. cbn [bind]. rewrite C2. reflexivity. }
  pose proof (through_metric_read_only _ _ _ T3) as R3.
  destruct (read_only_fields _ _ R3) as (_ & (_ & E3cd & _) & _).
  destruct (update_args_from_checkpoint_dir_total env (set_minimize_score a2))
    as (a4 & U4).
  { intros d Hd. apply Vc. by rewrite <- E3cd. }
  assert (T4c : through_checkpoints env a = OK a4).
  { unfold through_checkpoints. rewrite T3. exact U4. }
  pose proof (through_checkpoints_read_only _ _ _ T4c) as R4.
  destruct (read_only_fields _ _ R4)
    as ((_ & E4vp & E4j & E4fo & E4fg & E4fp) & (E4pt & _ & E4dt & _ & _ & _)
        & (_ & _ & E4kf & _ & _ & _) & _).
  assert (V4 : check_vocab env a4 = OK tt).
  { apply check_vocab_total. rewrite E4j, E4vp. exact Vv. }
  assert (T4 : through_vocab env a = OK a4).
  { unfold through_vocab. rewrite T4c. cbn [bind]. rewrite V4. reflexivity. }
  pose proof (through_vocab_unwritten _ _ _ T4) as (W4 & _).
  destruct (derive_feature_usage_total a4) as (a5 & F5).
  { rewrite E4pt, E4dt. exact Vt. }
  { rewrite W4, E4pt, E4kf, (feature_source_reads a4 a) by assumption.
    exact Vfe. }
  { rewrite E4dt, E4fo. exact Vb. }
  assert (T5 : through_features env a = OK a5).
  { unfold through_features. rewrite T4. exact F5. }
  pose proof (through_features_lr _ _ _ T5) as L5. cbv zeta in L5.
  destruct L5 as (L5s & L5c & L5i & L5m & L5f & L5w & L5d).
  destruct Vr as (s & Hs & Hr).
  destruct (scale_learning_rates_total h (force_separate_ffn_lr a5) s)
    as (a6 & h' & S6).
  { by rewrite L5c. }
  { rewrite L5s, L5i, L5m, L5f, L5w, L5d. exact Hr. }
  assert (T6 : through_learning_rates env h a = OK (a6, h')).
  { unfold through_learning_rates. rewrite T5. exact S6. }
  pose proof (through_learning_rates_read_only _ _ _ _ _ T6) as R6.
  destruct (read_only_fields _ _ R6) as (_ & _ & _ & (_ & _ & _ & _ & E6)).
  destruct (ffn_defaults_total a6) as (a7 & N7); [by rewrite E6|].
  assert (T7 : through_ffn env h a = OK (a7, h')).
  { unfold through_ffn. rewrite T6. cbn [bind]. rewrite N7. reflexivity. }
  pose proof (through_ffn_read_only _ _ _ _ _ T7) as R7.
  assert (P7 : check_split a7 = OK tt).
  { rewrite (check_split_reads a a7 R7). destruct Vs as (Vo & Vfo).
    by apply check_split_total. }
  assert (T9 : through_split env h a = OK (test_only a7, h')).
  { unfold through_split. rewrite T7. cbn [bind]. rewrite P7. reflexivity. }
  pose proof (through_split_unwritten _ _ _ _ _ T9) as W9.
  destruct (detect_chunks_total env (test_only a7)) as (r & K9).
  { intros es Hes. apply Vk. by rewrite <- W9. }
  exists r, h'. unfold modify_train_args. rewrite T9. cbn [bind].
  rewrite K9. reflexivity.
Qed.

(** ** Resolving a second time *)

(** The attributes of the restored bag, in terms of the first input. *)
Lemma restore_resolved (env : Env) (a : Namespace) (m : string)
    (nc nt nf : bool) :
  let b := restore a (resolved env a m nc nt nf) in
  read_only b = read_only a
  /\ metric b = Some m
  /\ predict_features b = predict_features a || predict_features_and_task a
  /\ separate_ffn_lr b
     = (dataset_type a =? "unsupervised") || separate_ffn_lr a
  /\ lr_scaler b = lr_scaler a
  /\ no_cuda b = no_cuda a
  /\ no_target_scaling b = no_target_scaling a
  /\ no_features_scaling b = no_features_scaling a
  /\ (os_path_isdir env (data_path a) = false -> data_path b = data_path a).
Proof.
  cbv zeta. repeat split.
  intros Hd. unfold restore, resolved.
  change (data_path (apply_update ?u ?t)) with (data_path t).
  cbn [data_path]. by rewrite Hd.
Qed.

(** The restored bag is valid again, in the store the first run left,
    when the data path is not a directory. *)
Lemma Valid_restore (env : Env) (h h1 : store) (a : Namespace) (m : string)
    (nc nt nf : bool) :
  Valid env h a ->
  default_metric a = OK (a {{ metric := Some m }}) ->
  (forall scaler l,
     lr_scaler a = Present scaler ->
     In l [init_lr a; max_lr a; final_lr a; scaler;
           warmup_epochs a; weight_decay a] ->
     Z.of_nat (length (h1 l))
     = 1 + Z.b2z ((dataset_type a =? "unsupervised") || separate_ffn_lr a)) ->
  os_path_isdir env (data_path a) = false ->
  Valid env h1 (restore a (resolved env a m nc nt nf)).
Proof.
  intros [Vf Vm Vc Vv Vt Vfe Vb Vr Vl Vs Vk] Hm Hlen Hd.
  pose proof (restore_resolved env a m nc nt nf) as Hb. cbv zeta in Hb.
  set (b := restore a (resolved env a m nc nt nf)) in *.
  destruct Hb as (Rb & Mb & Pb & Sb & Lb & Cb & Tb & Fb & Db).
  specialize (Db Hd).
  destruct (read_only_fields _ _ Rb)
    as ((_ & Evp & Ej & Efo & Efg & Efp) & (Ept & Ecd & Edt & Est & Eso & Eff)
        & (Etf & Ebv & Ekf & Ei & Ema & Efi) & (Ew & Ewd & _ & _ & En)).
  split.
  - rewrite Cb, Tb, Fb. exact Vf.
  - exists m. split.
    + unfold default_metric. rewrite Mb. reflexivity.
    + destruct Vm as (m' & Hm' & Hok).
      assert (Em : m' = m).
      { rewrite Hm in Hm'.
        apply (f_equal (fun x => match x with
                                 | OK x => metric x
                                 | Err _ => None
                                 end)) in Hm'.
        change (Some m = Some m') in Hm'. congruence. }
      subst m'. rewrite Edt. destruct Hok as [Hok|Hok]; [left|by right].
      etransitivity; [|exact Hok]. apply metric_allowed_reads; [|reflexivity].
      change (dataset_type b = dataset_type a). exact Edt.
  - rewrite Ecd. exact Vc.
  - rewrite Ej, Evp. exact Vv.
  - rewrite Ept, Edt. exact Vt.
  - rewrite Pb, Ept, Ekf, (feature_source_reads b a) by assumption.
    intros H. apply Vfe.
    destruct (predict_features a), (predict_features_and_task a); done.
  - rewrite Edt, Efo. exact Vb.
  - destruct Vr as (s & Hs & Hr). exists s. split; [by rewrite Lb|].
    rewrite Edt, Sb, Ei, Ema, Efi, Ew, Ewd, orb_assoc, orb_diag. intros l Hl.
    pose proof (Hlen s l Hs Hl) as Hl1. unfold in_range.
    destruct ((dataset_type a =? "unsupervised") || separate_ffn_lr a);
      cbn in *; lia.
  - by rewrite En.
  - unfold overlap_consistent, folds_consistent in *.
    by rewrite Est, Eso, Eff, Etf.
  - rewrite Db. exact Vk.
Qed.

(** After a run, each of the six lists has [num_lrs] entries. *)
Lemma modify_train_args_lengths (env : Env) (h h1 : store) (a r : Namespace)
    (scaler : loc) :
  modify_train_args env h a = OK (r, h1) ->
  lr_scaler a = Present scaler ->
  forall l,
    In l [init_lr a; max_lr a; final_lr a; scaler;
          warmup_epochs a; weight_decay a] ->
    Z.of_nat (length (h1 l))
    = 1 + Z.b2z ((dataset_type a =? "unsupervised") || separate_ffn_lr a).
Proof.
  intros Hrun Hs l Hl.
  destruct (modify_train_args_trace _ _ _ _ _ Hrun)
    as (a1 & a2 & a4 & a5 & a6 & a7 & _ & _ & _ & _ & _ & _ & _ & _
        & T5 & S6 & _).
  pose proof (through_features_lr _ _ _ T5) as L5. cbv zeta in L5.
  destruct L5 as (L5s & L5c & L5i & L5m & L5f & L5w & L5d).
  rewrite <- L5s.
  apply (scale_learning_rates_lengths _ _ _ _ scaler S6); [by rewrite L5c|].
  by rewrite L5i, L5m, L5f, L5w, L5d.
Qed.

(** ** What the learning-rate block leaves alone, lists shared or not *)

Lemma broadcast_grows (separate : bool) (xs : list float) :
  (length xs <= length (broadcast separate xs))%nat.
Proof.
  unfold broadcast. destruct xs as [|x [|y xs]], separate; cbn; lia.
Qed.

Lemma broadcast_params_other (n : Z) (separate : bool) (ls : list loc) :
  forall h h1 : store,
    broadcast_params n separate h ls = OK h1 ->
    (forall l, ~ In l ls -> h1 l = h l)
    /\ (forall l, (length (h l) <= length (h1 l))%nat).
Proof.
  induction ls as [|l0 ls IH]; intros h h1 H.
  - injection H as <-. split; [reflexivity|lia].
  - cbn [broadcast_params] in H. apply bind_OK in H.
    destruct H as (h0 & H0 & H).
    apply broadcast_param_OK in H0. destruct H0 as (_ & Hl0 & Hother).
    destruct (IH h0 h1 H) as (IHout & IHlen). split.
    + intros l Hl. rewrite IHout by (intros Hin; apply Hl; by right).
      apply Hother. intros ->. apply Hl. by left.
    + intros l. etransitivity; [|apply IHlen].
      destruct (Nat.eq_dec l l0) as [->|Hne].
      * rewrite Hl0. apply broadcast_grows.
      * by rewrite Hother.
Qed.

Lemma scale_group_other (a : Namespace) (s : loc) (h h' : store) (i : nat) :
  scale_group a s h i = OK h' ->
  forall l, l <> init_lr a -> l <> max_lr a -> l <> final_lr a -> h' l = h l.
Proof.
  unfold scale_group. intros H l N1 N2 N3.
  apply bind_OK in H. destruct H as (h1 & H1 & H).
  apply bind_OK in H. destruct H as (h2 & H2 & H3).
  apply imul_item_OK in H1. destruct H1 as (? & ? & _ & _ & _ & O1).
  apply imul_item_OK in H2. destruct H2 as (? & ? & _ & _ & _ & O2).
  apply imul_item_OK in H3. destruct H3 as (? & ? & _ & _ & _ & O3).
  by rewrite O3, O2, O1.
Qed.

Lemma scale_groups_other (a : Namespace) (s : loc) (range : list nat) :
  forall h h' : store,
    scale_groups a s h range = OK h' ->
    forall l, l <> init_lr a -> l <> max_lr a -> l <> final_lr a -> h' l = h l.
Proof.
  induction range as [|i range IH]; intros h h' H l N1 N2 N3.
  - by injection H as <-.
  - cbn [scale_groups] in H. apply bind_OK in H.
    destruct H as (h1 & H1 & H).
    rewrite (IH _ _ H) by done. by apply (scale_group_other _ _ _ _ _ H1).
Qed.

Lemma scale_learning_rates_other (h h' : store) (a a' : Namespace) :
  scale_learning_rates h a = OK (a', h') ->
  exists scaler,
    lr_scaler a = Present scaler
    /\ (forall l,
          ~ In l [init_lr a; max_lr a; final_lr a; scaler;
                  warmup_epochs a; weight_decay a] ->
          h' l = h l)
    /\ (forall l, (length (h l) <= length (h' l))%nat).
Proof.
  intros H. apply scale_learning_rates_OK in H. cbv zeta in H.
  destruct H as (_ & scaler & h1 & Hs & Hb & Hg).
  exists scaler. split; [exact Hs|].
  apply broadcast_params_other in Hb. destruct Hb as (Hout & Hlen).
  pose proof (scale_groups_length _ _ _ _ _ Hg) as Hsame.
  pose proof (scale_groups_other _ _ _ _ _ Hg) as Hother.
  change (init_lr (a {{ num_lrs := _ }})) with (init_lr a) in Hother.
  change (max_lr (a {{ num_lrs := _ }})) with (max_lr a) in Hother.
  change (final_lr (a {{ num_lrs := _ }})) with (final_lr a) in Hother.
  split.
  - intros l Hl. rewrite Hother; [by apply Hout|..];
      intros ->; apply Hl; cbn [In]; tauto.
  - intros l. by rewrite Hsame.
Qed.

(** ** The errors of the metric and feature blocks *)

Lemma check_metric_rejects (env : Env) (h : store) (a a1 : Namespace)
    (m : string) :
  through_flags env a = OK a1 ->
  default_metric a = OK (a {{ metric := Some m }}) ->
  metric_allowed (a {{ metric := Some m }}) = false ->
  in_list (dataset_type a) ["unsupervised"; "bert_pretraining"] = false ->
  modify_train_args env h a = Err (IncompatibleMetricError m (dataset_type a)).
Proof.
  intros T1 Hm Hbad Hno.
  pose proof (through_flags_read_only _ _ _ T1) as R1.
  pose proof (through_flags_unwritten _ _ _ T1) as (M1 & _).
  destruct (read_only_fields _ _ R1)
    as (_ & (_ & _ & E1dt & _ & _ & _) & (_ & E1bv & E1kf & _ & _ & _) & _).
  pose proof (default_metric_reads a a1 _ M1 E1dt E1bv E1kf Hm) as D2.
  pose (a2 := a1 {{ metric := Some m }}).
  change (default_metric a1 = OK a2) in D2.
  apply through_metric_Err. unfold through_metric, through_default_metric.
  rewrite T1. cbn [bind]. rewrite D2. cbn [bind].
  unfold check_metric.
  rewrite (metric_allowed_reads a2 (a {{ metric := Some m }}));
    [|exact E1dt|reflexivity].
  rewrite Hbad. change (dataset_type a2) with (dataset_type a1).
  rewrite E1dt, Hno. reflexivity.
Qed.

Lemma derive_feature_usage_task (a : Namespace) :
  predict_features_and_task a = true -> dataset_type a <> "regression" ->
  derive_feature_usage a = Err IncompatibleModeError.
Proof.
  unfold derive_feature_usage, assert. intros Ht Hdt.
  change (predict_features_and_task (a {{ use_input_features := _ }}))
    with (predict_features_and_task a).
  change (dataset_type (a {{ use_input_features := _ }}))
    with (dataset_type a).
  rewrite Ht. apply String.eqb_neq in Hdt. rewrite Hdt. reflexivity.
Qed.

Lemma derive_feature_usage_bert (a : Namespace) :
  dataset_type a = "bert_pretraining" -> features_only a = true ->
  predict_features_and_task a = false ->
  (predict_features a
   || opt_in_list (kernel_func a) ["features"; "features_dot"] = true ->
   truthy (feature_source a) = true) ->
  derive_feature_usage a = Err IncompatibleModeError.
Proof.
  unfold derive_feature_usage, feature_source, assert.
  destruct (predict_features a) eqn:E2;
    destruct a; cbn -[opt_in_list truthy String.eqb py_or] in *; subst;
    intros Hdt Hfo Ht Hsrc; subst;
    cbn -[opt_in_list truthy py_or];
    try rewrite (Hsrc eq_refl); cbn -[opt_in_list truthy py_or];
    repeat match goal with
           | |- context [if ?c then _ else _] =>
               let E := fresh "E" in
               destruct c eqn:E; cbn -[opt_in_list truthy py_or]
           end;
    try reflexivity;
    try (rewrite (Hsrc eq_refl) in *; discriminate);
    try match goal with
        | H : true = true -> false = true |- _ => discriminate (H eq_refl)
        end.
Qed.

Lemma through_metric_total (env : Env) (a a1 : Namespace) (m : string) :
  through_flags env a = OK a1 ->
  default_metric a = OK (a {{ metric := Some m }}) ->
  metric_allowed (a {{ metric := Some m }}) = true
  \/ in_list (dataset_type a) ["unsupervised"; "bert_pretraining"] = true ->
  exists a3, through_metric env a = OK a3 /\ metric a3 = Some m.
Proof.
  intros T1 Hm Hok.
  pose proof (through_flags_read_only _ _ _ T1) as R1.
  pose proof (through_flags_unwritten _ _ _ T1) as (M1 & _).
  destruct (read_only_fields _ _ R1)
    as (_ & (_ & _ & E1dt & _ & _ & _) & (_ & E1bv & E1kf & _ & _ & _) & _).
  pose proof (default_metric_reads a a1 _ M1 E1dt E1bv E1kf Hm) as D2.
  pose (a2 := a1 {{ metric := Some m }}).
  change (default_metric a1 = OK a2) in D2.
  assert (C2 : check_metric a2 = OK tt).
  { apply check_metric_total. destruct Hok as [Hok|Hok]; [left|right].
    - etransitivity; [|exact Hok]. apply metric_allowed_reads; [|reflexivity].
      change (dataset_type a1 = dataset_type a). exact E1dt.
    - change (dataset_type a2) with (dataset_type a1). by rewrite E1dt. }
  exists (set_minimize_score a2). split; [|reflexivity].
  unfold through_metric, through_default_metric.
  rewrite T1. cbn [bind]. rewrite D2. cbn [bind]. rewrite C2. reflexivity.
Qed.



(** * Further properties of the resolution *)



(** X2. The resolved metric is always one the dataset type allows:
    auc, prc-auc or accuracy for classification; rmse, mae or r2 for
    regression and regression_with_binning; rmse for kernel; any metric for
    unsupervised and bert_pretraining.  No other dataset type is ever
    resolved. *)
Theorem resolved_metric_allowed (env : Env) (h h' : store) (a r : Namespace) :
  modify_train_args env h a = OK (r, h') ->
  dataset_type r = dataset_type a
  /\ exists m,
       metric r = Some m
       /\ ((dataset_type a = "classification"
            /\ In m ["auc"; "prc-auc"; "accuracy"])
           \/ ((dataset_type a = "regression"
                \/ dataset_type a = "regression_with_binning")
               /\ In m ["rmse"; "mae"; "r2"])
           \/ (dataset_type a = "kernel" /\ m = "rmse")
           \/ dataset_type a = "unsupervised"
           \/ dataset_type a = "bert_pretraining").
Proof.
  intros Hrun.
  pose proof (modify_train_args_Valid _ _ _ _ _ Hrun) as V.
  destruct (modify_train_args_resolved _ _ _ _ _ Hrun)
    as (m & nc & nt & nf & Hm & _ & _ & _ & ->).
  split; [reflexivity|]. exists m. split; [reflexivity|].
  destruct (valid_metric _ _ _ V) as (m' & Hm' & Hok).
  assert (Em : m' = m).
  { rewrite Hm in Hm'.
    apply (f_equal (fun x => match x with
                             | OK x => metric x
                             | Err _ => None
                             end)) in Hm'.
    change (Some m = Some m') in Hm'. congruence. }
  subst m'. unfold metric_allowed in Hok.
  change (dataset_type (a {{ metric := Some m }})) with (dataset_type a) in Hok.
  change (metric (a {{ metric := Some m }})) with (Some m) in Hok.
  cbn [opt_in_list] in Hok.
  destruct Hok as [Hok|Hok].
  - apply orb_true_iff in Hok. destruct Hok as [Hok|Hok].
    + apply orb_true_iff in Hok. destruct Hok as [Hok|Hok].
      * apply andb_true_iff in Hok. destruct Hok as (Hd & Hin).
        left. split; [by apply String.eqb_eq|by apply in_list_In].
      * apply andb_true_iff in Hok. destruct Hok as (Hd & Hin).
        right. left. split; [|by apply in_list_In].
        apply orb_true_iff in Hd.
        destruct Hd as [Hd|Hd]; [left|right]; by apply String.eqb_eq.
    + apply andb_true_iff in Hok. destruct Hok as (Hd & Hin).
      right. right. left. split; [by apply String.eqb_eq|].
      apply in_list_In in Hin. cbn in Hin. intuition.
  - apply in_list_In in Hok. cbn [In] in Hok.
    destruct Hok as [Hok|[Hok|[]]]; auto 10.
Qed.

Lemma resolved_metric_allowed_witness :
  exists r h',
    modify_train_args machine six_lists
      ((parsed "classification") {{ metric := Some "accuracy" }}) = OK (r, h')
    /\ metric r = Some "accuracy".
Proof.
  pose (a := (parsed "classification") {{ metric := Some "accuracy" }}).
  destruct (modify_train_args machine six_lists a) as [[r h']|e] eqn:E;
    [|vm_compute in E; discriminate].
  exists r, h'. split; [exact E|].
  destruct (resolved_metric_allowed machine six_lists h' a r E)
    as (_ & m & Hm & Hcases).
  rewrite Hm. f_equal.
  apply modify_train_args_resolved in E.
  destruct E as (m' & nc & nt & nf & Hm' & _ & _ & _ & ->).
  vm_compute in Hm'. injection Hm' as <-.
  change (Some "accuracy" = Some m) in Hm. congruence.
Defined.

(** X3. With no metric supplied, the default chosen at lines 336-353 always
    passes the check of lines 355-359 for classification, regression,
    regression_with_binning, unsupervised and bert_pretraining, and for
    kernel with a kernel function that has a default: the run goes past
    line 361.  For a dataset type outside the six the default rmse is
    rejected, and the error names a metric the caller never chose. *)
Theorem default_metric_passes (env : Env) (h : store) (a a1 : Namespace) :
  through_flags env a = OK a1 ->
  metric a = None ->
  (In (dataset_type a)
      ["classification"; "regression"; "regression_with_binning";
       "unsupervised"; "bert_pretraining"]
   \/ (dataset_type a = "kernel"
       /\ opt_in_list (kernel_func a) ["features"; "features_dot"; "WL"]
          = true) ->
   exists a3 m, through_metric env a = OK a3 /\ metric a3 = Some m)
  /\ (~ In (dataset_type a)
          ["classification"; "regression"; "regression_with_binning";
           "unsupervised"; "bert_pretraining"; "kernel"] ->
      modify_train_args env h a
      = Err (IncompatibleMetricError "rmse" (dataset_type a))).
Proof.
  intros T1 Hnone. split.
  - intros Hdt.
    assert (Hm : exists m,
               default_metric a = OK (a {{ metric := Some m }})
               /\ (metric_allowed (a {{ metric := Some m }}) = true
                   \/ in_list (dataset_type a)
                        ["unsupervised"; "bert_pretraining"] = true)).
    { destruct Hdt as [Hdt|(Hdt & Hk)].
      - cbn [In] in Hdt.
        destruct Hdt as [Hdt|[Hdt|[Hdt|[Hdt|[Hdt|[]]]]]].
        + exists "auc". split.
          * unfold default_metric. rewrite Hnone, <- Hdt. reflexivity.
          * left. unfold metric_allowed.
            change (dataset_type (a {{ metric := _ }})) with (dataset_type a).
            rewrite <- Hdt. reflexivity.
        + exists "rmse". split.
          * unfold default_metric. rewrite Hnone, <- Hdt. reflexivity.
          * left. unfold metric_allowed.
            change (dataset_type (a {{ metric := _ }})) with (dataset_type a).
            rewrite <- Hdt. reflexivity.
        + exists "rmse". split.
          * unfold default_metric. rewrite Hnone, <- Hdt. reflexivity.
          * left. unfold metric_allowed.
            change (dataset_type (a {{ metric := _ }})) with (dataset_type a).
            rewrite <- Hdt. reflexivity.
        + exists "log_loss". split.
          * unfold default_metric. rewrite Hnone, <- Hdt. reflexivity.
          * right. rewrite <- Hdt. reflexivity.
        + destruct (bert_vocab_func a =? "feature_vector") eqn:Eb;
            [exists "rmse"|exists "log_loss"];
            (split; [|right; rewrite <- Hdt; reflexivity]);
            unfold default_metric; rewrite Hnone, <- Hdt;
            cbn [String.eqb Ascii.eqb Bool.eqb]; rewrite Eb; reflexivity.
      - exists "rmse". split.
        + unfold default_metric. rewrite Hnone, Hdt, Hk. reflexivity.
        + left. unfold metric_allowed.
          change (dataset_type (a {{ metric := _ }})) with (dataset_type a).
          rewrite Hdt. reflexivity. }
    destruct Hm as (m & Hm & Hok).
    destruct (through_metric_total env a a1 m T1 Hm Hok) as (a3 & T3 & M3).
    eauto.
  - intros Hdt. cbn [In] in Hdt.
    assert (N : (dataset_type a =? "classification") = false
                /\ (dataset_type a =? "regression") = false
                /\ (dataset_type a =? "regression_with_binning") = false
                /\ (dataset_type a =? "unsupervised") = false
                /\ (dataset_type a =? "bert_pretraining") = false
                /\ (dataset_type a =? "kernel") = false).
    { repeat split; apply String.eqb_neq; intros E; apply Hdt; rewrite E;
        tauto. }
    destruct N as (N1 & N2 & N3 & N4 & N5 & N6).
    apply (check_metric_rejects env h a a1 "rmse" T1).
    + unfold default_metric. by rewrite Hnone, N1, N4, N5, N6.
    + unfold metric_allowed.
      change (dataset_type (a {{ metric := _ }})) with (dataset_type a).
      by rewrite N1, N2, N3, N6.
    + unfold in_list. cbn [existsb]. by rewrite N4, N5.
Qed.

Lemma default_metric_passes_witness :
  (exists a3 m,
     through_metric machine (parsed "regression_with_binning") = OK a3
     /\ metric a3 = Some m)
  /\ modify_train_args machine six_lists (parsed "ranking")
     = Err (IncompatibleMetricError "rmse" "ranking").
Proof.
  split.
  - pose (a := parsed "regression_with_binning").
    destruct (through_flags machine a) as [a1|e] eqn:E1;
      [|vm_compute in E1; discriminate].
    destruct (default_metric_passes machine six_lists a a1 E1 eq_refl)
      as (Hpass & _).
    apply Hpass. left. cbn. tauto.
  - pose (a := parsed "ranking").
    destruct (through_flags machine a) as [a1|e] eqn:E1;
      [|vm_compute in E1; discriminate].
    destruct (default_metric_passes machine six_lists a a1 E1 eq_refl)
      as (_ & Hfail).
    apply Hfail. cbn. intuition discriminate.
Defined.

(** X4. Lines 321-334.  A successful resolution has read the three negative
    flags, set [cuda] to "not disabled and a GPU is available",
    [target_scaling] and [features_scaling] to the negations, and deleted
    the three negative flags; [save_dir] is the supplied directory, or the
    name of the temporary directory when none was supplied, never None. *)
Theorem flags_and_save_dir (env : Env) (h h' : store) (a r : Namespace) :
  modify_train_args env h a = OK (r, h') ->
  (exists nc nt nf,
     no_cuda a = Present nc /\ no_target_scaling a = Present nt
     /\ no_features_scaling a = Present nf
     /\ cuda r = Present (negb nc && cuda_is_available env)
     /\ target_scaling r = Present (negb nt)
     /\ features_scaling r = Present (negb nf))
  /\ (cuda_is_available env = false -> cuda r = Present false)
  /\ no_cuda r = Absent /\ no_target_scaling r = Absent
  /\ no_features_scaling r = Absent
  /\ (forall d, save_dir a = Some d -> save_dir r = Some d)
  /\ (save_dir a = None -> save_dir r = Some (mkdtemp env)).
Proof.
  intros Hrun.
  destruct (modify_train_args_resolved _ _ _ _ _ Hrun)
    as (m & nc & nt & nf & _ & Hnc & Hnt & Hnf & ->).
  split; [exists nc, nt, nf; repeat split; assumption|].
  split.
  { intros Hgpu. unfold resolved. cbn [cuda]. rewrite Hgpu.
    by rewrite andb_false_r. }
  repeat split.
  - intros d Hd. unfold resolved. cbn [save_dir]. by rewrite Hd.
  - intros Hd. unfold resolved. cbn [save_dir]. by rewrite Hd.
Qed.

Lemma flags_and_save_dir_witness :
  exists r h',
    modify_train_args machine six_lists
      ((parsed "regression") {{ save_dir := Some "runs" }}) = OK (r, h')
    /\ cuda r = Present false
    /\ no_cuda r = Absent
    /\ save_dir r = Some "runs".
Proof.
  pose (a := (parsed "regression") {{ save_dir := Some "runs" }}).
  destruct (modify_train_args machine six_lists a) as [[r h']|e] eqn:E;
    [|vm_compute in E; discriminate].
  exists r, h'. split; [exact E|].
  destruct (flags_and_save_dir machine six_lists h' a r E)
    as (_ & Hcuda & Hno & _ & _ & Hdir & _).
  split; [exact (Hcuda eq_refl)|]. split; [exact Hno|].
  exact (Hdir "runs" eq_refl).
Defined.



(** X6. Lines 403-410.  A successful resolution had at least one
    feed-forward layer, and its three feed-forward options are never None:
    a supplied value is kept, a missing [ffn_hidden_size] becomes
    [hidden_size] and a missing [ffn_input_dropout] or [ffn_dropout] becomes
    [dropout].  A run that reaches line 403 with [ffn_num_layers] below 1
    fails with InvalidLayerCountError. *)
Theorem ffn_options (env : Env) (h : store) (a : Namespace) :
  (forall (r : Namespace) (h' : store),
     modify_train_args env h a = OK (r, h') ->
     1 <= ffn_num_layers a
     /\ ffn_hidden_size r
        = Some (match ffn_hidden_size a with
                | Some v => v
                | None => hidden_size a
                end)
     /\ ffn_input_dropout r
        = Some (match ffn_input_dropout a with
                | Some v => v
                | None => dropout a
                end)
     /\ ffn_dropout r
        = Some (match ffn_dropout a with
                | Some v => v
                | None => dropout a
                end)
     /\ hidden_size r = hidden_size a /\ dropout r = dropout a)
  /\ (forall (a6 : Namespace) (h6 : store),
        through_learning_rates env h a = OK (a6, h6) ->
        ffn_num_layers a < 1 ->
        modify_train_args env h a = Err InvalidLayerCountError).
Proof.
  split.
  - intros r h' Hrun.
    pose proof (modify_train_args_Valid _ _ _ _ _ Hrun) as V.
    destruct (modify_train_args_resolved _ _ _ _ _ Hrun)
      as (m & nc & nt & nf & _ & _ & _ & _ & ->).
    split; [exact (valid_layers _ _ _ V)|]. repeat split.
  - intros a6 h6 T6 Hn.
    pose proof (through_learning_rates_read_only _ _ _ _ _ T6) as R6.
    destruct (read_only_fields _ _ R6) as (_ & _ & _ & (_ & _ & _ & _ & E6)).
    apply through_ffn_Err. unfold through_ffn. rewrite T6. cbn [bind].
    unfold ffn_defaults, assert. rewrite E6.
    destruct (Z.leb_spec 1 (ffn_num_layers a)); [lia|reflexivity].
Qed.

Lemma ffn_options_witness :
  (exists r h',
     modify_train_args machine six_lists
       ((parsed "regression") {{ ffn_hidden_size := Some 64 }}) = OK (r, h')
     /\ ffn_hidden_size r = Some 64
     /\ ffn_dropout r = Some 0%float)
  /\ modify_train_args machine six_lists
       ((parsed "regression") {{ ffn_num_layers := 0 }})
     = Err InvalidLayerCountError.
Proof.
  split.
  - pose (a := (parsed "regression") {{ ffn_hidden_size := Some 64 }}).
    destruct (modify_train_args machine six_lists a) as [[r h']|e] eqn:E;
      [|vm_compute in E; discriminate].
    exists r, h'. split; [exact E|].
    destruct (ffn_options machine six_lists a) as (Hok & _).
    destruct (Hok r h' E) as (_ & Hh & _ & Hd & _).
    split; [exact Hh|exact Hd].
  - pose (a := (parsed "regression") {{ ffn_num_layers := 0 }}).
    destruct (through_learning_rates machine six_lists a)
      as [[a6 h6]|e] eqn:E6; [|vm_compute in E6; discriminate].
    destruct (ffn_options machine six_lists a) as (_ & Hfail).
    apply (Hfail a6 h6 E6). reflexivity.
Defined.

(** X7. What the resolution leaves as it was.  Lines 299-301, 415-416 and
    423-424: with [--test] the number of epochs becomes 0 and is kept
    otherwise; with no checkpoint directory [checkpoint_paths] is None and
    the supplied [ensemble_size] is kept; with a data path that is not a
    directory (a file, or a path that does not exist: its existence is never
    checked) the path is kept and [prespecified_chunk_dir] is None. *)
Theorem untouched_options (env : Env) (h h' : store) (a r : Namespace) :
  modify_train_args env h a = OK (r, h') ->
  epochs r = (if test a then 0 else epochs a)
  /\ (checkpoint_dir a = None ->
      checkpoint_paths r = Present None /\ ensemble_size r = ensemble_size a)
  /\ (os_path_isdir env (data_path a) = false ->
      data_path r = data_path a /\ prespecified_chunk_dir r = Present None).
Proof.
  intros Hrun.
  destruct (modify_train_args_resolved _ _ _ _ _ Hrun)
    as (m & nc & nt & nf & _ & _ & _ & _ & ->).
  unfold resolved.
  cbn [epochs checkpoint_paths ensemble_size data_path prespecified_chunk_dir].
  split; [reflexivity|]. split.
  - intros ->. split; reflexivity.
  - intros ->. split; reflexivity.
Qed.

Lemma untouched_options_witness :
  exists r h',
    modify_train_args machine six_lists
      ((parsed "regression") {{ test := true }}
                             {{ ensemble_size := 5 }}
                             {{ data_path := "missing.csv" }}) = OK (r, h')
    /\ epochs r = 0
    /\ ensemble_size r = 5
    /\ data_path r = "missing.csv"
    /\ prespecified_chunk_dir r = Present None.
Proof.
  pose (a := (parsed "regression") {{ test := true }}
                                   {{ ensemble_size := 5 }}
                                   {{ data_path := "missing.csv" }}).
  destruct (modify_train_args machine six_lists a) as [[r h']|e] eqn:E;
    [|vm_compute in E; discriminate].
  exists r, h'. split; [exact E|].
  destruct (untouched_options machine six_lists h' a r E)
    as (He & Hc & Hd).
  split; [exact He|].
  destruct (Hc eq_refl) as (_ & Hs). split; [exact Hs|].
  exact (Hd eq_refl).
Defined.

(** X8. The resolution never changes the attributes it only reads: [test],
    [vocab_path], [jtnn], [features_only], [features_generator],
    [features_path], [predict_features_and_task], [checkpoint_dir],
    [dataset_type], [split_type], [scaffold_overlap], [folds_file],
    [test_fold_index], [bert_vocab_func], [kernel_func], [hidden_size],
    [dropout], [ffn_num_layers], and the five learning-rate attributes it
    keeps still hold the same list objects. *)
Theorem read_only_kept (env : Env) (h h' : store) (a r : Namespace) :
  modify_train_args env h a = OK (r, h') -> read_only r = read_only a.
Proof.
  intros Hrun.
  destruct (modify_train_args_resolved _ _ _ _ _ Hrun)
    as (m & nc & nt & nf & _ & _ & _ & _ & ->).
  reflexivity.
Qed.

Lemma read_only_kept_witness :
  exists r h',
    modify_train_args machine six_lists
      ((parsed "unsupervised") {{ checkpoint_dir := Some "ckpts" }})
    = OK (r, h')
    /\ checkpoint_dir r = Some "ckpts"
    /\ dataset_type r = "unsupervised"
    /\ init_lr r = 0%nat.
Proof.
  pose (a := (parsed "unsupervised") {{ checkpoint_dir := Some "ckpts" }}).
  destruct (modify_train_args machine six_lists a) as [[r h']|e] eqn:E;
    [|vm_compute in E; discriminate].
  exists r, h'. split; [exact E|].
  pose proof (read_only_kept machine six_lists h' a r E) as R.
  unfold read_only in R.
  repeat split;
    [exact (f_equal (fun t => t.1.1.1.1.1.1.1.1.1.1.1.1.1.1.1.2) R)
    |exact (f_equal (fun t => t.1.1.1.1.1.1.1.1.1.1.1.1.1.1.2) R)
    |exact (f_equal (fun t => t.1.1.1.1.1.1.1.2) R)].
Defined.

(** X9. Lines 388-401 write to no list but the six the learning-rate
    attributes hold, whether some of these are one and the same list or
    not: every other list object is left as it was, and no list ever gets
    shorter. *)
Theorem other_lists_untouched (env : Env) (h h' : store) (a r : Namespace) :
  modify_train_args env h a = OK (r, h') ->
  exists scaler,
    lr_scaler a = Present scaler
    /\ (forall l,
          ~ In l [init_lr a; max_lr a; final_lr a; scaler;
                  warmup_epochs a; weight_decay a] ->
          h' l = h l)
    /\ (forall l, (length (h l) <= length (h' l))%nat).
Proof.
  intros Hrun.
  destruct (modify_train_args_trace _ _ _ _ _ Hrun)
    as (a1 & a2 & a4 & a5 & a6 & a7 & _ & _ & _ & _ & _ & _ & _ & _
        & T5 & S6 & _).
  pose proof (through_features_lr _ _ _ T5) as L5. cbv zeta in L5.
  destruct L5 as (_ & L5c & L5i & L5m & L5f & L5w & L5d).
  destruct (scale_learning_rates_other _ _ _ _ S6) as (s & Hs & Hout & Hlen).
  rewrite L5c in Hs. rewrite L5i, L5m, L5f, L5w, L5d in Hout.
  exists s. auto.
Qed.

Lemma other_lists_untouched_witness :
  exists r h',
    modify_train_args machine (<[7%nat := [3%float]]> six_lists)
      (parsed "unsupervised") = OK (r, h')
    /\ h' 7%nat = [3%float]
    /\ (1 <= length (h' 0%nat))%nat.
Proof.
  pose (a := parsed "unsupervised").
  pose (h := <[7%nat := [3%float]]> six_lists).
  destruct (modify_train_args machine h a) as [[r h']|e] eqn:E;
    [|vm_compute in E; discriminate].
  exists r, h'. split; [exact E|].
  destruct (other_lists_untouched machine h h' a r E)
    as (s & Hs & Hout & Hlen).
  injection Hs as <-. split.
  - rewrite Hout; [reflexivity|]. cbn. intuition discriminate.
  - exact (Hlen 0%nat).
Defined.

(** X10. Lines 373-374 and 381-382.  A run that reaches line 371 with
    [predict_features_and_task] on a dataset type other than regression
    fails with IncompatibleModeError, and so does a bert_pretraining run
    with [features_only] that passes the assertion of line 378; a
    successful run with [predict_features_and_task] has [predict_features]
    True. *)
Theorem incompatible_modes (env : Env) (h : store) (a a4 : Namespace) :
  through_vocab env a = OK a4 ->
  (predict_features_and_task a = true -> dataset_type a <> "regression" ->
   modify_train_args env h a = Err IncompatibleModeError)
  /\ (dataset_type a = "bert_pretraining" -> features_only a = true ->
      (predict_features a
       || opt_in_list (kernel_func a) ["features"; "features_dot"] = true ->
       truthy (feature_source a) = true) ->
      modify_train_args env h a = Err IncompatibleModeError)
  /\ (forall (r : Namespace) (h' : store),
        modify_train_args env h a = OK (r, h') ->
        predict_features r
        = predict_features a || predict_features_and_task a).
Proof.
  intros T4.
  pose proof (through_vocab_read_only _ _ _ T4) as R4.
  pose proof (through_vocab_unwritten _ _ _ T4) as (W4 & _).
  destruct (read_only_fields _ _ R4)
    as ((_ & _ & _ & E4fo & E4fg & E4fp) & (E4pt & _ & E4dt & _ & _ & _)
        & (_ & _ & E4kf & _ & _ & _) & _).
  repeat split.
  - intros Ht Hdt. apply through_features_Err. unfold through_features.
    rewrite T4. cbn [bind]. apply derive_feature_usage_task.
    + by rewrite E4pt.
    + by rewrite E4dt.
  - intros Hdt Hfo Hsrc. apply through_features_Err. unfold through_features.
    rewrite T4. cbn [bind].
    destruct (predict_features_and_task a) eqn:Ht.
    { apply derive_feature_usage_task; [by rewrite E4pt|].
      rewrite E4dt, Hdt. discriminate. }
    apply derive_feature_usage_bert.
    + by rewrite E4dt.
    + by rewrite E4fo.
    + by rewrite E4pt.
    + rewrite W4, E4kf, (feature_source_reads a4 a) by assumption. exact Hsrc.
  - intros r h' Hrun.
    destruct (modify_train_args_resolved _ _ _ _ _ Hrun)
      as (m & nc & nt & nf & _ & _ & _ & _ & ->).
    reflexivity.
Qed.

Lemma incompatible_modes_witness :
  modify_train_args machine six_lists
    ((parsed "classification") {{ predict_features_and_task := true }}
                               {{ features_path := Some "features.npy" }})
  = Err IncompatibleModeError
  /\ modify_train_args machine six_lists
       ((parsed "bert_pretraining") {{ features_only := true }})
     = Err IncompatibleModeError.
Proof.
  split.
  - pose (a := (parsed "classification")
                 {{ predict_features_and_task := true }}
                 {{ features_path := Some "features.npy" }}).
    destruct (through_vocab machine a) as [a4|e] eqn:E4;
      [|vm_compute in E4; discriminate].
    destruct (incompatible_modes machine six_lists a a4 E4) as (Htask & _).
    apply Htask; [reflexivity|discriminate].
  - pose (a := (parsed "bert_pretraining") {{ features_only := true }}).
    destruct (through_vocab machine a) as [a4|e] eqn:E4;
      [|vm_compute in E4; discriminate].
    destruct (incompatible_modes machine six_lists a a4 E4)
      as (_ & Hbert & _).
    apply Hbert; [reflexivity|reflexivity|]. intros Hf. discriminate Hf.
Defined.

(** The namespace parsed from the two required options alone is valid, for
    the five dataset types that need no further option. *)
Lemma parsed_Valid (env : Env) (h : store) (dt p : string) :
  In dt ["classification"; "regression"; "regression_with_binning";
         "unsupervised"; "bert_pretraining"] ->
  (forall es, resolve env p = Some (Dir es) -> filenames es <> []) ->
  (forall l, In l [0; 1; 2; 3; 4; 5]%nat -> length (h l) = 1%nat) ->
  Valid env h ((parsed dt) {{ data_path := p }}).
Proof.
  intros Hdt Hp Hone. split.
  - exists false, false, false. repeat split.
  - cbn [In] in Hdt.
    destruct Hdt as [<-|[<-|[<-|[<-|[<-|[]]]]]];
      eexists; (split; [reflexivity|]); vm_compute; tauto.
  - intros d Hd. discriminate Hd.
  - intros Hj. discriminate Hj.
  - intros Ht. discriminate Ht.
  - intros Hf. discriminate Hf.
  - reflexivity.
  - exists 3%nat. split; [reflexivity|]. intros l Hl.
    unfold in_range. rewrite (Hone l Hl).
    change (dataset_type ((parsed dt) {{ data_path := p }})) with dt.
    destruct (dt =? "unsupervised"); cbn; lia.
  - cbn. lia.
  - split; reflexivity.
  - exact Hp.
Qed.

(** X11. The defaults [add_train_args] declares pass every check of
    [modify_train_args]: the namespace parsed from
    [--data_path p --dataset_type dt] alone is resolved, for each dataset
    type but kernel, whenever [p] is not a directory without files.  The
    metric is auc for classification, log_loss for unsupervised and rmse
    otherwise, and there are two learning-rate groups for unsupervised and
    one otherwise.  For kernel, which has no default [kernel_func], the
    resolution fails with UnsupportedKernelFunctionError. *)
Theorem defaults_resolve (env : Env) (h : store) (p : string) :
  (forall dt,
     In dt ["classification"; "regression"; "regression_with_binning";
            "unsupervised"; "bert_pretraining"] ->
     (forall es, resolve env p = Some (Dir es) -> filenames es <> []) ->
     (forall l, In l [0; 1; 2; 3; 4; 5]%nat -> length (h l) = 1%nat) ->
     exists r h',
       modify_train_args env h ((parsed dt) {{ data_path := p }}) = OK (r, h')
       /\ metric r = Some (if dt =? "classification" then "auc"
                           else if dt =? "unsupervised" then "log_loss"
                           else "rmse")
       /\ num_lrs r = Present (if dt =? "unsupervised" then 2 else 1))
  /\ modify_train_args env h ((parsed "kernel") {{ data_path := p }})
     = Err (UnsupportedKernelFunctionError None).
Proof.
  split.
  - intros dt Hdt Hp Hone.
    destruct (Valid_modify_train_args _ _ _ (parsed_Valid env h dt p Hdt Hp Hone))
      as (r & h' & Hrun).
    exists r, h'. split; [exact Hrun|].
    destruct (modify_train_args_resolved _ _ _ _ _ Hrun)
      as (m & nc & nt & nf & Hm & _ & _ & _ & ->).
    apply (f_equal (fun x => match x with
                             | OK x => metric x
                             | Err _ => None
                             end)) in Hm.
    change (metric (resolved env ((parsed dt) {{ data_path := p }}) m nc nt nf))
      with (Some m).
    change (num_lrs (resolved env ((parsed dt) {{ data_path := p }}) m nc nt nf))
      with (Present (1 + Z.b2z ((dt =? "unsupervised") || false))).
    cbn [In] in Hdt.
    destruct Hdt as [<-|[<-|[<-|[<-|[<-|[]]]]]];
      vm_compute in Hm; injection Hm as <-; split; reflexivity.
  - apply through_default_metric_Err. reflexivity.
Qed.

Lemma defaults_resolve_witness :
  exists r h',
    modify_train_args machine six_lists
      ((parsed "bert_pretraining") {{ data_path := "chunks" }}) = OK (r, h')
    /\ metric r = Some "rmse"
    /\ num_lrs r = Present 1.
Proof.
  destruct (defaults_resolve machine six_lists "chunks") as (Hok & _).
  apply (Hok "bert_pretraining").
  - cbn. tauto.
  - intros es Hes. vm_compute in Hes. injection Hes as <-. discriminate.
  - intros l Hl. cbn in Hl.
    repeat (destruct Hl as [<-|Hl]; [reflexivity|]). destruct Hl.
Defined.

(** X12. Resolving a second time.  Take a raw bag that was resolved, whose
    six learning-rate attributes hold six distinct lists and whose data path
    is not a directory, and put back into the result the four attributes the
    resolution deleted (the scale attribute holding the same list as
    before).  Resolving that bag in the store the first run left succeeds
    and returns the same namespace, and it does not broadcast again (every
    list keeps its length), but it multiplies the initial, maximal and final
    rates by the scale list once more: the rate lists are updated in place,
    so each run scales them again. *)
Theorem resolving_again (env : Env) (h h1 : store) (a r1 : Namespace)
    (scaler : loc) :
  modify_train_args env h a = OK (r1, h1) ->
  lr_scaler a = Present scaler ->
  List.NoDup [init_lr a; max_lr a; final_lr a; scaler;
              warmup_epochs a; weight_decay a] ->
  os_path_isdir env (data_path a) = false ->
  exists h2,
    modify_train_args env h1 (restore a r1) = OK (r1, h2)
    /\ (forall l, length (h2 l) = length (h1 l))
    /\ h2 (init_lr a) = scaled (h1 (init_lr a)) (h1 scaler)
    /\ h2 (max_lr a) = scaled (h1 (max_lr a)) (h1 scaler)
    /\ h2 (final_lr a) = scaled (h1 (final_lr a)) (h1 scaler)
    /\ (forall l, l <> init_lr a -> l <> max_lr a -> l <> final_lr a ->
                  h2 l = h1 l).
Proof.
  intros Hrun Hs Hnd Hd.
  destruct (modify_train_args_resolved _ _ _ _ _ Hrun)
    as (m & nc & nt & nf & Hm & Hnc & Hnt & Hnf & Hr1).
  pose proof (modify_train_args_Valid _ _ _ _ _ Hrun) as V.
  pose proof (modify_train_args_lengths _ _ _ _ _ _ Hrun Hs) as Hlen.
  subst r1.
  assert (V2 : Valid env h1 (restore a (resolved env a m nc nt nf))).
  { apply (Valid_restore env h h1 a m nc nt nf V Hm); [|exact Hd].
    intros s l Hs' Hl. rewrite Hs in Hs'. injection Hs' as <-. by apply Hlen. }
  pose proof (restore_resolved env a m nc nt nf) as Hb. cbv zeta in Hb.
  set (b := restore a (resolved env a m nc nt nf)) in *.
  destruct Hb as (Rb & Mb & Pb & Sb & Lb & Cb & Tb & Fb & _).
  destruct (read_only_fields _ _ Rb)
    as (_ & (_ & _ & Edt & _ & _ & _) & (_ & _ & _ & Ei & Ema & Efi)
        & (Ew & Ewd & _ & _ & _)).
  destruct (Valid_modify_train_args _ _ _ V2) as (r2 & h2 & Hrun2).
  exists h2.
  assert (Er : r2 = resolved env a m nc nt nf).
  { destruct (modify_train_args_resolved _ _ _ _ _ Hrun2)
      as (m2 & nc2 & nt2 & nf2 & Hm2 & Hnc2 & Hnt2 & Hnf2 & Hr2).
    assert (Em : m2 = m).
    { unfold default_metric in Hm2. rewrite Mb in Hm2.
      apply (f_equal (fun x => match x with
                               | OK x => metric x
                               | Err _ => None
                               end)) in Hm2.
      rewrite Mb in Hm2. change (Some m = Some m2) in Hm2. congruence. }
    rewrite Cb, Hnc in Hnc2. rewrite Tb, Hnt in Hnt2. rewrite Fb, Hnf in Hnf2.
    injection Hnc2 as <-. injection Hnt2 as <-. injection Hnf2 as <-.
    subst m2. rewrite Hr2. subst b. by apply resolved_restore. }
  subst r2. split; [exact Hrun2|].
  destruct (modify_train_args_trace _ _ _ _ _ Hrun2)
    as (b1 & b2 & b4 & b5 & b6 & b7 & _ & _ & _ & _ & _ & _ & _ & _
        & T5 & S6 & _).
  pose proof (through_features_lr _ _ _ T5) as L5. cbv zeta in L5.
  set (bb := force_separate_ffn_lr b5) in *.
  destruct L5 as (L5s & L5c & L5i & L5m & L5f & L5w & L5d).
  rewrite Edt, Sb, orb_assoc, orb_diag in L5s.
  rewrite Lb in L5c. rewrite Ei in L5i. rewrite Ema in L5m.
  rewrite Efi in L5f. rewrite Ew in L5w. rewrite Ewd in L5d.
  destruct (scale_learning_rates_full h1 bb scaler) as (b' & h' & S & Full).
  { by rewrite L5c. }
  { by rewrite L5i, L5m, L5f, L5w, L5d. }
  { rewrite L5i, L5m, L5f, L5w, L5d, L5s. exact Hlen. }
  rewrite S6 in S. injection S as _ <-.
  rewrite L5i, L5m, L5f in Full. exact Full.
Qed.

Lemma resolving_again_witness :
  exists r1 h1 h2,
    modify_train_args machine six_lists (parsed "regression") = OK (r1, h1)
    /\ modify_train_args machine h1 (restore (parsed "regression") r1)
       = OK (r1, h2)
    /\ h1 0%nat = [0.5%float]
    /\ h2 0%nat = [1%float].
Proof.
  pose (a := parsed "regression").
  destruct (modify_train_args machine six_lists a) as [[r1 h1]|e] eqn:E;
    [|vm_compute in E; discriminate].
  assert (Hnd : List.NoDup [init_lr a; max_lr a; final_lr a; 3%nat;
                            warmup_epochs a; weight_decay a]).
  { repeat constructor; cbn; intuition discriminate. }
  destruct (resolving_again machine six_lists h1 a r1 3%nat E eq_refl Hnd
              eq_refl)
    as (h2 & Hrun2 & _ & Hinit & _).
  exists r1, h1, h2. split; [exact E|]. split; [exact Hrun2|].
  assert (H0 : h1 0%nat = [0.5%float] /\ h1 3%nat = [2%float]).
  { pose proof (f_equal (fun x => match x with
                                  | OK (_, s) => (s 0%nat, s 3%nat)
                                  | Err _ => ([], [])
                                  end) E) as E0.
    vm_compute in E0.
    split; [exact (eq_sym (f_equal fst E0))|exact (eq_sym (f_equal snd E0))]. }
  destruct H0 as (H0 & H3). split; [exact H0|].
  change (init_lr a) with 0%nat in Hinit. rewrite Hinit, H0, H3.
  reflexivity.
Defined.

(** ** What the error of each block says about its input *)















(** ** The order of the walk *)

Lemma collect_checkpoints_flat_map {A : Type}
    (f : A -> list (string * list string * list string)) (xs : list A) :
  collect_checkpoints (flat_map f xs)
  = flat_map (fun x => collect_checkpoints (f x)) xs.
Proof.
  induction xs as [|x xs IH]; [reflexivity|].
  cbn [flat_map]. by rewrite collect_checkpoints_app, IH.
Qed.

Lemma collect_checkpoints_dir (root : string) (es : list (string * node)) :
  collect_checkpoints (walk root (Dir es))
  = (map (os_path_join root)
         (List.filter (fun f => f =? "model.pt") (filenames es))
     ++ flat_map (fun e => collect_checkpoints
                             (walk (os_path_join root (fst e)) (snd e))) es)%list.
Proof.
  cbn [walk]. by rewrite collect_checkpoints_cons, collect_checkpoints_flat_map.
Qed.

Lemma update_args_from_checkpoint_dir_none (env : Env) (a : Namespace)
    (d : string) :
  checkpoint_dir a = Some d -> collect_checkpoints (os_walk env d) = [] ->
  update_args_from_checkpoint_dir env a = Err (NoCheckpointsFoundError d).
Proof.
  unfold update_args_from_checkpoint_dir. intros -> E. cbv zeta.
  change (ensemble_size (_ {{ ensemble_size := ?v }})) with v.
  by rewrite E.
Qed.

(** X14. The walk of the checkpoint directory is top down.  In a successful
    resolution [checkpoint_paths] lists first the [model.pt] of the
    directory itself, then, for each entry of the directory in listing
    order, the checkpoints found below that entry.  A checkpoint directory
    that does not exist or is a file is walked as an empty one: a run that
    reaches line 363 fails with NoCheckpointsFoundError. *)
Theorem checkpoint_order (env : Env) (h : store) (a : Namespace) (d : string) :
  checkpoint_dir a = Some d ->
  (forall (r : Namespace) (h' : store) (es : list (string * node)),
     modify_train_args env h a = OK (r, h') ->
     resolve env d = Some (Dir es) ->
     checkpoint_paths r
     = Present
         (Some (map (os_path_join d)
                    (List.filter (fun f => f =? "model.pt") (filenames es))
                ++ flat_map
                     (fun e => collect_checkpoints
                                 (walk (os_path_join d (fst e)) (snd e)))
                     es)%list))
  /\ (forall a3 : Namespace,
        through_metric env a = OK a3 ->
        resolve env d = None \/ resolve env d = Some File ->
        modify_train_args env h a = Err (NoCheckpointsFoundError d)).
Proof.
  intros Hd. split.
  - intros r h' es Hrun Hes.
    destruct (modify_train_args_resolved _ _ _ _ _ Hrun)
      as (m & nc & nt & nf & _ & _ & _ & _ & ->).
    unfold resolved. cbn [checkpoint_paths]. rewrite Hd. cbn [option_map].
    unfold os_walk. rewrite Hes. by rewrite collect_checkpoints_dir.
  - intros a3 T3 Hno.
    pose proof (through_metric_read_only _ _ _ T3) as R3.
    destruct (read_only_fields _ _ R3) as (_ & (_ & E3cd & _) & _).
    apply through_checkpoints_Err. unfold through_checkpoints.
    rewrite T3. apply update_args_from_checkpoint_dir_none.
    + by rewrite E3cd.
    + unfold os_walk. by destruct Hno as [-> | ->].
Qed.

Lemma checkpoint_order_witness :
  (exists r h',
     modify_train_args machine six_lists
       ((parsed "regression") {{ checkpoint_dir := Some "ckpts" }})
     = OK (r, h')
     /\ checkpoint_paths r
        = Present (Some ["ckpts/model.pt"; "ckpts/fold_0/model.pt"]))
  /\ modify_train_args machine six_lists
       ((parsed "regression") {{ checkpoint_dir := Some "data.csv" }})
     = Err (NoCheckpointsFoundError "data.csv").
Proof.
  split.
  - pose (a := (parsed "regression") {{ checkpoint_dir := Some "ckpts" }}).
    destruct (modify_train_args machine six_lists a) as [[r h']|e] eqn:E;
      [|vm_compute in E; discriminate].
    exists r, h'. split; [exact E|].
    destruct (checkpoint_order machine six_lists a "ckpts" eq_refl)
      as (Horder & _).
    exact (Horder r h' _ E eq_refl).
  - pose (a := (parsed "regression") {{ checkpoint_dir := Some "data.csv" }}).
    destruct (through_metric machine a) as [a3|e] eqn:E3;
      [|vm_compute in E3; discriminate].
    destruct (checkpoint_order machine six_lists a "data.csv" eq_refl)
      as (_ & Hnone).
    apply (Hnone a3 E3). right. reflexivity.
Defined.

(** X15. After a successful resolution [num_lrs] is 1 or 2 and each of the
    six learning-rate lists has exactly [num_lrs] entries, whether the
    attributes hold six distinct lists or share some: [xs[i]] is in range
    for every group [i] of every rate attribute. *)
Theorem rate_lists_full (env : Env) (h h' : store) (a r : Namespace) :
  modify_train_args env h a = OK (r, h') ->
  exists (n : Z) (scaler : loc),
    num_lrs r = Present n
    /\ (n = 1 \/ n = 2)
    /\ lr_scaler a = Present scaler
    /\ forall l,
         In l [init_lr r; max_lr r; final_lr r; scaler;
               warmup_epochs r; weight_decay r] ->
         Z.of_nat (length (h' l)) = n
         /\ forall i, (0 <= i < n) -> is_Some (h' l !! Z.to_nat i).
Proof.
  intros Hrun.
  pose proof (modify_train_args_Valid _ _ _ _ _ Hrun) as V.
  destruct (valid_rates _ _ _ V) as (scaler & Hs & _).
  pose proof (modify_train_args_lengths _ _ _ _ _ scaler Hrun Hs) as Hlen.
  destruct (modify_train_args_resolved _ _ _ _ _ Hrun)
    as (m & nc & nt & nf & _ & _ & _ & _ & ->).
  exists (1 + Z.b2z ((dataset_type a =? "unsupervised") || separate_ffn_lr a)),
    scaler.
  split; [reflexivity|]. split.
  { destruct ((dataset_type a =? "unsupervised") || separate_ffn_lr a);
      cbn; auto. }
  split; [exact Hs|].
  intros l Hl. specialize (Hlen l Hl). split; [exact Hlen|].
  intros i Hi. apply lookup_lt_is_Some_2. lia.
Qed.

Lemma rate_lists_full_witness :
  exists r h',
    modify_train_args machine (<[1%nat := [0.5%float; 0.25%float]]> six_lists)
      ((parsed "regression") {{ separate_ffn_lr := true }}
                             {{ final_lr := 1%nat }}) = OK (r, h')
    /\ num_lrs r = Present 2
    /\ length (h' 1%nat) = 2%nat
    /\ length (h' 4%nat) = 2%nat.
Proof.
  pose (a := (parsed "regression") {{ separate_ffn_lr := true }}
                                   {{ final_lr := 1%nat }}).
  pose (h := <[1%nat := [0.5%float; 0.25%float]]> six_lists).
  destruct (modify_train_args machine h a) as [[r h']|e] eqn:E;
    [|vm_compute in E; discriminate].
  exists r, h'. split; [exact E|].
  destruct (rate_lists_full machine h h' a r E)
    as (n & scaler & Hn & _ & Hs & Hfull).
  injection Hs as <-.
  assert (Hr : num_lrs r = Present 2 /\ max_lr r = 1%nat
               /\ warmup_epochs r = 4%nat).
  { apply modify_train_args_resolved in E.
    destruct E as (m & nc & nt & nf & _ & _ & _ & _ & ->). repeat split. }
  destruct Hr as (Hn2 & R1 & R4).
  rewrite Hn2 in Hn. injection Hn as <-.
  split; [exact Hn2|].
  assert (L1 := Hfull 1%nat). assert (L4 := Hfull 4%nat).
  rewrite R1, R4 in L1, L4. cbn [In] in L1, L4.
  destruct L1 as (L1 & _); [tauto|]. destruct L4 as (L4 & _); [tauto|].
  split; lia.
Defined.
